(** * Biblioteca API: a shallow embedding of the validators, the token
    helpers, the authentication middleware and the request handlers of the
    Express server, with the properties the specification states about
    them.

    Layout: [JS] (values, strings and the built-ins the code calls),
    [Validators] (validators.js), [Jwt] (auth/jwt.js), [Middleware]
    (auth/middleware.js), [Supabase] (the query builder the server talks
    to), [Server] (server.js) and [MemDb] (a reference store). *)

From Stdlib Require Import ZArith String Ascii List Lia Bool DecimalString.
From stdpp Require Import base strings list gmap.

Local Open Scope string_scope.
Local Open Scope Z_scope.

(* ===================================================================== *)
(** * JavaScript values, strings and built-ins *)
(* ===================================================================== *)

Module JS.

(** The values the code handles: what [JSON.parse] produces for
    [req.body], the rows the store returns, the objects the handlers build,
    and [undefined] for an absent field.  Numbers are the integer-valued
    ones.  An object is a finite map from its keys. *)
#[local] Set Warnings "-register-all".
Inductive value : Type :=
| VUndefined
| VNull
| VBool (b : bool)
| VNum (n : Z)
| VStr (s : string)
| VArr (l : list value)
| VObj (o : gmap string value).
#[local] Set Warnings "register-all".

Abbreviation objeto := (gmap string value).

(** [o.k], [undefined] when [o] has no key [k]. *)
Definition campo (o : objeto) (k : string) : value := default VUndefined (o !! k).

(** [v.k] and [v?.k] on a value that is an object or nullish. *)
Definition campo_de (v : value) (k : string) : value :=
  match v with VObj o => campo o k | _ => VUndefined end.

(** [Boolean(v)], the test of [if (v)] and [!v]. *)
Definition truthy (v : value) : bool :=
  match v with
  | VUndefined | VNull => false
  | VBool b => b
  | VNum n => negb (n =? 0)
  | VStr s => negb (s =? EmptyString)%string
  | VArr _ | VObj _ => true
  end.

Definition typeof (v : value) : string :=
  match v with
  | VUndefined => "undefined"
  | VNull => "object"
  | VBool _ => "boolean"
  | VNum _ => "number"
  | VStr _ => "string"
  | VArr _ | VObj _ => "object"
  end.

(** [a ?? b] *)
Definition nullish (v : value) : bool :=
  match v with VUndefined | VNull => true | _ => false end.

Definition coalesce (a b : value) : value := if nullish a then b else a.

(** [a || b] *)
Definition ou (a b : value) : value := if truthy a then a else b.

(** ** Code units

    A string is its sequence of code units; the model holds the code
    units below 256, so a character class is a predicate on [ascii]. *)

Definition code_unit (c : ascii) : Z := Z.of_N (N_of_ascii c).

(** [\d] *)
Definition is_digit (c : ascii) : bool := (48 <=? code_unit c) && (code_unit c <=? 57).

(** [\w] *)
Definition is_word (c : ascii) : bool :=
  is_digit c
  || ((65 <=? code_unit c) && (code_unit c <=? 90))
  || ((97 <=? code_unit c) && (code_unit c <=? 122))
  || (code_unit c =? 95).

(** [\s], and the white space [trim] strips: TAB, LF, VT, FF, CR, SP and
    NBSP are the ones below 256. *)
Definition is_space (c : ascii) : bool :=
  ((9 <=? code_unit c) && (code_unit c <=? 13))
  || (code_unit c =? 32) || (code_unit c =? 160).

(** [Number(c)] for a one-digit string. *)
Definition digit_value (c : ascii) : Z := code_unit c - 48.

(** [s.replace(/[class]/g, '')]: every code unit of the class is dropped. *)
Fixpoint remove_class (cls : ascii -> bool) (s : string) : string :=
  match s with
  | EmptyString => EmptyString
  | String c r => if cls c then remove_class cls r else String c (remove_class cls r)
  end.

Fixpoint trim_start (s : string) : string :=
  match s with
  | EmptyString => EmptyString
  | String c r => if is_space c then trim_start r else s
  end.

(** [trimEnd], as a right fold: a white-space unit is dropped when what
    follows it has been trimmed away entirely. *)
Fixpoint trim_end (s : string) : string :=
  match s with
  | EmptyString => EmptyString
  | String c r =>
      match trim_end r with
      | EmptyString => if is_space c then EmptyString else String c EmptyString
      | r' => String c r'
      end
  end.

Definition trim (s : string) : string := trim_end (trim_start s).

(** [toLowerCase] on code units below 256: A-Z, and the Latin-1 capitals
    (all of 192..222 but the multiplication sign 215). *)
Definition lower_char (c : ascii) : ascii :=
  let n := code_unit c in
  if ((65 <=? n) && (n <=? 90))
     || ((192 <=? n) && (n <=? 222) && negb (n =? 215))
  then ascii_of_N (Z.to_N (n + 32)) else c.

Fixpoint toLowerCase (s : string) : string :=
  match s with
  | EmptyString => EmptyString
  | String c r => String (lower_char c) (toLowerCase r)
  end.

(** [s.startsWith(p)] *)
Definition startsWith (s p : string) : bool := String.prefix p s.

(** [s.substring(n)] for [0 <= n] *)
Fixpoint substring_from (n : nat) (s : string) : string :=
  match n, s with
  | O, _ => s
  | S k, EmptyString => EmptyString
  | S k, String _ r => substring_from k r
  end.

(** [s.includes(p)] *)
Fixpoint includes (s p : string) : bool :=
  String.prefix p s
  || match s with
     | EmptyString => false
     | String _ r => includes r p
     end.

(** [s.split(sep)] for a one-unit separator. *)
Fixpoint split_on (sep : ascii) (s : string) : list string :=
  match s with
  | EmptyString => [EmptyString]
  | String c r =>
      if Ascii.eqb c sep then EmptyString :: split_on sep r
      else match split_on sep r with
           | p :: ps => String c p :: ps
           | [] => [String c EmptyString]
           end
  end.

(** [Number(s)] where [s] is a run of decimal digits (the only strings the
    modelled code converts after its pattern checks): the value read in
    base ten, whatever the leading zeros. *)
Definition decimal_value (s : string) : Z :=
  fold_left (fun acc c => 10 * acc + digit_value c) (list_ascii_of_string s) 0.

(** [String(n)] for an integer-valued number. *)
Definition string_of_Z (n : Z) : string :=
  match n with
  | Z0 => "0"
  | Zpos p => NilEmpty.string_of_uint (Pos.to_uint p)
  | Zneg p => String "-" (NilEmpty.string_of_uint (Pos.to_uint p))
  end.

(** [String(v)]; an array prints its elements joined by commas, a
    nullish element as nothing. *)
Fixpoint to_String (v : value) : string :=
  match v with
  | VUndefined => "undefined"
  | VNull => "null"
  | VBool true => "true"
  | VBool false => "false"
  | VNum n => string_of_Z n
  | VStr s => s
  | VArr l =>
      (fix junta (l : list value) : string :=
         match l with
         | [] => EmptyString
         | [x] => if nullish x then EmptyString else to_String x
         | x :: r => (if nullish x then EmptyString else to_String x) +:+ "," +:+ junta r
         end) l
  | VObj _ => "[object Object]"
  end.

(** [a === b] on primitives; two objects or arrays met in the modelled
    code are never the same reference. *)
Definition igual_estrito (a b : value) : bool :=
  match a, b with
  | VUndefined, VUndefined | VNull, VNull => true
  | VBool x, VBool y => Bool.eqb x y
  | VNum x, VNum y => x =? y
  | VStr x, VStr y => (x =? y)%string
  | _, _ => false
  end.

(** [a < b] on strings: code units compared from the left. *)
Fixpoint menor_str (a b : string) : bool :=
  match a, b with
  | _, EmptyString => false
  | EmptyString, String _ _ => true
  | String x a', String y b' =>
      if code_unit x <? code_unit y then true
      else if code_unit y <? code_unit x then false
      else menor_str a' b'
  end.

(** A thrown exception, by its [message]. *)
Inductive outcome (A : Type) : Type :=
| Return (a : A)
| Throw (message : string).
Arguments Return {A} a.
Arguments Throw {A} message.

End JS.
Import JS.

(* ===================================================================== *)
(** * validators.js *)
(* ===================================================================== *)

Module Validators.

(** ** validarCPF *)

(** [/^(\d)\1{10}$/.test(s)]: a digit followed by ten copies of itself. *)
Definition regex_repetido (s : string) : bool :=
  match s with
  | EmptyString => false
  | String c r =>
      is_digit c
      && (String.length r =? 10)%nat
      && forallb (Ascii.eqb c) (list_ascii_of_string r)
  end.

(** [for (let i = i0; i < i0 + n; i += 1) soma += numeros[i] * (peso - i)].
    The loop only runs on an array of eleven numbers, so [numeros[i]] is
    always an element. *)
Fixpoint laco_soma (numeros : list Z) (peso : Z) (i n : nat) (soma : Z) : Z :=
  match n with
  | O => soma
  | S k => laco_soma numeros peso (S i) k (soma + nth i numeros 0 * (peso - Z.of_nat i))
  end.

Definition validarCPF (cpf : value) : bool :=
  if negb (truthy cpf) || negb (typeof cpf =? "string")%string then false
  else
    match cpf with
    | VStr s =>
        let cpfLimpo := remove_class (fun c => negb (is_digit c)) s in
        if negb (String.length cpfLimpo =? 11)%nat then false
        else if regex_repetido cpfLimpo then false
        else
          let numeros := map digit_value (list_ascii_of_string cpfLimpo) in
          (* Primeiro dígito verificador *)
          let soma := laco_soma numeros 10 0 9 0 in
          let resto := soma mod 11 in
          let dv1 := if resto <? 2 then 0 else 11 - resto in
          if negb (nth 9 numeros 0 =? dv1) then false
          else
            (* Segundo dígito verificador *)
            let soma := laco_soma numeros 11 0 10 0 in
            let resto := soma mod 11 in
            let dv2 := if resto <? 2 then 0 else 11 - resto in
            nth 10 numeros 0 =? dv2
    | _ => false
    end.

(** *** The rule as the specification words it *)

(** The digits left once every non-digit is stripped. *)
Definition cpf_digitos (s : string) : list Z :=
  map digit_value (List.filter is_digit (list_ascii_of_string s)).

Fixpoint soma_ponderada (ds pesos : list Z) : Z :=
  match ds, pesos with
  | d :: ds', p :: ps' => d * p + soma_ponderada ds' ps'
  | _, _ => 0
  end.

(** 0 when the sum mod 11 is less than 2, 11 minus (sum mod 11) otherwise. *)
Definition digito_verificador (soma : Z) : Z :=
  if soma mod 11 <? 2 then 0 else 11 - soma mod 11.

Definition cpf_conforme (s : string) : Prop :=
  let ds := cpf_digitos s in
  length ds = 11%nat
  /\ ~ (exists d, ds = repeat d 11)
  /\ nth 9 ds 0 = digito_verificador (soma_ponderada (take 9 ds) [10; 9; 8; 7; 6; 5; 4; 3; 2])
  /\ nth 10 ds 0 = digito_verificador (soma_ponderada (take 10 ds) [11; 10; 9; 8; 7; 6; 5; 4; 3; 2]).

(** Eleven copies of one code unit. *)
Definition onze_vezes (c : ascii) : string :=
  string_of_list_ascii (repeat c 11).

(** ** validarData *)

(** The calendar of [Date]: a date object is kept as the number of its
    local day counted from 1970-01-01, which is what [new Date(y, m, d)]
    builds (MakeDay) and what the getters read back (YearFromTime,
    MonthFromTime, DateFromTime) in the proleptic Gregorian calendar.  The
    time zone plays no part: the getters are local, as the constructor is. *)
Module Date.

(** Day number of the civil date [y]-[m]-[d], [m] from 1; linear in [d],
    so a day past the end of the month runs into the next one. *)
Definition days_from_civil (y m d : Z) : Z :=
  let y' := if m <=? 2 then y - 1 else y in
  let era := y' / 400 in
  let yoe := y' - era * 400 in
  let mp := if 2 <? m then m - 3 else m + 9 in
  let doy := (153 * mp + 2) / 5 + d - 1 in
  let doe := yoe * 365 + yoe / 4 - yoe / 100 + doy in
  era * 146097 + doe - 719468.

(** The civil date of a day number: (year, month from 1, day). *)
Definition civil_from_days (z : Z) : Z * Z * Z :=
  let z' := z + 719468 in
  let era := z' / 146097 in
  let doe := z' - era * 146097 in
  let yoe := (doe - doe / 1460 + doe / 36524 - doe / 146096) / 365 in
  let y := yoe + era * 400 in
  let doy := doe - (365 * yoe + yoe / 4 - yoe / 100) in
  let mp := (5 * doy + 2) / 153 in
  let d := doy - (153 * mp + 2) / 5 + 1 in
  let m := if mp <? 10 then mp + 3 else mp - 9 in
  (if m <=? 2 then y + 1 else y, m, d).

(** [new Date(year, month, date)], [month] from 0.  A year from 0 to 99
    stands for 1900 + year. *)
Definition make (year month date : Z) : Z :=
  let yr := if (0 <=? year) && (year <=? 99) then 1900 + year else year in
  let ym := yr + month / 12 in
  let mn := month mod 12 in
  days_from_civil ym (mn + 1) 1 + (date - 1).

Definition getFullYear (t : Z) : Z := fst (fst (civil_from_days t)).
Definition getMonth (t : Z) : Z := snd (fst (civil_from_days t)) - 1.
Definition getDate (t : Z) : Z := snd (civil_from_days t).

End Date.

Definition entre (lo hi c : ascii) : bool :=
  (code_unit lo <=? code_unit c) && (code_unit c <=? code_unit hi).

(** [/^(0[1-9]|[12][0-9]|3[01])\/(0[1-9]|1[0-2])\/(\d{4})$/.test(s)] *)
Definition regex_data (s : string) : bool :=
  match list_ascii_of_string s with
  | [d1; d2; b1; m1; m2; b2; a1; a2; a3; a4] =>
      ((Ascii.eqb d1 "0" && entre "1" "9" d2)
       || (entre "1" "2" d1 && entre "0" "9" d2)
       || (Ascii.eqb d1 "3" && entre "0" "1" d2))
      && Ascii.eqb b1 "/"
      && ((Ascii.eqb m1 "0" && entre "1" "9" m2)
          || (Ascii.eqb m1 "1" && entre "0" "2" m2))
      && Ascii.eqb b2 "/"
      && is_digit a1 && is_digit a2 && is_digit a3 && is_digit a4
  | _ => false
  end.

Definition validarData (data : value) : bool :=
  if negb (truthy data) || negb (typeof data =? "string")%string then false
  else
    match data with
    | VStr s =>
        if negb (regex_data s) then false
        else
          match map decimal_value (split_on "/" s) with
          | dia :: mes :: ano :: _ =>
              let date := Date.make ano (mes - 1) dia in
              (Date.getFullYear date =? ano)
              && (Date.getMonth date =? mes - 1)
              && (Date.getDate date =? dia)
          | _ => false
          end
    | _ => false
    end.

(** ** validarCEP *)



(** ** formatarData *)

(** [`${ano}-${mes}-${dia}`] after [const [dia, mes, ano] = data.split('/')]:
    a missing part prints as [undefined]. *)
Definition formatarData (data : value) : outcome value :=
  if negb (truthy data) then Return VNull
  else
    match data with
    | VStr s =>
        let partes := split_on "/" s in
        let dia := nth 0 partes "undefined" in
        let mes := nth 1 partes "undefined" in
        let ano := nth 2 partes "undefined" in
        Return (VStr (ano +:+ "-" +:+ mes +:+ "-" +:+ dia))
    | _ => Throw "data.split is not a function"
    end.

(** ** sanitizarEntrada *)

(** The double quote, code unit 34. *)
Definition aspas : ascii := ascii_of_N 34.

Definition sanitizarEntrada (entrada : value) : value :=
  match entrada with
  | VStr s =>
      VStr (trim
              (remove_class (fun c => Ascii.eqb c aspas || Ascii.eqb c "'")
                 (remove_class (fun c => Ascii.eqb c "<" || Ascii.eqb c ">") s)))
  | _ => entrada
  end.

(** ** sanitizarSQLInjection *)

(** [s.replace(/lit/g, '')] for a literal [lit] of one unit or more: the
    occurrences are taken from the left and do not overlap; [skip] counts
    the units of the current occurrence still to drop. *)
Fixpoint remove_literal_aux (lit : string) (skip : nat) (s : string) : string :=
  match s with
  | EmptyString => EmptyString
  | String c r =>
      match skip with
      | S k => remove_literal_aux lit k r
      | O =>
          if String.prefix lit s
          then remove_literal_aux lit (String.length lit - 1) r
          else String c (remove_literal_aux lit O r)
      end
  end.

Definition remove_literal (lit s : string) : string := remove_literal_aux lit 0 s.

Definition palavras_perigosas : list string :=
  ["drop"; "union"; "select"; "insert"; "delete"; "update"; "alter"; "create"; "truncate"].

(** Letters compared as the [i] flag does: A-Z against a-z. *)
Definition minuscula_ascii (c : ascii) : ascii :=
  if (65 <=? code_unit c) && (code_unit c <=? 90)
  then ascii_of_N (Z.to_N (code_unit c + 32)) else c.

Fixpoint prefixo_ci (kw s : string) : bool :=
  match kw, s with
  | EmptyString, _ => true
  | String k kw', String c s' => Ascii.eqb k (minuscula_ascii c) && prefixo_ci kw' s'
  | String _ _, EmptyString => false
  end.

(** The keyword [kw] stands at the head of [s] and a word boundary follows. *)
Definition palavra_em (s kw : string) : bool :=
  prefixo_ci kw s
  && match substring_from (String.length kw) s with
     | EmptyString => true
     | String d _ => negb (is_word d)
     end.

(** [s.replace(/\b(drop|...|truncate)\b/gi, '')]; [antes] tells whether
    the unit before the head of [s] is a word unit. *)
Fixpoint remove_palavras_aux (antes : bool) (skip : nat) (s : string) : string :=
  match s with
  | EmptyString => EmptyString
  | String c r =>
      match skip with
      | S k => remove_palavras_aux (is_word c) k r
      | O =>
          match (if antes then None else List.find (palavra_em s) palavras_perigosas) with
          | Some kw => remove_palavras_aux (is_word c) (String.length kw - 1) r
          | None => String c (remove_palavras_aux (is_word c) O r)
          end
      end
  end.

Definition remove_palavras (s : string) : string := remove_palavras_aux false 0 s.

Definition sanitizarSQLInjection (entrada : value) : value :=
  match entrada with
  | VNull | VUndefined => VStr EmptyString
  | _ =>
      let base := match entrada with VStr s => s | _ => to_String entrada end in
      let semAspasEHtml := sanitizarEntrada (VStr base) in
      let texto := match semAspasEHtml with VStr t => t | _ => base end in
      VStr (trim
              (remove_palavras
                 (remove_class (fun c => Ascii.eqb c ";")
                    (remove_literal "*/"
                       (remove_literal "/*"
                          (remove_literal "--" texto))))))
  end.

(** ** validarEmail *)

Definition email_unidade (c : ascii) : bool := negb (is_space c) && negb (Ascii.eqb c "@").

(** The units before the first [@], and what follows it. *)
Fixpoint ate_arroba (l : list ascii) : list ascii * option (list ascii) :=
  match l with
  | [] => ([], None)
  | c :: r =>
      if Ascii.eqb c "@" then ([], Some r)
      else let '(a, d) := ate_arroba r in (c :: a, d)
  end.

(** [/^[^\s@]+@[^\s@]+\.[^\s@]+$/.test(s)]: as no part may hold an [@],
    the local part is what precedes the first [@]; the rest is made of
    units of the class and has a dot that is neither its first nor its
    last unit. *)
Definition regex_email (s : string) : bool :=
  match ate_arroba (list_ascii_of_string s) with
  | (loc, Some dom) =>
      negb (Nat.eqb (length loc) 0) && forallb email_unidade loc
      && forallb email_unidade dom
      && match dom with
         | [] => false
         | _ :: r => existsb (Ascii.eqb ".") (removelast r)
         end
  | (_, None) => false
  end.

Definition validarEmail (email : value) : bool :=
  if negb (truthy email) || negb (typeof email =? "string")%string then false
  else match email with VStr s => regex_email s | _ => false end.

(** ** validarComprimento *)


(** *** The calendar as the specification words it *)

Definition bissexto (ano : Z) : bool :=
  (ano mod 4 =? 0) && (negb (ano mod 100 =? 0) || (ano mod 400 =? 0)).

Definition dias_no_mes (ano mes : Z) : Z :=
  if mes =? 2 then (if bissexto ano then 29 else 28)
  else if (mes =? 4) || (mes =? 6) || (mes =? 9) || (mes =? 11) then 30
  else 31.

(** The text [DD/MM/YYYY] of a day, a month and a year, two, two and four
    digits. *)
Definition dois_digitos (n : Z) : string :=
  String (ascii_of_N (Z.to_N (48 + n / 10))) (String (ascii_of_N (Z.to_N (48 + n mod 10))) EmptyString).

Definition quatro_digitos (n : Z) : string :=
  dois_digitos (n / 100) +:+ dois_digitos (n mod 100).

Definition texto_data (dia mes ano : Z) : string :=
  dois_digitos dia +:+ "/" +:+ dois_digitos mes +:+ "/" +:+ quatro_digitos ano.


End Validators.

(* ===================================================================== *)
(** * auth/jwt.js *)
(* ===================================================================== *)

Module Jwt.

(** The options [jwt.sign] and [jwt.verify] are called with. *)
Record opcoes := {
  expiresIn : option string;
  issuer : string;
  audience : string;
}.

(** A signed token, by what [jwt.sign(payload, secret, options)] was
    called with: the payload a token carries is the one it was signed
    from. *)
Record token := {
  tk_payload : objeto;
  tk_secret : string;
  tk_opcoes : opcoes;
}.

Definition sign (payload : objeto) (secret : string) (o : opcoes) : token :=
  {| tk_payload := payload; tk_secret := secret; tk_opcoes := o |}.

(** What [jwt.verify] throws: an error with a [name] and a [message]. *)
Record erro_jwt := {
  ej_name : string;
  ej_message : string;
}.

Record par_tokens := {
  accessToken : token;
  refreshToken : token;
}.

Section Jwt.

(** [process.env]: a variable that is not set reads [undefined]. *)
Variable env : string -> option string.

(** [jwt.verify(token, secret, options)]: the decoded payload, or the
    error it throws. *)
Variable verify : string -> string -> opcoes -> objeto + erro_jwt.

(** [process.env.X || fallback] *)
Definition env_ou (nome fallback : string) : string :=
  match env nome with
  | Some v => if (v =? EmptyString)%string then fallback else v
  | None => fallback
  end.

Definition JWT_SECRET : string := env_ou "JWT_SECRET" "sua_chave_secreta_super_segura_aqui".
Definition JWT_REFRESH_SECRET : string :=
  env_ou "JWT_REFRESH_SECRET" "sua_chave_refresh_super_segura_aqui".

Definition ACCESS_TOKEN_EXPIRY : string := "15m".
Definition REFRESH_TOKEN_EXPIRY : string := "7d".

Definition gerarAccessToken (payload : objeto) : token :=
  sign payload JWT_SECRET
    {| expiresIn := Some ACCESS_TOKEN_EXPIRY;
       issuer := "biblioteca-api";
       audience := "biblioteca-frontend" |}.

Definition gerarRefreshToken (payload : objeto) : token :=
  sign payload JWT_REFRESH_SECRET
    {| expiresIn := Some REFRESH_TOKEN_EXPIRY;
       issuer := "biblioteca-api";
       audience := "biblioteca-frontend" |}.

Definition verificarAccessToken (tk : string) : outcome objeto :=
  match verify tk JWT_SECRET
          {| expiresIn := None; issuer := "biblioteca-api"; audience := "biblioteca-frontend" |}
  with
  | inl payload => Return payload
  | inr error =>
      if (ej_name error =? "TokenExpiredError")%string then Throw "Token expirado"
      else if (ej_name error =? "JsonWebTokenError")%string then Throw "Token inválido"
      else Throw (ej_message error)
  end.

Definition verificarRefreshToken (tk : string) : outcome objeto :=
  match verify tk JWT_REFRESH_SECRET
          {| expiresIn := None; issuer := "biblioteca-api"; audience := "biblioteca-frontend" |}
  with
  | inl payload => Return payload
  | inr error =>
      if (ej_name error =? "TokenExpiredError")%string then Throw "Refresh token expirado"
      else if (ej_name error =? "JsonWebTokenError")%string then Throw "Refresh token inválido"
      else Throw (ej_message error)
  end.

(** [authHeader] is [None] for an absent header. *)
Definition extrairTokenDoHeader (authHeader : option string) : option string :=
  match authHeader with
  | None => None
  | Some h =>
      if negb (truthy (VStr h)) || negb (startsWith h "Bearer ") then None
      else Some (substring_from 7 h)
  end.

Definition gerarParTokens (usuario : objeto) : par_tokens :=
  let payload : objeto :=
    {[ "id" := campo usuario "id";
       "email" := campo usuario "email";
       "role" := ou (campo usuario "role") (VStr "user") ]} in
  let accessToken := gerarAccessToken payload in
  let refreshToken :=
    gerarRefreshToken
      {[ "id" := campo usuario "id";
         "email" := campo usuario "email" ]} in
  {| accessToken := accessToken; refreshToken := refreshToken |}.

End Jwt.
End Jwt.

(* ===================================================================== *)
(** * HTTP requests and responses *)
(* ===================================================================== *)

Module Http.

Record request := {
  params : gmap string string;
  query : objeto;
  body : objeto;
  (** header names are lower case, as Node hands them over *)
  headers : gmap string string;
  (** [req.usuario], set by the authentication middleware *)
  usuario : option objeto;
}.

(** [res.status(code).json(corpo)] *)
Record response := {
  status : Z;
  corpo : objeto;
}.

Definition json (code : Z) (o : objeto) : response := {| status := code; corpo := o |}.

End Http.
Import Http.

(* ===================================================================== *)
(** * auth/middleware.js *)
(* ===================================================================== *)

Module Middleware.

(** A middleware answers, or hands the request on with [next()]. *)
Inductive passo : Type :=
| Responde (r : response)
| Next (req : request).

Section Middleware.

Variable env : string -> option string.
Variable verify : string -> string -> Jwt.opcoes -> objeto + Jwt.erro_jwt.

Definition autenticarToken (req : request) : passo :=
  let authHeader := headers req !! "authorization" in
  let token := Jwt.extrairTokenDoHeader authHeader in
  match token with
  | None =>
      Responde (json 401 {[ "message" := VStr "Acesso negado. Token não fornecido.";
                            "error" := VStr "NO_TOKEN" ]})
  | Some tk =>
      if negb (truthy (VStr tk)) then
        Responde (json 401 {[ "message" := VStr "Acesso negado. Token não fornecido.";
                              "error" := VStr "NO_TOKEN" ]})
      else
        match Jwt.verificarAccessToken env verify tk with
        | Return payload =>
            Next {| params := params req; query := query req; body := body req;
                    headers := headers req;
                    usuario := Some {[ "id" := campo payload "id";
                                       "email" := campo payload "email";
                                       "role" := campo payload "role" ]} |}
        | Throw message =>
            if (message =? "Token expirado")%string then
              Responde (json 401 {[ "message" := VStr "Token expirado. Faça login novamente.";
                                    "error" := VStr "TOKEN_EXPIRED" ]})
            else if (message =? "Token inválido")%string then
              Responde (json 403 {[ "message" := VStr "Token inválido.";
                                    "error" := VStr "INVALID_TOKEN" ]})
            else
              Responde (json 500 {[ "message" := VStr "Erro ao verificar token.";
                                    "error" := VStr message ]})
        end
  end.

(** [verificarRole(...rolesPermitidas)]: the middleware it returns.
    [includes] compares as [===] does on the values of the model; the
    body of the 403 is the object handed to [res.json], with
    [current: undefined] when the user has no role. *)
Definition verificarRole (rolesPermitidas : list value) (req : request) : passo :=
  match usuario req with
  | None =>
      Responde (json 401 {[ "message" := VStr "Usuário não autenticado.";
                            "error" := VStr "NOT_AUTHENTICATED" ]})
  | Some u =>
      if negb (existsb (fun r => igual_estrito r (campo u "role")) rolesPermitidas) then
        Responde (json 403
                    {[ "message" :=
                         VStr "Permissão negada. Você não tem autorização para acessar este recurso.";
                       "error" := VStr "INSUFFICIENT_PERMISSIONS";
                       "required" := VArr rolesPermitidas;
                       "current" := campo u "role" ]})
      else Next req
  end.

(** [autenticacaoOpcional]: a token that is there and verifies sets
    [req.usuario]; anything else, an error of the verification included,
    goes on to [next()] with the request as it came. *)
Definition autenticacaoOpcional (req : request) : passo :=
  let authHeader := headers req !! "authorization" in
  let token := Jwt.extrairTokenDoHeader authHeader in
  match token with
  | None => Next req
  | Some tk =>
      if truthy (VStr tk) then
        match Jwt.verificarAccessToken env verify tk with
        | Return payload =>
            Next {| params := params req; query := query req; body := body req;
                    headers := headers req;
                    usuario := Some {[ "id" := campo payload "id";
                                       "email" := campo payload "email";
                                       "role" := campo payload "role" ]} |}
        | Throw _ => Next req
        end
      else Next req
  end.

End Middleware.
End Middleware.

(* ===================================================================== *)
(** * The store client (supabase-js) *)
(* ===================================================================== *)

Module Supabase.

(** The [error] of a reply. *)
Record erro := {
  message : string;
  code : string;
}.

Inductive filtro : Type :=
| Eq (coluna : string) (valor : value)
| Ilike (coluna : string) (padrao : string)
| In_ (coluna : string) (valores : list value).

Inductive acao : Type :=
| Select (colunas : string)
| Insert (linhas : list objeto)
| Update (valores : objeto)
| Delete.

(** A query as the builder sends it: [from(tabela)], one of
    [select]/[insert]/[update]/[delete], the filters in the order they
    were chained, and the columns of a [.select()] chained after a write. *)
Record consulta := {
  tabela : string;
  acao_de : acao;
  filtros : list filtro;
  retorno : option string;
}.

(** The reply [{ data, error }] of a query for rows. *)
Record resposta := {
  data : option (list objeto);
  error : option erro;
}.

(** The reply of [.single()] and [.maybeSingle()]. *)
Record resposta1 := {
  data1 : option objeto;
  error1 : option erro;
}.

Definition from_select (t : string) (colunas : string) : consulta :=
  {| tabela := t; acao_de := Select colunas; filtros := []; retorno := None |}.
Definition from_insert (t : string) (linhas : list objeto) : consulta :=
  {| tabela := t; acao_de := Insert linhas; filtros := []; retorno := None |}.
Definition from_update (t : string) (valores : objeto) : consulta :=
  {| tabela := t; acao_de := Update valores; filtros := []; retorno := None |}.
Definition from_delete (t : string) : consulta :=
  {| tabela := t; acao_de := Delete; filtros := []; retorno := None |}.

Definition com_filtro (f : filtro) (q : consulta) : consulta :=
  {| tabela := tabela q; acao_de := acao_de q; filtros := (filtros q ++ [f])%list; retorno := retorno q |}.
Definition eq (coluna : string) (v : value) : consulta -> consulta := com_filtro (Eq coluna v).
Definition ilike (coluna padrao : string) : consulta -> consulta := com_filtro (Ilike coluna padrao).
Definition in_ (coluna : string) (vs : list value) : consulta -> consulta := com_filtro (In_ coluna vs).
(** [.select()] after a write *)
Definition select (q : consulta) : consulta :=
  {| tabela := tabela q; acao_de := acao_de q; filtros := filtros q; retorno := Some "*" |}.

Definition PGRST116 : erro :=
  {| message := "JSON object requested, multiple (or no) rows returned"; code := "PGRST116" |}.

(** [.single()]: exactly one row, or an error. *)
Definition single (r : resposta) : resposta1 :=
  match error r with
  | Some e => {| data1 := None; error1 := Some e |}
  | None =>
      match data r with
      | Some [x] => {| data1 := Some x; error1 := None |}
      | _ => {| data1 := None; error1 := Some PGRST116 |}
      end
  end.

(** [.maybeSingle()]: no row reads [null], one row reads the row, more
    than one is an error. *)
Definition maybeSingle (r : resposta) : resposta1 :=
  match error r with
  | Some e => {| data1 := None; error1 := Some e |}
  | None =>
      match data r with
      | Some [x] => {| data1 := Some x; error1 := None |}
      | Some (_ :: _ :: _) => {| data1 := None; error1 := Some PGRST116 |}
      | _ => {| data1 := None; error1 := None |}
      end
  end.

End Supabase.
Import Supabase.

Notation "q '|>' f" := (f q) (at level 45, left associativity, only parsing).

(* ===================================================================== *)
(** * server.js *)
(* ===================================================================== *)

Module Server.

(** ** Handlers as state transformers

    [supabase] is [null] when the store is not configured, and a call on
    it throws; a thrown error reaches the [catch] of the handler by its
    message.  Log calls leave no trace in a response and are left out. *)
Section Monad.

Context {Store : Type}.

Definition M (A : Type) : Type := option Store -> outcome A * option Store.

Definition ret {A} (a : A) : M A := fun st => (Return a, st).

Definition bind {A B} (m : M A) (k : A -> M B) : M B :=
  fun st =>
    match m st with
    | (Return a, st') => k a st'
    | (Throw e, st') => (Throw e, st')
    end.

Definition throw {A} (message : string) : M A := fun st => (Throw message, st).

Definition lift {A} (o : outcome A) : M A := fun st => (o, st).

(** [await supabase.from(...)...] against the store [executar]. *)
Definition consultar (executar : consulta -> Store -> resposta * Store) (q : consulta)
  : M resposta :=
  fun st =>
    match st with
    | None => (Throw "Cannot read properties of null (reading 'from')", None)
    | Some s => let '(r, s') := executar q s in (Return r, Some s')
    end.

(** [try { ... } catch (error) { return h(error.message) }] *)
Definition try_catch (m : M response) (h : string -> response)
  : option Store -> response * option Store :=
  fun st =>
    match m st with
    | (Return r, st') => (r, st')
    | (Throw e, st') => (h e, st')
    end.

End Monad.

Notation "x <- m ;; k" := (bind m (fun x => k))
  (at level 100, m at next level, right associativity, only parsing).

Section Server.

(** The hosted store: running a query changes its state and yields a
    reply.  Nothing is assumed of it. *)
Context {Store : Type}.
Variable executar : consulta -> Store -> resposta * Store.

(** [Number(v)] and [parseInt(v)]: [None] is [NaN]. *)
Variable Number : value -> option Z.
Variable parseInt : value -> option Z.

(** [a.localeCompare(b)], [array.sort(compare)] and the day
    [new Date().toISOString().split('T')[0]] of the request. *)
Variable localeCompare : string -> string -> Z.
Variable sort : (objeto -> objeto -> Z) -> list objeto -> list objeto.
Variable hojeIso : string.

Abbreviation await := (consultar executar).

(** A handler's computation against this store. *)
Abbreviation Efeito := (@M Store).

Definition isNaN (v : value) : bool :=
  match Number v with None => true | Some _ => false end.

(** [req.params.k] *)
Definition param (req : request) (k : string) : value :=
  match params req !! k with Some s => VStr s | None => VUndefined end.

Definition formatarData (data : value) : outcome string :=
  if negb (Validators.validarData data)
  then Throw ("Formato de data inválido: " +:+ to_String data)
  else
    match data with
    | VStr s =>
        let partes := split_on "/" s in
        let dia := nth 0 partes "undefined" in
        let mes := nth 1 partes "undefined" in
        let ano := nth 2 partes "undefined" in
        Return (ano +:+ "-" +:+ mes +:+ "-" +:+ dia)
    | _ => Throw "data.split is not a function"
    end.

Definition respostaSucesso (statusCode : Z) (mensagem : string) (dados : value) : response :=
  json statusCode
    (if truthy dados
     then {[ "message" := VStr mensagem; "data" := dados ]}
     else {[ "message" := VStr mensagem ]}).

Definition respostaErro (statusCode : Z) (mensagem : string) (erro : value) : response :=
  json statusCode
    (if truthy erro
     then {[ "message" := VStr mensagem; "error" := erro ]}
     else {[ "message" := VStr mensagem ]}).

(** ** DELETE /cliente/:id

    [app.delete('/cliente/:id', async (req, res) => ...)]: the handler is
    the only function registered on the route. *)
Definition delete_cliente (req : request) : option Store -> response * option Store :=
  try_catch
    (let id := param req "id" in
     if negb (truthy id) || isNaN id
     then ret (respostaErro 400 "ID de cliente inválido" VNull)
     else
       r <- await (from_select "cliente" "ClienteID" |> eq "ClienteID" id) ;;
       let verificar := single r in
       match error1 verificar, data1 verificar with
       | None, Some clienteExiste =>
           r <- await (from_delete "cliente" |> eq "ClienteID" id |> select) ;;
           match error r with
           | Some e => ret (respostaErro 500 "Erro ao deletar cliente" (VStr (message e)))
           | None =>
               ret (respostaSucesso 200 "Cliente deletado com sucesso"
                      (VObj {[ "clienteID" := id ]}))
           end
       | _, _ => ret (respostaErro 404 "Cliente não encontrado" VNull)
       end)
    (fun msg => respostaErro 500 "Erro ao deletar cliente" (VStr msg)).

(** ** DELETE /reservas/:id *)
Definition delete_reservas (req : request) : option Store -> response * option Store :=
  try_catch
    (let id := param req "id" in
     if negb (truthy id) || isNaN id
     then ret (respostaErro 400 "ID de reserva inválido" VNull)
     else
       (* Buscar reserva para verificar status *)
       r <- await (from_select "reservas" "ReservaID, Status, DataEntrega"
                   |> eq "ReservaID" id) ;;
       let buscar := single r in
       match error1 buscar, data1 buscar with
       | None, Some reservaData =>
           (* Marcar como cancelada em vez de deletar *)
           r <- await (from_update "reservas" {[ "Status" := VStr "cancelada" ]}
                       |> eq "ReservaID" id |> select) ;;
           match error r with
           | Some e => ret (respostaErro 500 "Erro ao cancelar reserva" (VStr (message e)))
           | None =>
               match data r with
               | Some linhas =>
                   ret (respostaSucesso 200 "Reserva cancelada com sucesso"
                          (match linhas with d0 :: _ => VObj d0 | [] => VUndefined end))
               | None => throw "Cannot read properties of null (reading '0')"
               end
           end
       | _, _ => ret (respostaErro 404 "Reserva não encontrada" VNull)
       end)
    (fun msg => respostaErro 500 "Erro ao cancelar reserva" (VStr msg)).

(** ** PATCH /multas/:id/pagar *)

Definition isSchemaColumnError (e : erro) : bool :=
  let msg := message e in
  includes msg "Could not find" || includes msg "schema cache" || includes msg "does not exist".

(** The inner loop [for (const key of keysParaTentar)]: [Some] response
    when the handler returned from inside it, and [ultimoErro] as the
    loop leaves it. *)
Fixpoint laco_keys (id : value) (updatePayload : objeto) (keys : list string)
    (ultimoErro : option erro) : Efeito (option response * option erro) :=
  match keys with
  | [] => ret (None, ultimoErro)
  | key :: resto =>
      r <- await (from_update "multa" updatePayload |> eq key id |> select) ;;
      match error r with
      | None =>
          match data r with
          | Some (d0 :: _) =>
              ret (Some (respostaSucesso 200 "Multa marcada como paga" (VObj d0)), ultimoErro)
          | _ => laco_keys id updatePayload resto ultimoErro
          end
      | Some e =>
          if isSchemaColumnError e
          then laco_keys id updatePayload resto (Some e)
          else ret (Some (respostaErro 500 "Erro ao marcar multa como paga" (VStr (message e))),
                    Some e)
      end
  end.

(** The outer loop [for (const updatePayload of updatesParaTentar)]. *)
Fixpoint laco_updates (id : value) (updates : list objeto) (keys : list string)
    (ultimoErro : option erro) : Efeito (option response * option erro) :=
  match updates with
  | [] => ret (None, ultimoErro)
  | updatePayload :: resto =>
      sv <- laco_keys id updatePayload keys ultimoErro ;;
      match sv with
      | (Some resp, ultimoErro') => ret (Some resp, ultimoErro')
      | (None, ultimoErro') => laco_updates id resto keys ultimoErro'
      end
  end.

Definition updatesParaTentar (dataBase : string) : list objeto :=
  [ {[ "DataPagamento" := VStr dataBase; "Status" := VStr "paga" ]};
    {[ "data_pagamento" := VStr dataBase; "status" := VStr "paga" ]} ].

Definition keysParaTentar : list string := ["MultaID"; "multa_id"; "id"; "ID"].

Definition patch_multas_pagar (req : request) : option Store -> response * option Store :=
  try_catch
    (let id := param req "id" in
     let DataPagamento := campo (body req) "DataPagamento" in
     if negb (truthy id) || isNaN id
     then ret (respostaErro 400 "ID de multa inválido" VNull)
     else if negb (truthy DataPagamento) || negb (Validators.validarData DataPagamento)
     then ret (respostaErro 400 "Data de pagamento inválida" VNull)
     else
       dataBase <- lift (formatarData DataPagamento) ;;
       sv <- laco_updates id (updatesParaTentar dataBase) keysParaTentar None ;;
       match sv with
       | (Some resp, _) => ret resp
       | (None, Some e) =>
           ret (respostaErro 500 "Erro ao marcar multa como paga" (VStr (message e)))
       | (None, None) => ret (respostaErro 404 "Multa não encontrada" VNull)
       end)
    (fun msg => respostaErro 500 "Erro ao processar pagamento" (VStr msg)).

(** ** POST /reservas *)

(** [!v?.trim()] *)
Definition nao_trim (nome : string) (v : value) : Efeito bool :=
  match v with
  | VUndefined | VNull => ret true
  | VStr s => ret (negb (truthy (VStr (trim s))))
  | _ => throw (nome +:+ "?.trim is not a function")
  end.

Definition campos_faltando : response :=
  respostaErro 400 "Todos os campos obrigatórios devem ser preenchidos" VNull.

Definition post_reservas (req : request) : option Store -> response * option Store :=
  try_catch
    (let CPFReserva := campo (body req) "CPFReserva" in
     let NomeLivro := campo (body req) "NomeLivro" in
     let LivroID := campo (body req) "LivroID" in
     let QntdLivro := campo (body req) "QntdLivro" in
     let DataRetirada := campo (body req) "DataRetirada" in
     let DataVolta := campo (body req) "DataVolta" in
     let Entrega := campo (body req) "Entrega" in
     let Observacao := campo (body req) "Observacao" in
     (* Validações *)
     semCPF <- nao_trim "CPFReserva" CPFReserva ;;
     if semCPF then ret campos_faltando else
     semNome <- nao_trim "NomeLivro" NomeLivro ;;
     if semNome && negb (truthy LivroID) then ret campos_faltando else
     if negb (truthy QntdLivro) then ret campos_faltando else
     semRetirada <- nao_trim "DataRetirada" DataRetirada ;;
     if semRetirada then ret campos_faltando else
     semVolta <- nao_trim "DataVolta" DataVolta ;;
     if semVolta then ret campos_faltando else
     semEntrega <- nao_trim "Entrega" Entrega ;;
     if semEntrega then ret campos_faltando else
     (* Validar CPF *)
     if negb (Validators.validarCPF CPFReserva)
     then ret (respostaErro 400 "CPF inválido" VNull) else
     (* Validar datas *)
     if negb (Validators.validarData DataRetirada) || negb (Validators.validarData DataVolta)
     then ret (respostaErro 400 "Formato de data inválido. Use DD/MM/YYYY" VNull) else
     (* Validar quantidade *)
     match parseInt QntdLivro with
     | None => ret (respostaErro 400 "Quantidade deve ser um número maior que 0" VNull)
     | Some qntd =>
     if qntd <=? 0
     then ret (respostaErro 400 "Quantidade deve ser um número maior que 0" VNull) else
     (* Formatar datas *)
     dataRetiradaFormatada <- lift (formatarData DataRetirada) ;;
     dataVoltaFormatada <- lift (formatarData DataVolta) ;;
     (* Sanitizar entradas *)
     let livroIdNumero := if truthy LivroID then Number LivroID else Some 0 in
     if truthy LivroID
        && match livroIdNumero with None => true | Some n => n <=? 0 end
     then ret (respostaErro 400 "LivroID deve ser um número válido" VNull) else
     let dados_CPF := Validators.sanitizarEntrada CPFReserva in
     let dados_NomeLivro :=
       if truthy NomeLivro then Validators.sanitizarEntrada NomeLivro else VNull in
     let dados_LivroID :=
       if truthy LivroID
       then match livroIdNumero with Some n => VNum n | None => VNull end
       else VNull in
     let dados_Entrega := Validators.sanitizarEntrada Entrega in
     let dados_Observacao := Validators.sanitizarEntrada Observacao in
     (* Buscar cliente *)
     r <- await (from_select "cliente" "ClienteID" |> eq "CPF" dados_CPF) ;;
     let cliente := maybeSingle r in
     match error1 cliente with
     | Some _ => ret (respostaErro 500 "Erro na consulta de cliente" VNull)
     | None =>
     match data1 cliente with
     | None => ret (respostaErro 402 "Cliente não encontrado" VNull)
     | Some clienteData =>
     (* Buscar livro: por ID se informado, senão por nome (ilike) *)
     let busca :=
       if truthy dados_LivroID then
         Some (from_select "livro" "LivroID, NomeLivro, QuantidadeDisponivel"
               |> eq "LivroID" dados_LivroID)
       else if truthy dados_NomeLivro then
         Some (from_select "livro" "LivroID, NomeLivro, QuantidadeDisponivel"
               |> ilike "NomeLivro" ("%" +:+ to_String dados_NomeLivro +:+ "%"))
       else None in
     match busca with
     | None => ret (respostaErro 400 "Informe LivroID ou NomeLivro" VNull)
     | Some q =>
     r <- await q ;;
     let livro := maybeSingle r in
     match error1 livro with
     | Some _ => ret (respostaErro 500 "Erro na consulta de livro" VNull)
     | None =>
     match data1 livro with
     | None => ret (respostaErro 404 "Livro não encontrado" VNull)
     | Some livroData =>
     (* Verificar quantidade disponível *)
     if match Number (campo livroData "QuantidadeDisponivel") with
        | Some disponivel => disponivel <? qntd
        | None => false
        end
     then ret (respostaErro 400
                 ("Apenas " +:+ to_String (campo livroData "QuantidadeDisponivel")
                  +:+ " livros disponíveis") VNull)
     else
     (* Criar reserva *)
     r <- await (from_insert "reservas"
                   [ {[ "ClienteID" := campo clienteData "ClienteID";
                        "LivroID" := campo livroData "LivroID";
                        "DataRetirada" := VStr dataRetiradaFormatada;
                        "DataPrevistaEntrega" := VStr dataVoltaFormatada;
                        "FormaRetirada" := dados_Entrega;
                        "QuantidadeReservada" := VNum qntd;
                        "Observacao" := dados_Observacao;
                        "Status" := VStr "ativa" ]} ]
                 |> select) ;;
     let reserva := single r in
     match error1 reserva with
     | Some _ => ret (respostaErro 500 "Erro ao inserir reserva" VNull)
     | None =>
         ret (respostaSucesso 201 "Reserva cadastrada com sucesso"
                (VObj {[ "reserva" := match data1 reserva with
                                      | Some d => VObj d
                                      | None => VNull
                                      end ]}))
     end end end end end end end)
    (fun msg => respostaErro 500 "Erro ao cadastrar reserva" (VStr msg)).

(** ** GET /multas *)

(** [Number(a) === Number(b)]: [NaN] equals nothing. *)
Definition mesmo_numero (a : value) (b : Z) : bool :=
  match Number a with Some x => x =? b | None => false end.

(** [new Set(l)] and [[...set]]: the first occurrence of each value, in
    order. *)
Fixpoint sem_repetidos (l : list value) : list value :=
  match l with
  | [] => []
  | x :: r => x :: List.filter (fun y => negb (igual_estrito x y)) (sem_repetidos r)
  end.

(** [new Map(pares).get(k)]: the last pair set for the key. *)
Fixpoint map_get (pares : list (value * objeto)) (k : value) : option objeto :=
  match pares with
  | [] => None
  | (k', v) :: r =>
      match map_get r k with
      | Some v' => Some v'
      | None => if igual_estrito k' k then Some v else None
      end
  end.

Definition enriquecerMultas (multasBase : list objeto) : Efeito (list objeto) :=
  match multasBase with
  | [] => ret []
  | _ =>
      let reservaIds :=
        sem_repetidos (List.filter truthy (map (fun m => campo m "ReservaID") multasBase)) in
      match reservaIds with
      | [] => ret multasBase
      | _ =>
          r <- await (from_select "reservas"
                        "ReservaID, ClienteID, LivroID, DataRetirada, DataPrevistaEntrega"
                      |> in_ "ReservaID" reservaIds) ;;
          match error r with
          | Some reservasError => throw (message reservasError)
          | None =>
              let reservas := default [] (data r) in
              let reservasMap := map (fun r => (campo r "ReservaID", r)) reservas in
              let clienteIds :=
                sem_repetidos (List.filter truthy (map (fun r => campo r "ClienteID") reservas)) in
              let livroIds :=
                sem_repetidos (List.filter truthy (map (fun r => campo r "LivroID") reservas)) in
              rc <- match clienteIds with
                    | [] => ret {| data := Some []; error := None |}
                    | _ => await (from_select "cliente" "ClienteID, Nome, Sobrenome"
                                  |> in_ "ClienteID" clienteIds)
                    end ;;
              match error rc with
              | Some clientesError => throw (message clientesError)
              | None =>
                  rl <- match livroIds with
                        | [] => ret {| data := Some []; error := None |}
                        | _ => await (from_select "livro" "LivroID, NomeLivro"
                                      |> in_ "LivroID" livroIds)
                        end ;;
                  match error rl with
                  | Some livrosError => throw (message livrosError)
                  | None =>
                      let clientesMap :=
                        map (fun c => (campo c "ClienteID", c)) (default [] (data rc)) in
                      let livrosMap :=
                        map (fun l => (campo l "LivroID", l)) (default [] (data rl)) in
                      ret (map
                             (fun multa =>
                                match map_get reservasMap (campo multa "ReservaID") with
                                | None => multa
                                | Some reserva =>
                                    let cliente := map_get clientesMap (campo reserva "ClienteID") in
                                    let livro := map_get livrosMap (campo reserva "LivroID") in
                                    <[ "reserva" :=
                                         VObj {[ "ReservaID" := campo reserva "ReservaID";
                                                 "ClienteID" := campo reserva "ClienteID";
                                                 "DataRetirada" :=
                                                   coalesce (campo reserva "DataRetirada") VNull;
                                                 "DataPrevistaEntrega" :=
                                                   coalesce (campo reserva "DataPrevistaEntrega") VNull;
                                                 "cliente" :=
                                                   match cliente with
                                                   | Some c =>
                                                       VObj {[ "Nome" := campo c "Nome";
                                                               "Sobrenome" := campo c "Sobrenome" ]}
                                                   | None => VNull
                                                   end;
                                                 "livro" :=
                                                   match livro with
                                                   | Some l => VObj {[ "NomeLivro" := campo l "NomeLivro" ]}
                                                   | None => VNull
                                                   end ]} ]> multa
                                end)
                             multasBase)
                  end
              end
          end
      end
  end.

Definition obterReservaIdsPorCliente (clienteId : Z) : Efeito (list value) :=
  r <- await (from_select "reservas" "ReservaID" |> eq "ClienteID" (VNum clienteId)) ;;
  match error r with
  | Some e => throw (message e)
  | None => ret (List.filter truthy (map (fun r => campo r "ReservaID") (default [] (data r))))
  end.

Definition normalizarMulta (multa : objeto) : objeto :=
  let c := campo multa in
  let multaId :=
    coalesce (c "MultaID") (coalesce (c "multa_id") (coalesce (c "id") (coalesce (c "ID") VNull))) in
  let reservaId :=
    coalesce (c "PendenciaID")
      (coalesce (c "pendencia_id")
         (coalesce (c "ReservaID")
            (coalesce (c "reserva_id") (coalesce (c "reservaId") VNull)))) in
  let clienteId := coalesce (c "ClienteID") (coalesce (c "cliente_id") VNull) in
  let valor := coalesce (c "Valor") (coalesce (c "valor") VNull) in
  let dataVencimento :=
    coalesce (c "DataVencimento")
      (coalesce (c "data_vencimento")
         (coalesce (c "DataEmissao")
            (coalesce (c "data_multa") (coalesce (c "data_emissao") VNull)))) in
  let dataPagamento := coalesce (c "DataPagamento") (coalesce (c "data_pagamento") VNull) in
  let status := coalesce (c "Status") (coalesce (c "status") VNull) in
  <[ "Status" := status ]>
    (<[ "DataPagamento" := dataPagamento ]>
       (<[ "DataVencimento" := dataVencimento ]>
          (<[ "Valor" := valor ]>
             (<[ "ClienteID" := clienteId ]>
                (<[ "ReservaID" := reservaId ]>
                   (<[ "MultaID" := multaId ]> multa)))))).

(** The argument of [obterMultasFiltradas]; an absent key is [None]. *)
Record filtros_multa := {
  f_clienteId : option Z;
  f_reservaId : option Z;
  f_status : option string;
  f_vencidas : option bool;
  f_multaId : option Z;
}.

(** [if (n)] on an optional number *)
Definition numero_truthy (n : option Z) : option Z :=
  match n with Some k => if k =? 0 then None else Some k | None => None end.

(** [String(m.Status || '').toLowerCase()] *)
Definition status_de (m : objeto) : string :=
  toLowerCase (to_String (ou (campo m "Status") (VStr EmptyString))).

Definition filtrar_status (status : option string) (multas : list objeto) : list objeto :=
  match status with
  | None => multas
  | Some status =>
      if negb (truthy (VStr status)) then multas
      else
        let statusNormalizado := toLowerCase status in
        if (statusNormalizado =? "pendente")%string then
          List.filter
            (fun m =>
               let st := status_de m in
               negb (truthy (campo m "DataPagamento"))
               && negb (st =? "paga")%string && negb (st =? "pago")%string)
            multas
        else if (statusNormalizado =? "paga")%string || (statusNormalizado =? "pago")%string then
          List.filter
            (fun m =>
               let st := status_de m in
               truthy (campo m "DataPagamento") || (st =? "paga")%string || (st =? "pago")%string)
            multas
        else multas
  end.

(** [(a, b) => ...], the comparator of the final sort; a [NaN] difference
    counts as 0. *)
Definition comparar_multas (a b : objeto) : Z :=
  let da := to_String (ou (campo a "DataVencimento") (VStr EmptyString)) in
  let db := to_String (ou (campo b "DataVencimento") (VStr EmptyString)) in
  if truthy (VStr da) && truthy (VStr db) then localeCompare da db
  else
    match Number (ou (campo a "MultaID") (VNum 0)), Number (ou (campo b "MultaID") (VNum 0)) with
    | Some x, Some y => x - y
    | _, _ => 0
    end.

Definition obterMultasFiltradas (f : filtros_multa) : Efeito (list objeto) :=
  r <- await (from_select "multa" "*") ;;
  match error r with
  | Some e => throw (message e)
  | None =>
      let multasNormalizadas := map normalizarMulta (default [] (data r)) in
      let multasNormalizadas :=
        match numero_truthy (f_multaId f) with
        | Some multaId =>
            List.filter (fun m => mesmo_numero (campo m "MultaID") multaId) multasNormalizadas
        | None => multasNormalizadas
        end in
      let multasNormalizadas :=
        match numero_truthy (f_reservaId f) with
        | Some reservaId =>
            List.filter (fun m => mesmo_numero (campo m "ReservaID") reservaId) multasNormalizadas
        | None => multasNormalizadas
        end in
      let multasNormalizadas := filtrar_status (f_status f) multasNormalizadas in
      let multasNormalizadas :=
        match f_vencidas f with
        | Some true =>
            List.filter
              (fun m =>
                 if truthy (campo m "DataPagamento") then false
                 else
                   let dataBase :=
                     nth 0 (split_on "T" (to_String (ou (campo m "DataVencimento") (VStr EmptyString))))
                       EmptyString in
                   truthy (VStr dataBase) && menor_str dataBase hojeIso)
              multasNormalizadas
        | _ => multasNormalizadas
        end in
      filtradas <-
        match numero_truthy (f_clienteId f) with
        | Some clienteId =>
            let temClienteDireto :=
              existsb (fun m => negb (nullish (campo m "ClienteID"))) multasNormalizadas in
            if temClienteDireto then
              ret (Some (List.filter (fun m => mesmo_numero (campo m "ClienteID") clienteId)
                           multasNormalizadas))
            else
              reservaIds <- obterReservaIdsPorCliente clienteId ;;
              match reservaIds with
              | [] => ret None
              | _ =>
                  let setReserva := map Number reservaIds in
                  ret (Some (List.filter
                               (fun m =>
                                  existsb
                                    (fun n => bool_decide (n = Number (campo m "ReservaID")))
                                    setReserva)
                               multasNormalizadas))
              end
        | None => ret (Some multasNormalizadas)
        end ;;
      match filtradas with
      | None => ret []
      | Some multasNormalizadas =>
          let multasNormalizadas := sort comparar_multas multasNormalizadas in
          fun st =>
            match enriquecerMultas multasNormalizadas st with
            | (Return enriquecidas, st') => (Return enriquecidas, st')
            | (Throw _, st') => (Return multasNormalizadas, st')
            end
      end
  end.

Definition get_multas (req : request) : option Store -> response * option Store :=
  try_catch
    (let status := campo (query req) "status" in
     let vencidas := campo (query req) "vencidas" in
     let clienteId := campo (query req) "clienteId" in
     let reservaId := campo (query req) "reservaId" in
     let multaId := campo (query req) "multaId" in
     let id_invalido (v : value) : bool :=
       negb (truthy v) || match Number v with None => true | Some n => n <=? 0 end in
     let presente (v : value) : bool :=
       match v with VUndefined => false | _ => true end in
     if presente clienteId && id_invalido clienteId
     then ret (respostaErro 400 "ID de cliente inválido" VNull) else
     if presente reservaId && id_invalido reservaId
     then ret (respostaErro 400 "ID de reserva inválido" VNull) else
     if presente multaId && id_invalido multaId
     then ret (respostaErro 400 "ID da multa inválido" VNull) else
     let filtros :=
       {| f_clienteId := if presente clienteId then Number clienteId else None;
          f_reservaId := if presente reservaId then Number reservaId else None;
          f_multaId := if presente multaId then Number multaId else None;
          f_status := if truthy status then Some (to_String status) else None;
          f_vencidas :=
            if presente vencidas
            then Some (toLowerCase (to_String vencidas) =? "true")%string
            else None |} in
     multas <- obterMultasFiltradas filtros ;;
     ret (respostaSucesso 200 "Multas encontradas" (VArr (map VObj multas))))
    (fun msg => respostaErro 500 "Erro ao buscar multas" (VStr msg)).

(** ** Pagination helpers *)

(** What [obterParametrosPaginacao] returns. *)
Record paginacao := {
  page : Z;
  limit : Z;
  sortBy : value;
  order : bool;
  from : Z;
  to : Z;
}.

(** [parseInt(v) || padrao]: [NaN] and 0 give the default. *)
Definition parseInt_ou (v : value) (padrao : Z) : Z :=
  match parseInt v with
  | Some n => if n =? 0 then padrao else n
  | None => padrao
  end.

Definition obterParametrosPaginacao (req : request) : paginacao :=
  let page := parseInt_ou (campo (query req) "page") 1 in
  let limit := parseInt_ou (campo (query req) "limit") 10 in
  let sortBy := ou (campo (query req) "sortBy") VNull in
  let order := if igual_estrito (campo (query req) "order") (VStr "desc") then false else true in
  (* Validações *)
  let page := if page <? 1 then 1 else page in
  let limit := if (limit <? 1) || (100 <? limit) then 10 else limit in
  let from := (page - 1) * limit in
  let to := from + limit - 1 in
  {| page := page; limit := limit; sortBy := sortBy; order := order; from := from; to := to |}.

(** [Math.ceil(total / limit)] for a [limit] of 1 or more, which is what
    every call passes. *)
Definition teto_div (total limit : Z) : Z := - ((- total) / limit).

(** [respostaPaginada]; [total] is the [count] of the store, [None] when
    it is [null], which divides as 0. *)
Definition respostaPaginada (statusCode : Z) (mensagem : string) (dados : value)
    (total : option Z) (page limit : Z) : response :=
  let totalPages := teto_div (default 0 total) limit in
  json statusCode
    {[ "message" := VStr mensagem;
       "data" := dados;
       "pagination" :=
         VObj {[ "total" := match total with Some t => VNum t | None => VNull end;
                 "page" := VNum page;
                 "limit" := VNum limit;
                 "totalPages" := VNum totalPages;
                 "hasNextPage" := VBool (page <? totalPages);
                 "hasPrevPage" := VBool (1 <? page) ]} ]}.

(** ** PATCH /reservas/:id *)

Definition status_validos : list string := ["ativa"; "finalizada"; "cancelada"].

Definition patch_reservas (req : request) : option Store -> response * option Store :=
  try_catch
    (let id := param req "id" in
     let status := campo (body req) "status" in
     let DataEntrega := campo (body req) "DataEntrega" in
     (* Validações *)
     if negb (truthy id) || isNaN id
     then ret (respostaErro 400 "ID de reserva inválido" VNull)
     else
       let atualizar (dadosAtualizacao : objeto) : Efeito response :=
         if bool_decide (dadosAtualizacao = ∅)
         then ret (respostaErro 400 "Nenhum campo para atualizar" VNull)
         else
           r <- await (from_update "reservas" dadosAtualizacao
                       |> eq "ReservaID" id |> select) ;;
           match error r with
           | Some e => ret (respostaErro 500 "Erro ao atualizar status" (VStr (message e)))
           | None =>
               match data r with
               | Some (d0 :: _) =>
                   ret (respostaSucesso 200 "Status da reserva atualizado" (VObj d0))
               | _ => ret (respostaErro 404 "Reserva não encontrada" VNull)
               end
           end in
       let com_data (dadosAtualizacao : objeto) : Efeito response :=
         if truthy DataEntrega then
           if negb (Validators.validarData DataEntrega)
           then ret (respostaErro 400 "Data de entrega inválida" VNull)
           else
             d <- lift (formatarData DataEntrega) ;;
             atualizar (<[ "DataEntrega" := VStr d ]> dadosAtualizacao)
         else atualizar dadosAtualizacao in
       if truthy status then
         match status with
         | VStr s =>
             if negb (existsb (String.eqb (toLowerCase s)) status_validos)
             then ret (respostaErro 400
                         "Status inválido. Use: ativa, finalizada ou cancelada" VNull)
             else com_data (<[ "Status" := VStr (toLowerCase s) ]> ∅)
         | _ => throw "status.toLowerCase is not a function"
         end
       else com_data ∅)
    (fun msg => respostaErro 500 "Erro ao atualizar status" (VStr msg)).

(** ** POST /auth/refresh *)

(** [process.env], [jwt.verify], and the compact text a signed token is
    sent as. *)
Variable env : string -> option string.
Variable verify : string -> string -> Jwt.opcoes -> objeto + Jwt.erro_jwt.
Variable codifica : Jwt.token -> string.

(** [verificarRefreshToken] on a field of the body: [jwt.verify] refuses
    what is not a string with a [JsonWebTokenError]. *)
Definition verificarRefreshToken_de (refreshToken : value) : outcome objeto :=
  match refreshToken with
  | VStr tk => Jwt.verificarRefreshToken env verify tk
  | _ => Throw "Refresh token inválido"
  end.

Definition post_auth_refresh (req : request) : option Store -> response * option Store :=
  fun st =>
    match
      (let refreshToken := campo (body req) "refreshToken" in
       if negb (truthy refreshToken)
       then ret (respostaErro 400 "Refresh token é obrigatório" VNull)
       else
         (* Verifica refresh token *)
         payload <- lift (verificarRefreshToken_de refreshToken) ;;
         (* Busca usuário atualizado *)
         r <- await (from_select "usuarios" "*" |> eq "id" (campo payload "id")) ;;
         let busca := single r in
         match error1 busca, data1 busca with
         | None, Some usuario =>
             (* Gera novo access token *)
             let accessToken := Jwt.accessToken (Jwt.gerarParTokens env usuario) in
             ret (json 200
                    {[ "message" := VStr "Token renovado com sucesso";
                       "tokens" := VObj {[ "accessToken" := VStr (codifica accessToken);
                                           "expiresIn" := VStr "15m" ]} ]})
         | _, _ => ret (respostaErro 401 "Usuário não encontrado" VNull)
         end) st
    with
    | (Return r, st') => (r, st')
    | (Throw msg, st') =>
        if includes msg "token"
        then (respostaErro 401 msg VNull, st')
        else (respostaErro 500 "Erro ao renovar token" (VStr msg), st')
    end.

(** ** POST /devolucoes *)

(** [new Date().toISOString()] at the request. *)
Variable agoraIso : string.

Definition condicoes_validas : list value :=
  [VStr "Excelente"; VStr "Bom"; VStr "Danificado"].

Definition post_devolucoes (req : request) : option Store -> response * option Store :=
  try_catch
    (let ReservaID := campo (body req) "ReservaID" in
     let DataDevolucao := campo (body req) "DataDevolucao" in
     let CondicaoLivro := campo (body req) "CondicaoLivro" in
     if negb (truthy ReservaID) || isNaN ReservaID
     then ret (respostaErro 400 "ID de reserva inválido" VNull)
     else if negb (truthy DataDevolucao) || negb (Validators.validarData DataDevolucao)
     then ret (respostaErro 400 "Data de devolução inválida" VNull)
     else if negb (truthy CondicaoLivro)
             || negb (existsb (fun c => igual_estrito c CondicaoLivro) condicoes_validas)
     then ret (respostaErro 400 "Condição do livro inválida" VNull)
     else
       d <- lift (formatarData DataDevolucao) ;;
       r <- await (from_insert "devolucao"
                     [ {[ "ReservaID" := ReservaID;
                          "DataDevolucao" := VStr d;
                          "CondicaoLivro" := Validators.sanitizarEntrada CondicaoLivro;
                          "DataRegistro" := VStr agoraIso ]} ]
                   |> select) ;;
       match error r with
       | Some e => ret (respostaErro 500 "Erro ao registrar devolução" (VStr (message e)))
       | None =>
           match data r with
           | Some linhas =>
               ret (respostaSucesso 201 "Devolução registrada com sucesso"
                      (match linhas with d0 :: _ => VObj d0 | [] => VUndefined end))
           | None => throw "Cannot read properties of null (reading '0')"
           end
       end)
    (fun msg => respostaErro 500 "Erro ao registrar devolução" (VStr msg)).

End Server.
End Server.

(* ===================================================================== *)
(** * A reference store *)
(* ===================================================================== *)

(** Tables held in memory, answering the queries of [Supabase] the way the
    hosted service documents them and never failing for a reason of its
    own: the store the examples run against, and the one in which a claim
    about stored rows is read. *)
Module MemDb.

Record tabela_mem := {
  colunas : list string;
  linhas : list objeto;
}.

Abbreviation db := (gmap string tabela_mem).

(** An integer in the text of a filter: optional sign, then digits. *)
Definition pg_inteiro (s : string) : option Z :=
  let t := trim s in
  let '(sinal, corpo) :=
    match t with
    | String c r =>
        if Ascii.eqb c "-" then (-1, r)
        else if Ascii.eqb c "+" then (1, r)
        else (1, t)
    | EmptyString => (1, t)
    end in
  match corpo with
  | EmptyString => None
  | _ =>
      if forallb is_digit (list_ascii_of_string corpo)
      then Some (sinal * decimal_value corpo)
      else None
  end.

(** A filter value reaches the store as text and is read at the type of
    the cell it is compared with. *)
Definition pg_igual (v cel : value) : bool :=
  let txt := to_String v in
  match cel with
  | VNum n => match pg_inteiro txt with Some m => n =? m | None => false end
  | VStr s => (s =? txt)%string
  | _ => false
  end.

(** [ILIKE]: [%] (or [*]) stands for any run of units, [_] for any one
    unit, letters match whatever their case. *)
Fixpoint like (p s : list ascii) : bool :=
  match p with
  | [] => match s with [] => true | _ => false end
  | c :: p' =>
      if Ascii.eqb c "%" || Ascii.eqb c "*" then
        (fix resto (s : list ascii) : bool :=
           like p' s || match s with [] => false | _ :: s' => resto s' end) s
      else
        match s with
        | [] => false
        | d :: s' =>
            (Ascii.eqb c "_" || Ascii.eqb (lower_char c) (lower_char d)) && like p' s'
        end
  end.

Definition coluna_de (f : filtro) : string :=
  match f with Eq c _ | Ilike c _ | In_ c _ => c end.

Definition casa (f : filtro) (r : objeto) : bool :=
  match f with
  | Eq c v => pg_igual v (campo r c)
  | Ilike c p =>
      match campo r c with
      | VStr s => like (list_ascii_of_string p) (list_ascii_of_string s)
      | _ => false
      end
  | In_ c vs => existsb (fun v => pg_igual v (campo r c)) vs
  end.

Definition casa_todos (fs : list filtro) (r : objeto) : bool := forallb (fun f => casa f r) fs.

Definition tem_coluna (t : tabela_mem) (c : string) : bool :=
  existsb (String.eqb c) (colunas t).

(** The columns a [select] names; [None] for [*]. *)
Definition colunas_pedidas (cols : string) : option (list string) :=
  if (trim cols =? "*")%string then None else Some (map trim (split_on "," cols)).

Definition projetar (cols : option (list string)) (r : objeto) : objeto :=
  match cols with
  | None => r
  | Some cs => list_to_map (map (fun c => (c, default VNull (r !! c))) cs)
  end.

Definition erro_coluna (t c : string) : erro :=
  {| message := "column " +:+ t +:+ "." +:+ c +:+ " does not exist"; code := "42703" |}.

Definition erro_valores (t c : string) : erro :=
  {| message := "Could not find the '" +:+ c +:+ "' column of '" +:+ t +:+ "' in the schema cache";
     code := "PGRST204" |}.

Definition erro_tabela (t : string) : erro :=
  {| message := "Could not find the table 'public." +:+ t +:+ "' in the schema cache";
     code := "PGRST205" |}.

Definition falha (e : erro) : resposta := {| data := None; error := Some e |}.

(** The rows a write hands back when [.select()] follows it. *)
Definition devolve (q : consulta) (t : tabela_mem) (rs : list objeto) : resposta :=
  match retorno q with
  | None => {| data := None; error := None |}
  | Some cols => {| data := Some (map (projetar (colunas_pedidas cols)) rs); error := None |}
  end.

Definition chaves (o : objeto) : list string := map fst (map_to_list o).

Definition executar (q : consulta) (d : db) : resposta * db :=
  match d !! tabela q with
  | None => (falha (erro_tabela (tabela q)), d)
  | Some t =>
      match List.find (fun f => negb (tem_coluna t (coluna_de f))) (filtros q) with
      | Some f => (falha (erro_coluna (tabela q) (coluna_de f)), d)
      | None =>
          let com (ls : list objeto) : db :=
            <[ tabela q := {| colunas := colunas t; linhas := ls |} ]> d in
          match acao_de q with
          | Select cols =>
              match List.find (fun c => negb (tem_coluna t c))
                      (default [] (colunas_pedidas cols)) with
              | Some c => (falha (erro_coluna (tabela q) c), d)
              | None =>
                  ({| data := Some (map (projetar (colunas_pedidas cols))
                                      (List.filter (casa_todos (filtros q)) (linhas t)));
                      error := None |}, d)
              end
          | Update valores =>
              match List.find (fun c => negb (tem_coluna t c)) (chaves valores) with
              | Some c => (falha (erro_valores (tabela q) c), d)
              | None =>
                  let novas :=
                    map (fun r => if casa_todos (filtros q) r then valores ∪ r else r)
                      (linhas t) in
                  (devolve q t (map (fun r => valores ∪ r)
                                  (List.filter (casa_todos (filtros q)) (linhas t))),
                   com novas)
              end
          | Delete =>
              (devolve q t (List.filter (casa_todos (filtros q)) (linhas t)),
               com (List.filter (fun r => negb (casa_todos (filtros q) r)) (linhas t)))
          | Insert novas =>
              match List.find (fun c => negb (tem_coluna t c)) (concat (map chaves novas)) with
              | Some c => (falha (erro_valores (tabela q) c), d)
              | None => (devolve q t novas, com (linhas t ++ novas)%list)
              end
          end
      end
  end.

End MemDb.

(* ===================================================================== *)
(** * Built-ins and data for the examples *)
(* ===================================================================== *)

Module Exemplos.

(** [Number] and [parseInt] on the inputs the examples use: a number, or
    the decimal text of one. *)
Definition Number (v : value) : option Z :=
  match v with
  | VNum n => Some n
  | VStr s => MemDb.pg_inteiro s
  | VBool b => Some (if b then 1 else 0)
  | VNull => Some 0
  | _ => None
  end.

Definition parseInt (v : value) : option Z :=
  match v with
  | VNum n => Some n
  | VStr s => MemDb.pg_inteiro s
  | _ => None
  end.

(** Code units compared from the left. *)
Definition localeCompare (a b : string) : Z :=
  if menor_str a b then -1 else if menor_str b a then 1 else 0.

(** A stable insertion sort. *)
Fixpoint inserir {A} (cmp : A -> A -> Z) (x : A) (l : list A) : list A :=
  match l with
  | [] => [x]
  | y :: r => if 0 <? cmp x y then y :: inserir cmp x r else x :: l
  end.

Fixpoint sort {A} (cmp : A -> A -> Z) (l : list A) : list A :=
  match l with
  | [] => []
  | x :: r => inserir cmp x (sort cmp r)
  end.

Definition hojeIso : string := "2026-01-15".

Definition pedido (ps : gmap string string) (q b : objeto) (hs : gmap string string) : request :=
  {| params := ps; query := q; body := b; headers := hs; usuario := None |}.

(** A library with one client and two books whose titles share a word. *)
Definition biblioteca : MemDb.db :=
  {[ "cliente" :=
       {| MemDb.colunas := ["ClienteID"; "Nome"; "Sobrenome"; "CPF"];
          MemDb.linhas :=
            [ {[ "ClienteID" := VNum 1; "Nome" := VStr "Ana"; "Sobrenome" := VStr "Lima";
                 "CPF" := VStr "529.982.247-25" ]} ] |};
     "livro" :=
       {| MemDb.colunas := ["LivroID"; "NomeLivro"; "QuantidadeDisponivel"];
          MemDb.linhas :=
            [ {[ "LivroID" := VNum 1; "NomeLivro" := VStr "Dom Casmurro";
                 "QuantidadeDisponivel" := VNum 3 ]};
              {[ "LivroID" := VNum 2; "NomeLivro" := VStr "Dom Quixote";
                 "QuantidadeDisponivel" := VNum 2 ]} ] |};
     "reservas" :=
       {| MemDb.colunas :=
            ["ReservaID"; "ClienteID"; "LivroID"; "DataRetirada"; "DataPrevistaEntrega";
             "DataEntrega"; "FormaRetirada"; "QuantidadeReservada"; "Observacao"; "Status"];
          MemDb.linhas :=
            [ {[ "ReservaID" := VNum 7; "ClienteID" := VNum 1; "LivroID" := VNum 1;
                 "DataRetirada" := VStr "2026-01-02"; "DataPrevistaEntrega" := VStr "2026-01-16";
                 "DataEntrega" := VNull; "FormaRetirada" := VStr "Retirada";
                 "QuantidadeReservada" := VNum 1; "Observacao" := VNull;
                 "Status" := VStr "ativa" ]} ] |};
     "multa" :=
       {| MemDb.colunas := ["MultaID"; "PendenciaID"; "Valor"; "DataVencimento"; "DataPagamento"; "Status"];
          MemDb.linhas :=
            [ {[ "MultaID" := VNum 1; "PendenciaID" := VNum 7; "Valor" := VNum 5;
                 "DataVencimento" := VStr "2026-01-10"; "DataPagamento" := VNull;
                 "Status" := VStr "pendente" ]};
              {[ "MultaID" := VNum 2; "PendenciaID" := VNum 7; "Valor" := VNum 10;
                 "DataVencimento" := VStr "2025-12-01"; "DataPagamento" := VStr "2025-12-05";
                 "Status" := VStr "paga" ]};
              {[ "MultaID" := VNum 3; "PendenciaID" := VNum 7; "Valor" := VNum 2;
                 "DataVencimento" := VStr "2025-11-01"; "DataPagamento" := VNull;
                 "Status" := VStr "cancelada" ]} ] |} ]}.

End Exemplos.

(* ===================================================================== *)
(** * What the properties are stated with *)
(* ===================================================================== *)

(** ** Dates *)

(** The day, the month and the year a matched text holds. *)
Definition campos_data (s : string) : Z * Z * Z :=
  match map decimal_value (split_on "/" s) with
  | dia :: mes :: ano :: _ => (dia, mes, ano)
  | _ => (0, 0, 0)
  end.

(** The test [validarData] ends with, on the numbers of a matched text. *)
Definition ida_e_volta (dia mes ano : Z) : bool :=
  let date := Validators.Date.make ano (mes - 1) dia in
  (Validators.Date.getFullYear date =? ano)
  && (Validators.Date.getMonth date =? mes - 1)
  && (Validators.Date.getDate date =? dia).

(** One more day in a year of the era counted from March when the next
    civil year is a leap year. *)
Definition folga (yoe : Z) : Z :=
  if (yoe + 1) mod 4 =? 0
  then if (yoe + 1) mod 100 =? 0 then if (yoe + 1) mod 400 =? 0 then 1 else 0 else 1
  else 0.

Definition mes_seguinte (Y m : Z) : Z * Z := if m =? 12 then (Y + 1, 1) else (Y, m + 1).

(** ** Tokens *)

(** An [Authorization] header that carries no bearer token: absent, not
    starting with [Bearer ], or that prefix alone. *)
Definition sem_token (h : option string) : Prop :=
  match h with
  | None => True
  | Some s => startsWith s "Bearer " = false \/ s = "Bearer "
  end.

Definition resposta_NO_TOKEN : response :=
  json 401 {[ "message" := VStr "Acesso negado. Token não fornecido.";
              "error" := VStr "NO_TOKEN" ]}.

(** ** Requests of the examples *)

Definition sem_env (nome : string) : option string := None.

(** A [jwt.verify] that finds every token malformed. *)
Definition verify_recusa (tk secret : string) (o : Jwt.opcoes) : objeto + Jwt.erro_jwt :=
  inr {| Jwt.ej_name := "JsonWebTokenError"; Jwt.ej_message := "jwt malformed" |}.

Definition pedido_sem_token : request := Exemplos.pedido {[ "id" := "1" ]} ∅ ∅ ∅.

Definition pedido_token_invalido : request :=
  Exemplos.pedido {[ "id" := "1" ]} ∅ ∅ {[ "authorization" := "Bearer token-invalido-123" ]}.

Definition pedido_bearer_minusculo : request :=
  Exemplos.pedido ∅ ∅ ∅ {[ "authorization" := "bearer abc" ]}.

Definition pedido_pagar : request :=
  Exemplos.pedido {[ "id" := "1" ]} ∅ {[ "DataPagamento" := VStr "10/01/2026" ]} ∅.

(** The same payment for a fine that is not in the table. *)
Definition pedido_pagar_ausente : request :=
  Exemplos.pedido {[ "id" := "99" ]} ∅ {[ "DataPagamento" := VStr "10/01/2026" ]} ∅.

(** A store out of reach: every query fails with the same error, which is
    not schema-shaped. *)
Definition store_fora (q : consulta) (s : unit) : resposta * unit :=
  ({| data := None;
      error := Some {| message := "connection refused"; code := "ECONNREFUSED" |} |}, s).

(** A table of fines that has every column the handler may name. *)
Definition multas_de_todos_os_nomes : MemDb.db :=
  {[ "multa" :=
       {| MemDb.colunas := ["MultaID"; "multa_id"; "id"; "ID"; "DataPagamento"; "Status";
                            "data_pagamento"; "status"];
          MemDb.linhas :=
            [ {[ "MultaID" := VNum 1; "multa_id" := VNum 1; "id" := VNum 1; "ID" := VNum 1;
                 "DataPagamento" := VNull; "Status" := VStr "pendente";
                 "data_pagamento" := VNull; "status" := VStr "pendente" ]} ] |} ]}.

Definition pedido_cancelar : request := Exemplos.pedido {[ "id" := "7" ]} ∅ ∅ ∅.

Definition corpo_reserva (titulo : string) (qntd : Z) : objeto :=
  {[ "CPFReserva" := VStr "529.982.247-25"; "NomeLivro" := VStr titulo;
     "QntdLivro" := VNum qntd;
     "DataRetirada" := VStr "01/03/2026"; "DataVolta" := VStr "15/03/2026";
     "Entrega" := VStr "Retirada" ]}.

Definition pedido_reserva (titulo : string) (qntd : Z) : request :=
  Exemplos.pedido ∅ ∅ (corpo_reserva titulo qntd) ∅.

(** [POST /reservas] for [qntd] copies of the book titled [titulo],
    against the library of the examples. *)
Definition reservar (titulo : string) (qntd : Z) : response * option MemDb.db :=
  Server.post_reservas MemDb.executar Exemplos.Number Exemplos.parseInt
    (pedido_reserva titulo qntd) (Some Exemplos.biblioteca).

(** The titles of the store that hold [fragmento]. *)
Definition titulos_com (fragmento : string) (d : MemDb.db) : list value :=
  match d !! "livro" with
  | Some t =>
      map (fun r => campo r "NomeLivro")
        (List.filter (MemDb.casa (Ilike "NomeLivro" ("%" +:+ fragmento +:+ "%")))
           (MemDb.linhas t))
  | None => []
  end.

(** ** POST /reservas, reply by reply *)

(** The row the handler inserts. *)
Definition nova_reserva (clienteData livroData : objeto) (retirada volta : string)
    (entrega observacao : value) (qntd : Z) : objeto :=
  {[ "ClienteID" := campo clienteData "ClienteID";
     "LivroID" := campo livroData "LivroID";
     "DataRetirada" := VStr retirada;
     "DataPrevistaEntrega" := VStr volta;
     "FormaRetirada" := entrega;
     "QuantidadeReservada" := VNum qntd;
     "Observacao" := observacao;
     "Status" := VStr "ativa" ]}.

(** A request for a book by its title that passes every check on its
    fields. *)
Record por_titulo (parseInt : value -> option Z) (req : request)
    (cpf titulo retirada volta entrega : string) (qntd : Z) : Prop := {
  pt_cpf : campo (body req) "CPFReserva" = VStr cpf;
  pt_cpf_ok : Validators.validarCPF (VStr cpf) = true;
  pt_cpf_trim : trim cpf <> EmptyString;
  pt_titulo : campo (body req) "NomeLivro" = VStr titulo;
  pt_titulo_trim : trim titulo <> EmptyString;
  pt_titulo_limpo : Validators.sanitizarEntrada (VStr titulo) <> VStr EmptyString;
  pt_livro : campo (body req) "LivroID" = VUndefined;
  pt_qntd_presente : truthy (campo (body req) "QntdLivro") = true;
  pt_qntd : parseInt (campo (body req) "QntdLivro") = Some qntd;
  pt_qntd_pos : 0 < qntd;
  pt_retirada : campo (body req) "DataRetirada" = VStr retirada;
  pt_retirada_ok : Validators.validarData (VStr retirada) = true;
  pt_retirada_trim : trim retirada <> EmptyString;
  pt_volta : campo (body req) "DataVolta" = VStr volta;
  pt_volta_ok : Validators.validarData (VStr volta) = true;
  pt_volta_trim : trim volta <> EmptyString;
  pt_entrega : campo (body req) "Entrega" = VStr entrega;
  pt_entrega_trim : trim entrega <> EmptyString;
}.

Definition busca_cliente (cpf : string) : consulta :=
  from_select "cliente" "ClienteID" |> eq "CPF" (Validators.sanitizarEntrada (VStr cpf)).

Definition busca_titulo (titulo : string) : consulta :=
  from_select "livro" "LivroID, NomeLivro, QuantidadeDisponivel"
  |> ilike "NomeLivro" ("%" +:+ to_String (Validators.sanitizarEntrada (VStr titulo)) +:+ "%").

Section Decide.

Context {Store : Type}.
Variable executar : consulta -> Store -> resposta * Store.
Variable Number : value -> option Z.

(** What the handler answers to such a request: the client by CPF, then
    the book by title, then the copies, then the insertion.  Each answer is
    written out, status and body. *)
Inductive decide (req : request) (cpf titulo retirada volta entrega : string) (qntd : Z)
  : Store -> response -> Store -> Prop :=
| d_cliente_erro s rc s1 :
    executar (busca_cliente cpf) s = (rc, s1) ->
    error1 (maybeSingle rc) <> None ->
    decide req cpf titulo retirada volta entrega qntd s
      {| status := 500;
         corpo := {[ "message" := VStr "Erro na consulta de cliente" ]} |} s1
| d_402 s rc s1 :
    executar (busca_cliente cpf) s = (rc, s1) ->
    maybeSingle rc = {| data1 := None; error1 := None |} ->
    decide req cpf titulo retirada volta entrega qntd s
      {| status := 402; corpo := {[ "message" := VStr "Cliente não encontrado" ]} |} s1
| d_livro_erro s rc s1 clienteData rl s2 :
    executar (busca_cliente cpf) s = (rc, s1) ->
    maybeSingle rc = {| data1 := Some clienteData; error1 := None |} ->
    executar (busca_titulo titulo) s1 = (rl, s2) ->
    error1 (maybeSingle rl) <> None ->
    decide req cpf titulo retirada volta entrega qntd s
      {| status := 500; corpo := {[ "message" := VStr "Erro na consulta de livro" ]} |} s2
| d_404 s rc s1 clienteData rl s2 :
    executar (busca_cliente cpf) s = (rc, s1) ->
    maybeSingle rc = {| data1 := Some clienteData; error1 := None |} ->
    executar (busca_titulo titulo) s1 = (rl, s2) ->
    maybeSingle rl = {| data1 := None; error1 := None |} ->
    decide req cpf titulo retirada volta entrega qntd s
      {| status := 404; corpo := {[ "message" := VStr "Livro não encontrado" ]} |} s2
| d_400 s rc s1 clienteData rl s2 livroData disponivel :
    executar (busca_cliente cpf) s = (rc, s1) ->
    maybeSingle rc = {| data1 := Some clienteData; error1 := None |} ->
    executar (busca_titulo titulo) s1 = (rl, s2) ->
    maybeSingle rl = {| data1 := Some livroData; error1 := None |} ->
    Number (campo livroData "QuantidadeDisponivel") = Some disponivel ->
    disponivel < qntd ->
    decide req cpf titulo retirada volta entrega qntd s
      {| status := 400;
         corpo := {[ "message" :=
                       VStr ("Apenas " +:+ to_String (campo livroData "QuantidadeDisponivel")
                             +:+ " livros disponíveis") ]} |} s2
| d_insere s rc s1 clienteData rl s2 livroData ri s3 dataRetirada dataVolta :
    executar (busca_cliente cpf) s = (rc, s1) ->
    maybeSingle rc = {| data1 := Some clienteData; error1 := None |} ->
    executar (busca_titulo titulo) s1 = (rl, s2) ->
    maybeSingle rl = {| data1 := Some livroData; error1 := None |} ->
    match Number (campo livroData "QuantidadeDisponivel") with
    | Some disponivel => qntd <= disponivel
    | None => True
    end ->
    Server.formatarData (VStr retirada) = Return dataRetirada ->
    Server.formatarData (VStr volta) = Return dataVolta ->
    executar (from_insert "reservas"
                [nova_reserva clienteData livroData dataRetirada dataVolta
                   (Validators.sanitizarEntrada (VStr entrega))
                   (Validators.sanitizarEntrada (campo (body req) "Observacao")) qntd]
              |> select) s2 = (ri, s3) ->
    decide req cpf titulo retirada volta entrega qntd s
      (match error1 (single ri) with
       | Some _ =>
           {| status := 500; corpo := {[ "message" := VStr "Erro ao inserir reserva" ]} |}
       | None =>
           {| status := 201;
              corpo := {[ "message" := VStr "Reserva cadastrada com sucesso";
                          "data" := VObj {[ "reserva" := match data1 (single ri) with
                                                         | Some d => VObj d
                                                         | None => VNull
                                                         end ]} ]} |}
       end) s3.

End Decide.

(** ** PATCH /multas/:id/pagar, attempt by attempt *)

(** The update one combination sends. *)
Definition tentativa (id : value) (c : objeto * string) : consulta :=
  from_update "multa" (fst c) |> eq (snd c) id |> select.

(** The eight combinations, field naming by field naming and, within
    each, id column by id column. *)
Definition combinacoes (dataBase : string) : list (objeto * string) :=
  let pascal : objeto := {[ "DataPagamento" := VStr dataBase; "Status" := VStr "paga" ]} in
  let snake : objeto := {[ "data_pagamento" := VStr dataBase; "status" := VStr "paga" ]} in
  [ (pascal, "MultaID"); (pascal, "multa_id"); (pascal, "id"); (pascal, "ID");
    (snake, "MultaID"); (snake, "multa_id"); (snake, "id"); (snake, "ID") ].

(** The answers of the route, status and body.  A fine marked as paid:
    200 with the first row the update returned. *)
Definition resposta_paga (d0 : objeto) : response :=
  {| status := 200;
     corpo := {[ "message" := VStr "Multa marcada como paga"; "data" := VObj d0 ]} |}.

(** An update that failed with the error [e]: 500, and [error] in the
    body is the message of [e].  Only a message that is the empty text
    leaves the body without [error]. *)
Definition resposta_erro_da_store (e : erro) : response :=
  {| status := 500;
     corpo := match message e with
              | EmptyString => {[ "message" := VStr "Erro ao marcar multa como paga" ]}
              | _ => {[ "message" := VStr "Erro ao marcar multa como paga";
                        "error" := VStr (message e) ]}
              end |}.

(** No fine under that id: 404, with no [error] in the body. *)
Definition resposta_nao_encontrada : response :=
  {| status := 404; corpo := {[ "message" := VStr "Multa não encontrada" ]} |}.

Section Tentativas.

Context {Store : Type}.
Variable executar : consulta -> Store -> resposta * Store.

(** [tentativas id cs u s resp s']: trying the combinations [cs] in order
    from the store [s], with [u] the last schema-shaped error met so far,
    ends with the response [resp] and the store [s']. *)
Inductive tentativas (id : value) :
  list (objeto * string) -> option erro -> Store -> response -> Store -> Prop :=
| t_paga c resto u s r s' d0 ds :
    (* an update without error that touched a row: 200 *)
    executar (tentativa id c) s = (r, s') ->
    error r = None -> data r = Some (d0 :: ds) ->
    tentativas id (c :: resto) u s (resposta_paga d0) s'
| t_nenhuma c resto u s r s' resp s'' :
    (* an update without error that touched no row: on to the next *)
    executar (tentativa id c) s = (r, s') ->
    error r = None -> data r = None \/ data r = Some [] ->
    tentativas id resto u s' resp s'' ->
    tentativas id (c :: resto) u s resp s''
| t_schema c resto u s r s' e resp s'' :
    (* a schema-shaped error: on to the next *)
    executar (tentativa id c) s = (r, s') ->
    error r = Some e -> Server.isSchemaColumnError e = true ->
    tentativas id resto (Some e) s' resp s'' ->
    tentativas id (c :: resto) u s resp s''
| t_aborta c resto u s r s' e :
    (* any other error: 500 with its message, and nothing more is tried *)
    executar (tentativa id c) s = (r, s') ->
    error r = Some e -> Server.isSchemaColumnError e = false ->
    tentativas id (c :: resto) u s (resposta_erro_da_store e) s'
| t_esgotou_404 s :
    (* every combination tried, none with an error: 404 *)
    tentativas id [] None s resposta_nao_encontrada s
| t_esgotou_500 e s :
    (* every combination tried, the last error met was schema-shaped: 500
       with the message of that error *)
    tentativas id [] (Some e) s (resposta_erro_da_store e) s.

End Tentativas.

(** ** DELETE /reservas/:id on the reference store *)

(** The reservation a [DELETE /reservas/:id] names. *)
Definition reserva_de (id : string) (r : objeto) : bool :=
  MemDb.casa (Eq "ReservaID" (VStr id)) r.

(** A row once the reservation [id] is cancelled. *)
Definition cancelar (id : string) (r : objeto) : objeto :=
  if reserva_de id r then <[ "Status" := VStr "cancelada" ]> r else r.

(** The table has the columns the handler reads and writes. *)
Definition colunas_reserva (t : MemDb.tabela_mem) : bool :=
  MemDb.tem_coluna t "ReservaID" && MemDb.tem_coluna t "Status"
  && MemDb.tem_coluna t "DataEntrega".

(** What a cancellation may do to the store [d], and what it answers. *)
Definition so_cancela (d : MemDb.db) (id : string) (res : response * option MemDb.db) : Prop :=
  exists d',
    snd res = Some d'
    (* no other table is touched *)
    /\ (forall t, t <> "reservas" -> d' !! t = d !! t)
    (* no row leaves the table, and a row changes in its Status only *)
    /\ match d !! "reservas", d' !! "reservas" with
       | Some tb, Some tb' =>
           MemDb.colunas tb' = MemDb.colunas tb
           /\ (MemDb.linhas tb' = MemDb.linhas tb
               \/ MemDb.linhas tb' = map (cancelar id) (MemDb.linhas tb))
       | None, None => True
       | _, _ => False
       end
    (* no reservation with that id: 404, and nothing changes *)
    /\ ((forall tb, d !! "reservas" = Some tb ->
                    List.filter (reserva_de id) (MemDb.linhas tb) = []) ->
        status (fst res) = 404 /\ d' = d)
    (* the reservation with that id: its Status becomes cancelada *)
    /\ (forall tb r0,
          d !! "reservas" = Some tb -> colunas_reserva tb = true ->
          List.filter (reserva_de id) (MemDb.linhas tb) = [r0] ->
          status (fst res) = 200
          /\ exists tb', d' !! "reservas" = Some tb'
                         /\ MemDb.linhas tb' = map (cancelar id) (MemDb.linhas tb)).

(** ** GET /multas *)

Definition com_status (s : option string) (f : Server.filtros_multa) : Server.filtros_multa :=
  {| Server.f_clienteId := Server.f_clienteId f;
     Server.f_reservaId := Server.f_reservaId f;
     Server.f_status := s;
     Server.f_vencidas := Server.f_vencidas f;
     Server.f_multaId := Server.f_multaId f |}.

(** The request without its [status] parameter. *)
Definition sem_status (req : request) : request :=
  {| params := params req; query := delete "status" (query req); body := body req;
     headers := headers req; usuario := usuario req |}.

(** A fine as returned: itself, or itself with its reservation attached. *)
Definition enriquecida (m e : objeto) : Prop :=
  e = m \/ exists v, e = <[ "reserva" := v ]> m.

Definition pedido_canceladas : request :=
  Exemplos.pedido ∅ {[ "status" := VStr "cancelada" ]} ∅ ∅.

(** ** Dates as the store keeps them *)

(** The text [YYYY-MM-DD] of a day, a month and a year. *)
Definition texto_iso (dia mes ano : Z) : string :=
  Validators.quatro_digitos ano +:+ "-" +:+ Validators.dois_digitos mes +:+ "-"
  +:+ Validators.dois_digitos dia.

(** One (day, month, year) comes before another in time. *)
Definition antes (x y : Z * Z * Z) : Prop :=
  let '(d1, m1, a1) := x in
  let '(d2, m2, a2) := y in
  a1 < a2 \/ (a1 = a2 /\ (m1 < m2 \/ (m1 = m2 /\ d1 < d2))).

(** ** Sanitized texts *)

(** The code units of a text. *)
Definition unidades (s : string) : list ascii := list_ascii_of_string s.

(** A text without angle brackets and quotes. *)
Definition sem_marcas (t : string) : Prop :=
  forall c, In c (unidades t) ->
            c <> "<"%char /\ c <> ">"%char /\ c <> Validators.aspas /\ c <> "'"%char.

(** A text that does not begin with white space. *)
Definition sem_espaco_inicial (s : string) : Prop :=
  match s with EmptyString => True | String c _ => is_space c = false end.

(** ** E-mail texts *)

(** [local@dominio.final]: three runs, none empty, of units that are
    neither white space nor [@]. *)
Definition email_forma (s : string) : Prop :=
  exists loc p q : list ascii,
    list_ascii_of_string s = (loc ++ "@"%char :: p ++ "."%char :: q)%list
    /\ loc <> [] /\ p <> [] /\ q <> []
    /\ forallb Validators.email_unidade (loc ++ p ++ q)%list = true.

(** ** Requests that carry a token *)

(** The options [verificarAccessToken] verifies with. *)
Definition opcoes_verificacao : Jwt.opcoes :=
  {| Jwt.expiresIn := None; Jwt.issuer := "biblioteca-api";
     Jwt.audience := "biblioteca-frontend" |}.

(** The request once [req.usuario] is set from a payload. *)
Definition com_usuario (req : request) (payload : objeto) : request :=
  {| params := params req; query := query req; body := body req; headers := headers req;
     usuario := Some {[ "id" := campo payload "id";
                        "email" := campo payload "email";
                        "role" := campo payload "role" ]} |}.

(** A [jwt.verify] that decodes every token to [payload]. *)
Definition verify_aceita (payload : objeto) (tk secret : string) (o : Jwt.opcoes)
  : objeto + Jwt.erro_jwt := inl payload.

Definition payload_admin : objeto :=
  {[ "id" := VNum 1; "email" := VStr "ana@x.org"; "role" := VStr "admin" ]}.

Definition pedido_com_token : request :=
  Exemplos.pedido ∅ ∅ ∅ {[ "authorization" := "Bearer abc.def.ghi" ]}.

(** The role of the user is one of [roles]. *)
Definition role_permitida (roles : list value) (u : objeto) : bool :=
  existsb (fun r => igual_estrito r (campo u "role")) roles.

(** ** Pages *)

(** Integers that a JavaScript number holds exactly. *)
Definition inteiro_seguro (n : Z) : Prop := - 2 ^ 53 < n < 2 ^ 53.

Definition pedido_pagina (p l : string) : request :=
  Exemplos.pedido ∅ {[ "page" := VStr p; "limit" := VStr l ]} ∅ ∅.

(** ** DELETE /cliente/:id on the reference store *)

(** The client a [DELETE /cliente/:id] names. *)
Definition cliente_de (id : string) (r : objeto) : bool :=
  MemDb.casa (Eq "ClienteID" (VStr id)) r.

(** What deleting the client [id] may do to the store [d], and what it
    answers. *)
Definition so_apaga (d : MemDb.db) (id : string) (res : response * option MemDb.db) : Prop :=
  exists d',
    snd res = Some d'
    (* no other table is touched *)
    /\ (forall t, t <> "cliente" -> d' !! t = d !! t)
    (* the rows that stay are rows that were there, unchanged, in order *)
    /\ match d !! "cliente", d' !! "cliente" with
       | Some tb, Some tb' =>
           MemDb.colunas tb' = MemDb.colunas tb
           /\ (MemDb.linhas tb' = MemDb.linhas tb
               \/ MemDb.linhas tb'
                  = List.filter (fun r => negb (cliente_de id r)) (MemDb.linhas tb))
       | None, None => True
       | _, _ => False
       end
    (* one client with that id: 200, and its row is gone *)
    /\ (forall tb r0,
          d !! "cliente" = Some tb -> MemDb.tem_coluna tb "ClienteID" = true ->
          List.filter (cliente_de id) (MemDb.linhas tb) = [r0] ->
          status (fst res) = 200
          /\ exists tb', d' !! "cliente" = Some tb'
                         /\ MemDb.linhas tb'
                            = List.filter (fun r => negb (cliente_de id r)) (MemDb.linhas tb))
    (* none, or more than one: 404, and nothing changes *)
    /\ ((forall tb, d !! "cliente" = Some tb ->
                    length (List.filter (cliente_de id) (MemDb.linhas tb)) <> 1%nat) ->
        status (fst res) = 404 /\ d' = d).

Definition pedido_apagar : request := Exemplos.pedido {[ "id" := "1" ]} ∅ ∅ ∅.

(** ** PATCH /reservas/:id *)

(** What the handler may write: a status out of the three, a delivery
    date, or both, and nothing else. *)
Definition atualizacao_de_status (u : objeto) : Prop :=
  u <> ∅
  /\ (forall k, is_Some (u !! k) -> k = "Status" \/ k = "DataEntrega")
  /\ match u !! "Status" with
     | Some v => In v [VStr "ativa"; VStr "finalizada"; VStr "cancelada"]
     | None => True
     end
  /\ match u !! "DataEntrega" with
     | Some (VStr _) | None => True
     | Some _ => False
     end.

Definition pedido_finalizar : request :=
  Exemplos.pedido {[ "id" := "7" ]} ∅
    {[ "status" := VStr "Finalizada"; "DataEntrega" := VStr "20/01/2026" ]} ∅.

(** ** Fines *)

(** The keys [normalizarMulta] always sets. *)
Definition chaves_normalizadas : list string :=
  ["MultaID"; "ReservaID"; "ClienteID"; "Valor"; "DataVencimento"; "DataPagamento"; "Status"].

(** A fine counts as paid: it has a payment date, or its status reads
    paga or pago in any case. *)
Definition paga (m : objeto) : bool :=
  truthy (campo m "DataPagamento")
  || (Server.status_de m =? "paga")%string || (Server.status_de m =? "pago")%string.

(** ** The filters of the fine query engine *)

Section Passa.

Variable Number : value -> option Z.
Variable hojeIso : string.

(** A fine is overdue: not paid, with a due date, and that date before
    today. *)
Definition vencida (m : objeto) : bool :=
  if truthy (campo m "DataPagamento") then false
  else
    let dataBase :=
      nth 0 (split_on "T" (to_String (ou (campo m "DataVencimento") (VStr EmptyString))))
        EmptyString in
    truthy (VStr dataBase) && menor_str dataBase hojeIso.

(** A fine passes the filters of [f] other than the client's. *)
Definition passa (f : Server.filtros_multa) (m : objeto) : bool :=
  match Server.numero_truthy (Server.f_multaId f) with
  | Some i => Server.mesmo_numero Number (campo m "MultaID") i
  | None => true
  end
  && match Server.numero_truthy (Server.f_reservaId f) with
     | Some i => Server.mesmo_numero Number (campo m "ReservaID") i
     | None => true
     end
  && match Server.f_status f with
     | Some s =>
         if (toLowerCase s =? "pendente")%string then negb (paga m)
         else if (toLowerCase s =? "paga")%string || (toLowerCase s =? "pago")%string
              then paga m
              else true
     | None => true
     end
  && match Server.f_vencidas f with
     | Some true => vencida m
     | _ => true
     end.

End Passa.

Definition filtros_pendentes_vencidas : Server.filtros_multa :=
  {| Server.f_clienteId := None; Server.f_reservaId := None;
     Server.f_status := Some "Pendente"; Server.f_vencidas := Some true;
     Server.f_multaId := None |}.

(** A store with one fine, overdue and not paid. *)
Definition uma_multa : MemDb.db :=
  {[ "multa" :=
       {| MemDb.colunas := ["MultaID"; "DataVencimento"; "Status"];
          MemDb.linhas :=
            [ {[ "MultaID" := VNum 1; "DataVencimento" := VStr "2026-01-10";
                 "Status" := VStr "pendente" ]} ] |} ]}.

(** ** Stores whose reads change nothing *)

(** A [select] leaves the store as it found it. *)
Definition select_puro {Store : Type} (executar : consulta -> Store -> resposta * Store)
  : Prop :=
  forall q s cols, acao_de q = Select cols -> snd (executar q s) = s.

(** A computation that leaves the store as it found it. *)
Definition preserva {Store A : Type} (m : @Server.M Store A) : Prop :=
  forall st, snd (m st) = st.

Definition pedido_multas_cliente : request :=
  Exemplos.pedido ∅ {[ "clienteId" := VStr "1"; "vencidas" := VStr "true" ]} ∅ ∅.

(** ** What POST /reservas writes *)

Section Resultado.

Context {Store : Type}.
Variable executar : consulta -> Store -> resposta * Store.

(** The handler left the store [s] as it was and did not answer 201, or
    it ran one insertion into [reservas], of a single row whose status is
    ativa and whose quantity is positive, and answered 201 or 500. *)
Definition resultado_reserva (s : Store) (res : response * option Store) : Prop :=
  (snd res = Some s /\ status (fst res) <> 201)
  \/ exists (linha : objeto) (qntd : Z),
       linha !! "Status" = Some (VStr "ativa")
       /\ linha !! "QuantidadeReservada" = Some (VNum qntd)
       /\ 0 < qntd
       /\ snd res = Some (snd (executar (from_insert "reservas" [linha] |> select) s))
       /\ (status (fst res) = 201 \/ status (fst res) = 500).

(** A computation of the handler, under its [catch]. *)
Definition bem (m : @Server.M Store response) : Prop :=
  forall s,
    resultado_reserva s
      (Server.try_catch m
         (fun msg => Server.respostaErro 500 "Erro ao cadastrar reserva" (VStr msg))
         (Some s)).

End Resultado.

(** ** Requests of the refresh and return examples *)

(** A [jwt.verify] whose every token has expired. *)
Definition verify_expirado (tk secret : string) (o : Jwt.opcoes) : objeto + Jwt.erro_jwt :=
  inr {| Jwt.ej_name := "TokenExpiredError"; Jwt.ej_message := "jwt expired" |}.

Definition pedido_refresh : request :=
  Exemplos.pedido ∅ ∅ {[ "refreshToken" := VStr "abc.def.ghi" ]} ∅.

Definition pedido_devolucao : request :=
  Exemplos.pedido ∅ ∅
    {[ "ReservaID" := VNum 7; "DataDevolucao" := VStr "20/01/2026";
       "CondicaoLivro" := VStr "Bom" ]} ∅.

(** The payload of the access token issued for a stored user. *)
Definition payload_de (usuario : objeto) : objeto :=
  {[ "id" := campo usuario "id";
     "email" := campo usuario "email";
     "role" := ou (campo usuario "role") (VStr "user") ]}.

(** The library of the examples with an empty table of returns. *)
Definition biblioteca_com_devolucao : MemDb.db :=
  <[ "devolucao" :=
       {| MemDb.colunas := ["ReservaID"; "DataDevolucao"; "CondicaoLivro"; "DataRegistro"];
          MemDb.linhas := [] |} ]> Exemplos.biblioteca.


(* ===================================================================== *)
(** * Properties *)
(* ===================================================================== *)

Import Validators Server.

(** Case analysis on the innermost test of the goal, again and again. *)
Ltac abre_casos :=
  repeat (cbv beta iota;
          match goal with
          | |- context [match ?x with _ => _ end] =>
              lazymatch x with
              | context [match _ with _ => _ end] => fail
              | _ => destruct x eqn:?
              end
          end).

(** Closed tests of the goal and of the hypotheses, evaluated. *)
Ltac reduz_testes :=
  repeat match goal with
    | |- context [if ?b then _ else _] =>
        let v := eval vm_compute in b in
        match v with true => idtac | false => idtac end;
        change b with v; cbv iota
    | H : context [if ?b then _ else _] |- _ =>
        let v := eval vm_compute in b in
        match v with true => idtac | false => idtac end;
        change b with v in H; cbv iota in H
    end.

Lemma nao_vazia s : s <> EmptyString -> negb (s =? EmptyString)%string = true.
Proof.
  intros H. destruct (s =? EmptyString)%string eqn:E; [|reflexivity].
  apply String.eqb_eq in E. contradiction.
Qed.

(** ** validarCPF *)

Example validarCPF_formatado : validarCPF (VStr "529.982.247-25") = true.
Proof. reflexivity. Qed.

Example validarCPF_digito_errado : validarCPF (VStr "52998224724") = false.
Proof. reflexivity. Qed.

Lemma list_ascii_remove_class cls s :
  list_ascii_of_string (remove_class cls s)
  = List.filter (fun c => negb (cls c)) (list_ascii_of_string s).
Proof.
  induction s as [|c r IH]; simpl; [reflexivity|].
  destruct (cls c); simpl; [apply IH | f_equal; apply IH].
Qed.

Lemma string_length_list s : String.length s = length (list_ascii_of_string s).
Proof. induction s; simpl; congruence. Qed.

Lemma filter_negb_negb {A} (p : A -> bool) l :
  List.filter (fun c => negb (negb (p c))) l = List.filter p l.
Proof. apply List.filter_ext. intros; apply negb_involutive. Qed.

Lemma laco_9 a b c d e f g h i j k :
  laco_soma [a; b; c; d; e; f; g; h; i; j; k] 10 0 9 0
  = soma_ponderada (take 9 [a; b; c; d; e; f; g; h; i; j; k]) [10; 9; 8; 7; 6; 5; 4; 3; 2].
Proof. simpl. lia. Qed.

Lemma laco_10 a b c d e f g h i j k :
  laco_soma [a; b; c; d; e; f; g; h; i; j; k] 11 0 10 0
  = soma_ponderada (take 10 [a; b; c; d; e; f; g; h; i; j; k])
      [11; 10; 9; 8; 7; 6; 5; 4; 3; 2].
Proof. simpl. lia. Qed.

Lemma digit_value_inj c1 c2 : digit_value c1 = digit_value c2 -> c1 = c2.
Proof.
  unfold digit_value, code_unit. intros H.
  assert (E : N_of_ascii c1 = N_of_ascii c2) by lia.
  rewrite <- (ascii_N_embedding c1), <- (ascii_N_embedding c2). now rewrite E.
Qed.

Lemma filter_all_digits l : forallb is_digit (List.filter is_digit l) = true.
Proof.
  induction l as [|c r IH]; simpl; [reflexivity|].
  destruct (is_digit c) eqn:E; simpl; [rewrite E|]; exact IH.
Qed.

Lemma list_len11 {A} (l : list A) :
  length l = 11%nat -> exists a b c d e f g h i j k, l = [a; b; c; d; e; f; g; h; i; j; k].
Proof.
  intros H.
  do 11 (destruct l as [|? l]; [discriminate H|]).
  destruct l; [|discriminate H]. repeat eexists.
Qed.

Lemma regex_repetido_iff cs :
  length cs = 11%nat -> forallb is_digit cs = true ->
  regex_repetido (string_of_list_ascii cs) = true
  <-> exists d, map digit_value cs = repeat d 11.
Proof.
  intros Hl Hd.
  destruct (list_len11 cs Hl) as (a & b & c & d & e & f & g & h & i & j & k & ->).
  simpl in Hd. apply andb_prop in Hd as [Ha _].
  cbn [string_of_list_ascii regex_repetido String.length list_ascii_of_string forallb].
  rewrite Ha. cbn [andb Nat.eqb].
  rewrite !andb_true_iff, !Ascii.eqb_eq.
  split.
  - intros H. exists (digit_value a).
    repeat match goal with H : _ /\ _ |- _ => destruct H end; subst. reflexivity.
  - intros [x Hx]. cbn in Hx. inversion Hx; subst.
    repeat match goal with
           | H : digit_value _ = digit_value _ |- _ => apply digit_value_inj in H; try subst
           end.
    repeat split; auto.
Qed.

(** Claim C2.  For every input string, [validarCPF] answers true exactly
    when the digits left after stripping the non-digits are eleven, are not
    eleven copies of one digit, and have their tenth and eleventh digits
    equal to the check digits computed with the weights 10..2 over the first
    nine and 11..2 over the first ten (0 when the sum mod 11 is below 2,
    11 minus it otherwise); and eleven copies of one unit are always
    rejected. *)
Theorem validarCPF_conforme :
  (forall s : string, validarCPF (VStr s) = true <-> cpf_conforme s)
  /\ (forall c : ascii, validarCPF (VStr (onze_vezes c)) = false).
Proof.
  split.
  - intros s. unfold validarCPF, cpf_conforme, cpf_digitos.
    cbn [typeof truthy].
    set (cs := List.filter is_digit (list_ascii_of_string s)).
    assert (Hcs : list_ascii_of_string (remove_class (fun c => negb (is_digit c)) s) = cs).
    { rewrite list_ascii_remove_class. apply filter_negb_negb. }
    assert (Hlimpo : remove_class (fun c => negb (is_digit c)) s = string_of_list_ascii cs).
    { rewrite <- Hcs. symmetry. apply string_of_list_ascii_of_string. }
    rewrite Hcs, Hlimpo, string_length_list, list_ascii_of_string_of_list_ascii.
    rewrite length_map.
    replace ("string" =? "string")%string with true by reflexivity.
    destruct (s =? EmptyString)%string eqn:Es.
    { apply String.eqb_eq in Es. subst s. cbn. split; [discriminate|].
      intros [H _]. discriminate H. }
    cbn [negb orb].
    destruct (length cs =? 11)%nat eqn:El; cbn [negb].
    2:{ apply Nat.eqb_neq in El. split; [discriminate|]. intros [H _]. contradiction. }
    apply Nat.eqb_eq in El.
    pose proof (regex_repetido_iff cs El (filter_all_digits _)) as Hrep.
    destruct (regex_repetido (string_of_list_ascii cs)) eqn:Er.
    { split; [discriminate|]. intros (_ & Hn & _). exfalso. apply Hn. apply Hrep. reflexivity. }
    assert (Hn : ~ exists d, map digit_value cs = repeat d 11).
    { intros H. apply Hrep in H. discriminate H. }
    destruct (list_len11 (map digit_value cs)) as (a & b & c & d & e & f & g & h & i & j & k & Hds).
    { now rewrite length_map. }
    rewrite Hds in *. rewrite laco_9, laco_10.
    unfold digito_verificador.
    set (dv1 := if _ <? 2 then 0 else _).
    set (dv2 := if _ <? 2 then 0 else _).
    cbn [nth].
    destruct (j =? dv1) eqn:E1; cbn [negb].
    + apply Z.eqb_eq in E1. rewrite Z.eqb_eq. tauto.
    + apply Z.eqb_neq in E1. split; [discriminate|]. tauto.
  - intros c. destruct (validarCPF (VStr (onze_vezes c))) eqn:E; [|reflexivity].
    exfalso. revert E. unfold validarCPF, onze_vezes.
    cbn [truthy typeof]. replace ("string" =? "string")%string with true by reflexivity.
    destruct (_ =? EmptyString)%string; [discriminate|]. cbn [negb orb].
    cbn [repeat string_of_list_ascii remove_class].
    destruct (is_digit c) eqn:Ed; cbn [negb].
    + cbn [String.length Nat.eqb negb regex_repetido list_ascii_of_string forallb].
      rewrite Ed, Ascii.eqb_refl. discriminate.
    + discriminate.
Qed.

(** ** validarData *)

Lemma yoe_inv yoe doy :
  0 <= yoe <= 399 -> 0 <= doy -> doy < 365 + folga yoe ->
  let doe := yoe * 365 + yoe / 4 - yoe / 100 + doy in
  (doe - doe / 1460 + doe / 36524 - doe / 146096) / 365 = yoe /\ 0 <= doe < 146097.
Proof.
  intros Hy Hd Hl doe. subst doe. unfold folga in Hl.
  destruct ((yoe + 1) mod 4 =? 0) eqn:E4;
    [destruct ((yoe + 1) mod 100 =? 0) eqn:E100;
     [destruct ((yoe + 1) mod 400 =? 0) eqn:E400|]|];
    rewrite ?Z.eqb_eq, ?Z.eqb_neq in *.
  all: Z.div_mod_to_equations; lia.
Qed.

Lemma mes_casos m :
  1 <= m <= 12 ->
  m = 1 \/ m = 2 \/ m = 3 \/ m = 4 \/ m = 5 \/ m = 6
  \/ m = 7 \/ m = 8 \/ m = 9 \/ m = 10 \/ m = 11 \/ m = 12.
Proof. lia. Qed.

Lemma bissexto_casos Y :
  (bissexto Y = true /\ Y mod 4 = 0 /\ (Y mod 100 <> 0 \/ Y mod 400 = 0))
  \/ (bissexto Y = false /\ (Y mod 4 <> 0 \/ (Y mod 100 = 0 /\ Y mod 400 <> 0))).
Proof.
  unfold bissexto.
  destruct (Y mod 4 =? 0) eqn:E4; destruct (Y mod 100 =? 0) eqn:E100;
    destruct (Y mod 400 =? 0) eqn:E400;
    rewrite ?Z.eqb_eq, ?Z.eqb_neq in *; cbn; intuition lia.
Qed.

Lemma folga_bissexto Y era yoe :
  Y = 400 * era + yoe + 1 -> folga yoe = if bissexto Y then 1 else 0.
Proof.
  intros ->. unfold folga, bissexto.
  replace ((400 * era + yoe + 1) mod 4) with ((yoe + 1) mod 4)
    by (Z.div_mod_to_equations; lia).
  replace ((400 * era + yoe + 1) mod 100) with ((yoe + 1) mod 100)
    by (Z.div_mod_to_equations; lia).
  replace ((400 * era + yoe + 1) mod 400) with ((yoe + 1) mod 400)
    by (Z.div_mod_to_equations; lia).
  destruct ((yoe + 1) mod 4 =? 0) eqn:E4; destruct ((yoe + 1) mod 100 =? 0) eqn:E100;
    destruct ((yoe + 1) mod 400 =? 0) eqn:E400; try reflexivity;
    rewrite ?Z.eqb_eq, ?Z.eqb_neq in *; exfalso; Z.div_mod_to_equations; lia.
Qed.

Lemma folga_nao_negativa yoe : 0 <= folga yoe <= 1.
Proof.
  unfold folga.
  repeat match goal with |- context [if ?b then _ else _] => destruct b end; lia.
Qed.

(** Month and day of a day of the year counted from the first of March. *)
Lemma dia_do_ano Y m d :
  1 <= m <= 12 -> 1 <= d <= dias_no_mes Y m ->
  let mp := if 2 <? m then m - 3 else m + 9 in
  let doy := (153 * mp + 2) / 5 + d - 1 in
  0 <= doy < 365 + (if m =? 2 then if bissexto Y then 1 else 0 else 0)
  /\ (5 * doy + 2) / 153 = mp
  /\ doy - (153 * mp + 2) / 5 + 1 = d
  /\ m = (if mp <? 10 then mp + 3 else mp - 9).
Proof.
  intros Hm Hd. unfold dias_no_mes in Hd.
  destruct (mes_casos m Hm) as [->|[->|[->|[->|[->|[->|[->|[->|[->|[->|[->| ->]]]]]]]]]]];
    cbv zeta; reduz_testes; try destruct (bissexto Y);
    repeat split; try (Z.div_mod_to_equations; lia).
Qed.

(** A day of the calendar is read back as it was built. *)
Lemma civil_roundtrip Y m d :
  1 <= m <= 12 -> 1 <= d <= dias_no_mes Y m ->
  Date.civil_from_days (Date.days_from_civil Y m d) = (Y, m, d).
Proof.
  intros Hm Hd.
  destruct (dia_do_ano Y m d Hm Hd) as (Hdoy & Hmp' & Hd' & Hm').
  unfold Date.days_from_civil.
  set (y' := if m <=? 2 then Y - 1 else Y) in *.
  set (era := y' / 400).
  set (yoe := y' - era * 400).
  set (mp := if 2 <? m then m - 3 else m + 9) in *.
  set (doy := (153 * mp + 2) / 5 + d - 1) in *.
  assert (Hyoe : 0 <= yoe <= 399) by (subst yoe era; Z.div_mod_to_equations; lia).
  assert (Hf : doy < 365 + folga yoe).
  { pose proof (folga_nao_negativa yoe).
    destruct (m =? 2) eqn:E2; [|lia].
    apply Z.eqb_eq in E2.
    rewrite (folga_bissexto Y era yoe); [lia|].
    subst yoe y'. rewrite E2. reduz_testes. lia. }
  destruct (yoe_inv yoe doy Hyoe (proj1 Hdoy) Hf) as [Hinv Hdoe].
  cbv zeta in Hinv, Hdoe.
  set (doe := yoe * 365 + yoe / 4 - yoe / 100 + doy) in *.
  unfold Date.civil_from_days.
  replace (era * 146097 + doe - 719468 + 719468) with (doe + era * 146097) by lia.
  rewrite Z.div_add by lia. rewrite (Z.div_small doe 146097) by lia.
  replace (doe + era * 146097 - (0 + era) * 146097) with doe by lia.
  cbv zeta. rewrite Hinv.
  replace (doe - (365 * yoe + yoe / 4 - yoe / 100)) with doy by (subst doe; lia).
  rewrite Hmp', Hd', <- Hm'.
  f_equal. f_equal.
  subst yoe y'. destruct (m <=? 2); lia.
Qed.

Lemma days_from_civil_linear Y m d :
  Date.days_from_civil Y m d = Date.days_from_civil Y m 1 + (d - 1).
Proof. unfold Date.days_from_civil. cbv zeta. lia. Qed.

Lemma proximo_mes Y m :
  1 <= m <= 12 ->
  Date.days_from_civil Y m (dias_no_mes Y m + 1)
  = Date.days_from_civil (fst (mes_seguinte Y m)) (snd (mes_seguinte Y m)) 1.
Proof.
  intros Hm. unfold Date.days_from_civil, dias_no_mes, mes_seguinte.
  destruct (mes_casos m Hm) as [->|[->|[->|[->|[->|[->|[->|[->|[->|[->|[->| ->]]]]]]]]]]];
    cbv zeta; reduz_testes; cbn [fst snd]; reduz_testes;
    try (Z.div_mod_to_equations; lia).
  destruct (bissexto_casos Y) as [(Hb & HB)|(Hb & HB)]; rewrite Hb;
    Z.div_mod_to_equations; lia.
Qed.

Lemma dias_no_mes_faixa Y m : 28 <= dias_no_mes Y m <= 31.
Proof.
  unfold dias_no_mes.
  repeat match goal with |- context [if ?b then _ else _] => destruct b end; lia.
Qed.

(** A day past the end of its month is read back in the next month. *)
Lemma civil_transborda Y m d :
  1 <= m <= 12 -> dias_no_mes Y m < d <= 31 ->
  Date.civil_from_days (Date.days_from_civil Y m 1 + (d - 1))
  = (fst (mes_seguinte Y m), snd (mes_seguinte Y m), d - dias_no_mes Y m).
Proof.
  intros Hm Hd.
  replace (Date.days_from_civil Y m 1 + (d - 1))
    with (Date.days_from_civil Y m (dias_no_mes Y m + 1) + (d - dias_no_mes Y m - 1))
    by (rewrite (days_from_civil_linear Y m (_ + 1)); lia).
  rewrite proximo_mes by assumption.
  rewrite <- days_from_civil_linear.
  pose proof (dias_no_mes_faixa Y m).
  pose proof (dias_no_mes_faixa (fst (mes_seguinte Y m)) (snd (mes_seguinte Y m))).
  apply civil_roundtrip; [|lia].
  unfold mes_seguinte. destruct (m =? 12) eqn:E; cbn [snd]; lia.
Qed.

(** The round trip through [Date] succeeds exactly for a day that exists
    in its month, in a year from 100 on. *)
Lemma ida_e_volta_calendario dia mes ano :
  1 <= dia <= 31 -> 1 <= mes <= 12 -> 0 <= ano ->
  ida_e_volta dia mes ano = (100 <=? ano) && (dia <=? dias_no_mes ano mes).
Proof.
  intros Hd Hm Ha.
  unfold ida_e_volta, Date.make, Date.getFullYear, Date.getMonth, Date.getDate.
  cbv zeta.
  replace ((mes - 1) / 12) with 0 by (Z.div_mod_to_equations; lia).
  replace ((mes - 1) mod 12 + 1) with mes by (Z.div_mod_to_equations; lia).
  set (Y := if (0 <=? ano) && (ano <=? 99) then 1900 + ano else ano).
  assert (HY : (100 <= ano /\ Y = ano) \/ (ano < 100 /\ Y = 1900 + ano)).
  { subst Y. destruct (0 <=? ano) eqn:E0; destruct (ano <=? 99) eqn:E1; cbn [andb]; lia. }
  rewrite Z.add_0_r.
  destruct (Z_le_gt_dec dia (dias_no_mes Y mes)) as [Hle|Hgt].
  - rewrite <- days_from_civil_linear, civil_roundtrip by lia. cbn [fst snd].
    rewrite !Z.eqb_refl, !andb_true_r.
    destruct HY as [[H1 ->]|[H1 H2]].
    + rewrite Z.eqb_refl. symmetry. apply andb_true_iff. split; lia.
    + replace (100 <=? ano) with false by lia. cbn [andb]. lia.
  - rewrite civil_transborda by lia. cbn [fst snd].
    replace (snd (mes_seguinte Y mes) - 1 =? mes - 1) with false
      by (unfold mes_seguinte; destruct (mes =? 12) eqn:E; cbn [snd]; lia).
    rewrite andb_false_r. cbn [andb].
    destruct HY as [[H1 H2]|[H1 H2]].
    + rewrite H2 in Hgt. symmetry. apply andb_false_iff. right. lia.
    + symmetry. apply andb_false_iff. left. lia.
Qed.

Lemma entre_code lo hi c : entre lo hi c = true -> code_unit lo <= code_unit c <= code_unit hi.
Proof. unfold entre. rewrite andb_true_iff, !Z.leb_le. tauto. Qed.

Lemma eqb_code a b : Ascii.eqb a b = true -> code_unit a = code_unit b.
Proof. rewrite Ascii.eqb_eq. now intros ->. Qed.

Lemma nao_barra c : 48 <= code_unit c <= 57 -> Ascii.eqb c "/" = false.
Proof.
  intros H. destruct (Ascii.eqb c "/") eqn:E; [|reflexivity].
  apply eqb_code in E. change (code_unit "/") with 47 in E. lia.
Qed.

Lemma is_digit_code c : is_digit c = true -> 48 <= code_unit c <= 57.
Proof. unfold is_digit. rewrite andb_true_iff, !Z.leb_le. tauto. Qed.

Ltac abre_testes :=
  repeat match goal with
    | H : _ || _ = true |- _ => apply orb_prop in H; destruct H
    | H : _ && _ = true |- _ => apply andb_prop in H; destruct H
    | H : Ascii.eqb _ _ = true |- _ => apply eqb_code in H
    | H : entre _ _ _ = true |- _ => apply entre_code in H
    | H : is_digit _ = true |- _ => apply is_digit_code in H
    end;
  change (code_unit "0") with 48 in *; change (code_unit "1") with 49 in *;
  change (code_unit "2") with 50 in *; change (code_unit "3") with 51 in *;
  change (code_unit "9") with 57 in *.

(** The shape of a text the pattern of [validarData] matches. *)
Lemma regex_data_forma s :
  regex_data s = true ->
  exists d1 d2 m1 m2 a1 a2 a3 a4,
    s = string_of_list_ascii [d1; d2; "/"%char; m1; m2; "/"%char; a1; a2; a3; a4]
    /\ 1 <= 10 * digit_value d1 + digit_value d2 <= 31
    /\ 1 <= 10 * digit_value m1 + digit_value m2 <= 12
    /\ Forall (fun c => 48 <= code_unit c <= 57) [d1; d2; m1; m2; a1; a2; a3; a4].
Proof.
  unfold regex_data. intros H.
  rewrite <- (string_of_list_ascii_of_string s).
  destruct (list_ascii_of_string s)
    as [|d1 [|d2 [|b1 [|m1 [|m2 [|b2 [|a1 [|a2 [|a3 [|a4 [|? ?]]]]]]]]]]];
    try discriminate H.
  rewrite !andb_true_iff in H.
  destruct H as (((((((Hd & Hb1) & Hm) & Hb2) & Ha1) & Ha2) & Ha3) & Ha4).
  apply Ascii.eqb_eq in Hb1, Hb2. subst b1 b2.
  apply is_digit_code in Ha1, Ha2, Ha3, Ha4.
  exists d1, d2, m1, m2, a1, a2, a3, a4. unfold digit_value.
  change (code_unit "0") with 48 in *.
  assert (Hd' : 48 <= code_unit d1 <= 57 /\ 48 <= code_unit d2 <= 57
                /\ 1 <= 10 * (code_unit d1 - 48) + (code_unit d2 - 48) <= 31).
  { clear Hm. abre_testes; lia. }
  assert (Hm' : 48 <= code_unit m1 <= 57 /\ 48 <= code_unit m2 <= 57
                /\ 1 <= 10 * (code_unit m1 - 48) + (code_unit m2 - 48) <= 12).
  { clear Hd. abre_testes; lia. }
  repeat split; try lia.
  repeat constructor; lia.
Qed.

(** What [validarData] answers, text by text: false for a text the
    pattern does not match; for a matched text, true exactly when the year
    is 100 or more and the day exists in the month of that year. *)
Lemma validarData_calendario s :
  (regex_data s = false -> validarData (VStr s) = false)
  /\ (regex_data s = true ->
      let '(dia, mes, ano) := campos_data s in
      1 <= dia <= 31 /\ 1 <= mes <= 12 /\ 0 <= ano <= 9999
      /\ validarData (VStr s) = (100 <=? ano) && (dia <=? dias_no_mes ano mes)).
Proof.
  split.
  - intros H. unfold validarData. rewrite H. cbn [negb].
    destruct (negb (truthy (VStr s)) || negb (typeof (VStr s) =? "string")%string);
      reflexivity.
  - intros H. unfold validarData, campos_data. rewrite H. cbn [negb truthy typeof].
    replace ("string" =? "string")%string with true by reflexivity.
    destruct (regex_data_forma s H) as (d1 & d2 & m1 & m2 & a1 & a2 & a3 & a4 & -> & Hd & Hm & Hc).
    replace (string_of_list_ascii [d1; d2; "/"%char; m1; m2; "/"%char; a1; a2; a3; a4]
             =? EmptyString)%string with false by reflexivity.
    cbn [negb orb].
    repeat match goal with H : Forall _ (_ :: _) |- _ => inversion H; clear H; subst end.
    cbn [string_of_list_ascii].
    repeat (cbn [split_on]; rewrite ?Ascii.eqb_refl, ?nao_barra by assumption).
    cbn [map decimal_value list_ascii_of_string fold_left].
    set (dia := 10 * (10 * 0 + digit_value d1) + digit_value d2).
    set (mes := 10 * (10 * 0 + digit_value m1) + digit_value m2).
    set (ano := 10 * (10 * (10 * (10 * 0 + digit_value a1) + digit_value a2)
                      + digit_value a3) + digit_value a4).
    assert (0 <= ano <= 9999) by (subst ano; unfold digit_value; lia).
    assert (1 <= dia <= 31) by (subst dia; lia).
    assert (1 <= mes <= 12) by (subst mes; lia).
    clearbody dia mes ano.
    repeat split; try lia.
    rewrite <- (ida_e_volta_calendario dia mes ano) by lia.
    unfold ida_e_volta. reflexivity.
Qed.

Example validarData_bissextos :
  map (fun s => validarData (VStr s)) ["29/02/2024"; "29/02/2023"; "29/02/2000"; "29/02/1900"]
  = [true; false; true; false].
Proof. vm_compute. reflexivity. Qed.

(** Claim C3.  The text 29/02/0004 matches the pattern DD/MM/YYYY and the
    year 4 is a leap year, yet [validarData] rejects it: [new Date(4, 1, 29)]
    is the 29th of February of 1904, whose year is not 4.  The same holds
    for the first of January of the year 50. *)
Theorem validarData_ano_abaixo_de_100 :
  regex_data "29/02/0004" = true
  /\ campos_data "29/02/0004" = (29, 2, 4)
  /\ bissexto 4 = true
  /\ Date.civil_from_days (Date.make 4 1 29) = (1904, 2, 29)
  /\ validarData (VStr "29/02/0004") = false
  /\ regex_data "01/01/0050" = true
  /\ validarData (VStr "01/01/0050") = false.
Proof. repeat split; vm_compute; reflexivity. Qed.


(** ** Tokens *)

Example extrairTokenDoHeader_exemplos :
  map Jwt.extrairTokenDoHeader
    [None; Some "Token abc"; Some "bearer abc"; Some "Bearer"; Some "Bearer "; Some "Bearer abc"]
  = [None; None; None; None; Some EmptyString; Some "abc"].
Proof. vm_compute. reflexivity. Qed.

(** Claim C9.  When the [Authorization] header is absent, does not start
    with the prefix [Bearer ] in that exact case, or is that prefix alone,
    [extrairTokenDoHeader] gives null or the empty text, and
    [autenticarToken] answers 401 with the code NO_TOKEN, whatever the
    verification of tokens would say. *)
Theorem autenticarToken_sem_token env verify (req : request) :
  sem_token (headers req !! "authorization") ->
  (Jwt.extrairTokenDoHeader (headers req !! "authorization") = None
   \/ Jwt.extrairTokenDoHeader (headers req !! "authorization") = Some EmptyString)
  /\ Middleware.autenticarToken env verify req = Middleware.Responde resposta_NO_TOKEN
  /\ status resposta_NO_TOKEN = 401
  /\ corpo resposta_NO_TOKEN !! "error" = Some (VStr "NO_TOKEN").
Proof.
  intros H. unfold Middleware.autenticarToken.
  destruct (headers req !! "authorization") as [s|]; cbn in H |- *.
  - destruct H as [H| ->].
    + rewrite H. rewrite orb_true_r. cbn. auto.
    + cbn. auto.
  - auto.
Qed.

Lemma autenticarToken_sem_token_witness :
  sem_token (headers pedido_bearer_minusculo !! "authorization")
  /\ Middleware.autenticarToken sem_env verify_recusa pedido_bearer_minusculo
     = Middleware.Responde resposta_NO_TOKEN.
Proof.
  assert (H : sem_token (headers pedido_bearer_minusculo !! "authorization")).
  { vm_compute. left. reflexivity. }
  split; [exact H|].
  exact (proj1 (proj2 (autenticarToken_sem_token sem_env verify_recusa
                         pedido_bearer_minusculo H))).
Defined.

(** Claim C10.  In the pair [gerarParTokens] issues, the payload of the
    access token has the role of the user when that role is truthy and
    the text user otherwise, so its role is always truthy; the payload of
    the refresh token has the keys id and email and no other, so no role. *)
Theorem gerarParTokens_payloads env (usuario : objeto) :
  let par := Jwt.gerarParTokens env usuario in
  Jwt.tk_payload (Jwt.accessToken par) !! "role"
    = Some (if truthy (campo usuario "role") then campo usuario "role" else VStr "user")
  /\ truthy (campo (Jwt.tk_payload (Jwt.accessToken par)) "role") = true
  /\ dom (Jwt.tk_payload (Jwt.refreshToken par)) = {[ "id"; "email" ]}
  /\ Jwt.tk_payload (Jwt.refreshToken par) !! "role" = None.
Proof.
  cbn. unfold Jwt.gerarParTokens.
  cbn [Jwt.accessToken Jwt.refreshToken Jwt.gerarAccessToken Jwt.gerarRefreshToken
       Jwt.sign Jwt.tk_payload].
  split; [reflexivity|]. split; [|split; [|reflexivity]].
  - change (truthy (ou (campo usuario "role") (VStr "user")) = true).
    unfold ou. destruct (truthy (campo usuario "role")) eqn:E; [exact E|reflexivity].
  - rewrite dom_insert_L, dom_singleton_L. reflexivity.
Qed.

Example gerarParTokens_sem_role :
  let par := Jwt.gerarParTokens sem_env {[ "id" := VNum 1; "email" := VStr "ana@x.org";
                                           "role" := VNull ]} in
  Jwt.tk_payload (Jwt.accessToken par) !! "role" = Some (VStr "user")
  /\ Jwt.tk_payload (Jwt.refreshToken par)
     = {[ "id" := VNum 1; "email" := VStr "ana@x.org" ]}.
Proof. split; vm_compute; reflexivity. Qed.

(** ** The routes and the authentication middleware *)

(** [DELETE /cliente/:id] answers 200, 400, 404 or 500: never 401 or 403. *)
Lemma delete_cliente_status {Store} (executar : consulta -> Store -> resposta * Store)
    Number req st :
  let r := fst (delete_cliente executar Number req st) in
  status r = 200 \/ status r = 400 \/ status r = 404 \/ status r = 500.
Proof.
  cbv zeta.
  unfold delete_cliente, try_catch, bind, ret, consultar, respostaErro, respostaSucesso, json.
  abre_casos; cbn; auto 6.
Qed.

(** Claim C1.  For [DELETE /cliente/1], [autenticarToken] would answer 401
    to the request with no [Authorization] header and 403 to the one whose
    bearer token does not verify; the route runs the handler alone, which
    deletes the client and answers 200 to both, and 500 to both when the
    store is not configured. *)
Theorem delete_cliente_sem_autenticacao :
  (exists r, Middleware.autenticarToken sem_env verify_recusa pedido_sem_token
             = Middleware.Responde r
             /\ status r = 401)
  /\ (exists r, Middleware.autenticarToken sem_env verify_recusa pedido_token_invalido
                = Middleware.Responde r
                /\ status r = 403)
  /\ status (fst (delete_cliente MemDb.executar Exemplos.Number pedido_sem_token
                    (Some Exemplos.biblioteca))) = 200
  /\ status (fst (delete_cliente MemDb.executar Exemplos.Number pedido_token_invalido
                    (Some Exemplos.biblioteca))) = 200
  /\ status (fst (delete_cliente MemDb.executar Exemplos.Number pedido_sem_token None)) = 500
  /\ status (fst (delete_cliente MemDb.executar Exemplos.Number pedido_token_invalido None))
     = 500.
Proof.
  repeat split;
    try (eexists; split; [vm_compute; reflexivity | reflexivity]);
    vm_compute; reflexivity.
Qed.

(** ** The validators and sanitizers on any value *)



(** ** POST /reservas *)

Section Reservar.

Context {Store : Type}.
Variable executar : consulta -> Store -> resposta * Store.
Variable Number : value -> option Z.
Variable parseInt : value -> option Z.

(** A request by title that passes the checks on its fields is answered
    as [decide] says, whatever the store replies. *)
Lemma post_reservas_decide req cpf titulo retirada volta entrega qntd s :
  por_titulo parseInt req cpf titulo retirada volta entrega qntd ->
  exists s',
    snd (post_reservas executar Number parseInt req (Some s)) = Some s'
    /\ decide executar Number req cpf titulo retirada volta entrega qntd s
         (fst (post_reservas executar Number parseInt req (Some s))) s'.
Proof.
  intros [].
  unfold post_reservas, try_catch.
  rewrite pt_cpf0, pt_titulo0, pt_livro0, pt_retirada0, pt_volta0, pt_entrega0, pt_qntd0,
    pt_qntd_presente0.
  unfold nao_trim, bind, ret, lift. cbn [truthy negb andb orb].
  rewrite !nao_vazia by assumption. cbn [negb andb].
  rewrite pt_cpf_ok0, pt_retirada_ok0, pt_volta_ok0. cbn [negb orb].
  replace (qntd <=? 0) with false by lia.
  assert (Hfr : exists dR, formatarData (VStr retirada) = Return dR).
  { unfold formatarData. rewrite pt_retirada_ok0. eexists; reflexivity. }
  assert (Hfv : exists dV, formatarData (VStr volta) = Return dV).
  { unfold formatarData. rewrite pt_volta_ok0. eexists; reflexivity. }
  destruct Hfr as [dR Hfr]. destruct Hfv as [dV Hfv]. rewrite Hfr, Hfv.
  assert (Ht : negb (titulo =? EmptyString)%string = true).
  { apply nao_vazia. intros ->. apply pt_titulo_trim0. reflexivity. }
  rewrite Ht.
  assert (Hl : truthy (sanitizarEntrada (VStr titulo)) = true).
  { cbn [sanitizarEntrada truthy] in *. apply nao_vazia. intros E.
    apply pt_titulo_limpo0. now rewrite E. }
  rewrite Hl.
  unfold consultar.
  fold (busca_cliente cpf). fold (busca_titulo titulo).
  destruct (executar (busca_cliente cpf) s) as [rc s1] eqn:Ec.
  destruct (maybeSingle rc) as [dc [ec|]] eqn:Emc; cbn [error1 data1].
  { eexists. split; [reflexivity|]. eapply d_cliente_erro; eauto. rewrite Emc. discriminate. }
  destruct dc as [clienteData|].
  2:{ eexists. split; [reflexivity|]. eapply d_402; eauto. }
  destruct (executar (busca_titulo titulo) s1) as [rl s2] eqn:El.
  destruct (maybeSingle rl) as [dl [el|]] eqn:Eml; cbn [error1 data1].
  { eexists. split; [reflexivity|]. eapply d_livro_erro; eauto. rewrite Eml. discriminate. }
  destruct dl as [livroData|].
  2:{ eexists. split; [reflexivity|]. eapply d_404; eauto. }
  assert (Hfim : forall ri s3,
             executar (from_insert "reservas"
                         [nova_reserva clienteData livroData dR dV
                            (sanitizarEntrada (VStr entrega))
                            (sanitizarEntrada (campo (body req) "Observacao")) qntd]
                       |> select) s2 = (ri, s3) ->
             match Number (campo livroData "QuantidadeDisponivel") with
             | Some disponivel => qntd <= disponivel
             | None => True
             end ->
             decide executar Number req cpf titulo retirada volta entrega qntd s
               (match error1 (single ri) with
                | Some _ => respostaErro 500 "Erro ao inserir reserva" VNull
                | None =>
                    respostaSucesso 201 "Reserva cadastrada com sucesso"
                      (VObj {[ "reserva" := match data1 (single ri) with
                                            | Some d => VObj d
                                            | None => VNull
                                            end ]})
                end) s3).
  { intros ri s3 Hi Hq. eapply d_insere; eauto. }
  fold (nova_reserva clienteData livroData dR dV (sanitizarEntrada (VStr entrega))
          (sanitizarEntrada (campo (body req) "Observacao")) qntd).
  destruct (Number (campo livroData "QuantidadeDisponivel")) as [disp|] eqn:En.
  - destruct (disp <? qntd) eqn:Ed.
    + eexists. split; [reflexivity|]. eapply d_400; eauto. lia.
    + match goal with
      | |- context [executar ?q s2] => destruct (executar q s2) as [ri s3] eqn:Ei
      end.
      specialize (Hfim ri s3 eq_refl ltac:(lia)).
      destruct (error1 (single ri)) eqn:Es; eexists; (split; [reflexivity|exact Hfim]).
  - match goal with
    | |- context [executar ?q s2] => destruct (executar q s2) as [ri s3] eqn:Ei
    end.
    specialize (Hfim ri s3 eq_refl I).
    destruct (error1 (single ri)) eqn:Es; eexists; (split; [reflexivity|exact Hfim]).
Qed.

End Reservar.

Example post_reservas_respostas :
  map (fun p => status (fst (reservar (fst p) (snd p))))
    [("Casmurro", 1); ("casm", 3); ("Quixote", 5); ("Memorial", 1)]
  = [201; 201; 400; 404]
  /\ corpo (fst (reservar "Quixote" 5)) !! "message"
     = Some (VStr "Apenas 2 livros disponíveis").
Proof. split; vm_compute; reflexivity. Qed.

(** Claim C4.  The library holds two titles with the word Dom.  A valid
    request to reserve one copy of the book titled Dom finds both, the
    search for a single row fails, and the handler answers 500 with the
    message of a failed book query and stores nothing, where the claim has
    a reservation created; the same request for Casmurro, which one title
    holds, is answered 201. *)
Theorem post_reservas_titulo_ambiguo :
  titulos_com "Dom" Exemplos.biblioteca = [VStr "Dom Casmurro"; VStr "Dom Quixote"]
  /\ status (fst (reservar "Dom" 1)) = 500
  /\ corpo (fst (reservar "Dom" 1)) !! "message" = Some (VStr "Erro na consulta de livro")
  /\ snd (reservar "Dom" 1) = Some Exemplos.biblioteca
  /\ status (fst (reservar "Casmurro" 1)) = 201.
Proof. repeat split; vm_compute; reflexivity. Qed.

(** ** PATCH /multas/:id/pagar *)

Section Pagar.

Context {Store : Type}.
Variable executar : consulta -> Store -> resposta * Store.
Variable Number : value -> option Z.

(** [respostaErro] with the message of a store error builds the answer the
    relation names. *)
Lemma respostaErro_da_store (e : erro) :
  respostaErro 500 "Erro ao marcar multa como paga" (VStr (message e))
  = resposta_erro_da_store e.
Proof.
  unfold respostaErro, resposta_erro_da_store, json. cbn [truthy].
  destruct (message e); reflexivity.
Qed.

(** The inner loop tries the keys of one payload in order. *)
Lemma laco_keys_tentativas id p keys : forall u s,
  exists saida u' s',
    laco_keys executar id p keys u (Some s) = (Return (saida, u'), Some s')
    /\ match saida with
       | Some resp =>
           forall resto, tentativas executar id (map (pair p) keys ++ resto)%list u s resp s'
       | None => forall resto resp s'',
           tentativas executar id resto u' s' resp s'' ->
           tentativas executar id (map (pair p) keys ++ resto)%list u s resp s''
       end.
Proof.
  induction keys as [|k keys IH]; intros u s.
  - exists None, u, s. split; [reflexivity|]. intros resto resp s'' H. exact H.
  - cbn [laco_keys]. unfold bind, consultar.
    destruct (executar (from_update "multa" p |> eq k id |> select) s) as [r s1] eqn:E.
    destruct (error r) as [e|] eqn:Ee.
    + destruct (isSchemaColumnError e) eqn:Es.
      * destruct (IH (Some e) s1) as (saida & u' & s' & Hl & Hs).
        exists saida, u', s'. split; [exact Hl|].
        destruct saida as [resp|].
        -- intros resto. eapply t_schema; eauto.
        -- intros resto resp s'' H. eapply t_schema; eauto.
      * eexists _, _, _. split; [reflexivity|]. intros resto.
        rewrite respostaErro_da_store. eapply t_aborta; eauto.
    + destruct (data r) as [[|d0 ds]|] eqn:Ed.
      * destruct (IH u s1) as (saida & u' & s' & Hl & Hs).
        exists saida, u', s'. split; [exact Hl|].
        destruct saida as [resp|].
        -- intros resto. eapply t_nenhuma; eauto.
        -- intros resto resp s'' H. eapply t_nenhuma; eauto.
      * eexists _, _, _. split; [reflexivity|]. intros resto. eapply t_paga; eauto.
      * destruct (IH u s1) as (saida & u' & s' & Hl & Hs).
        exists saida, u', s'. split; [exact Hl|].
        destruct saida as [resp|].
        -- intros resto. eapply t_nenhuma; eauto.
        -- intros resto resp s'' H. eapply t_nenhuma; eauto.
Qed.

(** The outer loop tries the payloads in order, each with every key. *)
Lemma laco_updates_tentativas id keys updates : forall u s,
  exists saida u' s',
    laco_updates executar id updates keys u (Some s) = (Return (saida, u'), Some s')
    /\ match saida with
       | Some resp =>
           forall resto,
             tentativas executar id
               (concat (map (fun p => map (pair p) keys) updates) ++ resto)%list u s resp s'
       | None => forall resto resp s'',
           tentativas executar id resto u' s' resp s'' ->
           tentativas executar id
             (concat (map (fun p => map (pair p) keys) updates) ++ resto)%list u s resp s''
       end.
Proof.
  induction updates as [|p updates IH]; intros u s.
  - exists None, u, s. split; [reflexivity|]. intros resto resp s'' H. exact H.
  - cbn [laco_updates map concat]. unfold bind.
    destruct (laco_keys_tentativas id p keys u s) as (saida & u1 & s1 & Hl & Hs).
    rewrite Hl. destruct saida as [resp|].
    + eexists _, _, _. split; [reflexivity|]. intros resto.
      rewrite <- app_assoc. apply Hs.
    + destruct (IH u1 s1) as (saida & u' & s' & Hl' & Hs').
      exists saida, u', s'. split; [exact Hl'|].
      destruct saida as [resp|].
      * intros resto. rewrite <- app_assoc. apply Hs. apply Hs'.
      * intros resto resp s'' H. rewrite <- app_assoc. apply Hs. apply Hs'. exact H.
Qed.

(** Claim C5.  For a request whose id is numeric and whose payment date is
    a valid DD/MM/YYYY, the handler returns, and its response and final
    store are those of trying the eight combinations in order: the two
    namings of the payment fields, each against MultaID, multa_id, id and
    ID.  The first update without error that touched a row gives
    [resposta_paga], status 200 with that row as [data]; the first error
    that is not schema-shaped gives [resposta_erro_da_store], status 500
    with the message of that error as [error] in the body, and nothing
    more is tried; all tried without any error and no row touched gives
    [resposta_nao_encontrada], status 404; all tried with a schema-shaped
    error among them gives the 500 with the message of the last one. *)
Theorem patch_multas_pagar_tentativas (req : request) (id data : string) (s : Store) :
  params req !! "id" = Some id ->
  id <> EmptyString ->
  isNaN Number (VStr id) = false ->
  campo (body req) "DataPagamento" = VStr data ->
  Validators.validarData (VStr data) = true ->
  exists dataBase s',
    formatarData (VStr data) = Return dataBase
    /\ snd (patch_multas_pagar executar Number req (Some s)) = Some s'
    /\ tentativas executar (VStr id) (combinacoes dataBase) None s
         (fst (patch_multas_pagar executar Number req (Some s))) s'.
Proof.
  intros Hid Hne Hnan Hdata Hval.
  unfold patch_multas_pagar, try_catch, param. rewrite Hid, Hdata, Hnan, Hval.
  assert (Ht : truthy (VStr id) = true) by (cbn; apply nao_vazia; exact Hne).
  assert (Htd : truthy (VStr data) = true).
  { unfold Validators.validarData in Hval.
    destruct (truthy (VStr data)); [reflexivity|discriminate Hval]. }
  rewrite Ht, Htd. cbn [negb orb].
  unfold bind at 1, lift. unfold formatarData. rewrite Hval. cbn [negb].
  eexists.
  destruct (laco_updates_tentativas (VStr id) keysParaTentar
              (updatesParaTentar
                 (nth 2 (split_on "/" data) "undefined" +:+ "-"
                  +:+ nth 1 (split_on "/" data) "undefined" +:+ "-"
                  +:+ nth 0 (split_on "/" data) "undefined")) None s)
    as (saida & u' & s' & Hl & Hs).
  exists s'. split; [reflexivity|].
  unfold bind. rewrite Hl.
  destruct saida as [resp|]; [|destruct u' as [e|]]; cbn [ret fst snd];
    (split; [reflexivity|]).
  - specialize (Hs []). rewrite app_nil_r in Hs. exact Hs.
  - specialize (Hs [] _ _ (t_esgotou_500 executar (VStr id) e s')).
    rewrite app_nil_r in Hs. rewrite respostaErro_da_store. exact Hs.
  - specialize (Hs [] _ _ (t_esgotou_404 executar (VStr id) s')).
    rewrite app_nil_r in Hs. exact Hs.
Qed.

End Pagar.

Lemma patch_multas_pagar_tentativas_witness :
  params pedido_pagar_ausente !! "id" = Some "99"
  /\ Validators.validarData (VStr "10/01/2026") = true
  /\ exists dataBase s',
       formatarData (VStr "10/01/2026") = Return dataBase
       /\ snd (patch_multas_pagar MemDb.executar Exemplos.Number pedido_pagar_ausente
                 (Some Exemplos.biblioteca)) = Some s'
       /\ tentativas MemDb.executar (VStr "99") (combinacoes dataBase) None
            Exemplos.biblioteca
            (fst (patch_multas_pagar MemDb.executar Exemplos.Number pedido_pagar_ausente
                    (Some Exemplos.biblioteca))) s'.
Proof.
  split; [vm_compute; reflexivity|]. split; [vm_compute; reflexivity|].
  apply (patch_multas_pagar_tentativas MemDb.executar Exemplos.Number pedido_pagar_ausente
           "99" "10/01/2026" Exemplos.biblioteca).
  - vm_compute. reflexivity.
  - discriminate.
  - vm_compute. reflexivity.
  - vm_compute. reflexivity.
  - vm_compute. reflexivity.
Defined.

(** The answers, run: the fine of the library is found by the first
    combination; a fine that is not there is looked for under all eight,
    and the table of the library, which has no column [ID], leaves the
    schema-shaped error of the last one in the 500; a table with every
    column gives the 404; a store that fails for another reason stops the
    handler at once, with that reason in the body. *)
Example patch_multas_pagar_respostas :
  let paga := fst (patch_multas_pagar MemDb.executar Exemplos.Number pedido_pagar
                     (Some Exemplos.biblioteca)) in
  let ausente := fst (patch_multas_pagar MemDb.executar Exemplos.Number pedido_pagar_ausente
                        (Some Exemplos.biblioteca)) in
  let nenhuma := fst (patch_multas_pagar MemDb.executar Exemplos.Number pedido_pagar_ausente
                        (Some multas_de_todos_os_nomes)) in
  let fora := fst (patch_multas_pagar store_fora Exemplos.Number pedido_pagar (Some tt)) in
  formatarData (VStr "10/01/2026") = Return "2026-01-10"
  /\ (status paga = 200
      /\ corpo paga !! "message" = Some (VStr "Multa marcada como paga")
      /\ campo_de (campo (corpo paga) "data") "DataPagamento" = VStr "2026-01-10"
      /\ campo_de (campo (corpo paga) "data") "Status" = VStr "paga")
  /\ (status ausente = 500
      /\ corpo ausente !! "message" = Some (VStr "Erro ao marcar multa como paga")
      /\ corpo ausente !! "error" = Some (VStr "column multa.ID does not exist"))
  /\ (status nenhuma = 404
      /\ corpo nenhuma !! "message" = Some (VStr "Multa não encontrada")
      /\ corpo nenhuma !! "error" = None)
  /\ (status fora = 500
      /\ corpo fora !! "message" = Some (VStr "Erro ao marcar multa como paga")
      /\ corpo fora !! "error" = Some (VStr "connection refused")).
Proof. cbv zeta. repeat split; vm_compute; reflexivity. Qed.

(** ** DELETE /reservas/:id *)

Section Cancelar.

Variable Number : value -> option Z.

(** Whatever the store, the handler sends it one search by id and then,
    when that search found a single row, one update that writes
    [Status := cancelada] under the same id: nothing else, and no
    deletion. *)
Lemma delete_reservas_consultas {Store} (executar : consulta -> Store -> resposta * Store)
    (req : request) (id : string) (s : Store) :
  params req !! "id" = Some id ->
  id <> EmptyString ->
  isNaN Number (VStr id) = false ->
  let busca := from_select "reservas" "ReservaID, Status, DataEntrega"
               |> eq "ReservaID" (VStr id) in
  let cancela := from_update "reservas" {[ "Status" := VStr "cancelada" ]}
                 |> eq "ReservaID" (VStr id) |> select in
  let res := delete_reservas executar Number req (Some s) in
  (snd res = Some (snd (executar busca s)) /\ status (fst res) = 404
   /\ (error1 (single (fst (executar busca s))) <> None
       \/ data1 (single (fst (executar busca s))) = None))
  \/ (snd res = Some (snd (executar cancela (snd (executar busca s))))
      /\ (status (fst res) = 200 \/ status (fst res) = 500)
      /\ exists r, single (fst (executar busca s)) = {| data1 := Some r; error1 := None |}).
Proof.
  intros Hid Hne Hnan. cbv zeta.
  assert (Ht : truthy (VStr id) = true) by (cbn; apply nao_vazia; exact Hne).
  unfold delete_reservas, try_catch, param. rewrite Hid, Hnan, Ht. cbn [negb orb].
  unfold bind, consultar, ret, throw.
  destruct (executar _ s) as [r1 s1]. cbn [fst snd].
  destruct (single r1) as [[d|] [e|]]; cbn [error1 data1].
  - left. split; [reflexivity|]. split; [reflexivity|]. left. discriminate.
  - right.
    destruct (executar _ s1) as [r2 s2]. cbn [fst snd].
    destruct (error r2); cbn [fst snd].
    + split; [reflexivity|]. split; [right; reflexivity|]. eexists; reflexivity.
    + destruct (data r2); cbn [fst snd].
      * split; [reflexivity|]. split; [left; reflexivity|]. eexists; reflexivity.
      * split; [reflexivity|]. split; [right; reflexivity|]. eexists; reflexivity.
  - left. split; [reflexivity|]. split; [reflexivity|]. left. discriminate.
  - left. split; [reflexivity|]. split; [reflexivity|]. right. reflexivity.
Qed.

Lemma casa_todos_um f r : MemDb.casa_todos [f] r = MemDb.casa f r.
Proof. unfold MemDb.casa_todos. cbn. apply andb_true_r. Qed.

Lemma filter_casa_todos_um f l :
  List.filter (MemDb.casa_todos [f]) l = List.filter (MemDb.casa f) l.
Proof. apply List.filter_ext. intros. apply casa_todos_um. Qed.

Lemma chaves_status v : MemDb.chaves {[ "Status" := v ]} = ["Status"].
Proof. unfold MemDb.chaves. rewrite map_to_list_singleton. reflexivity. Qed.

(** A cancelled row differs from the row it was in its [Status] alone, and
    the rows of a table stay as many. *)
Lemma cancelar_outros_campos id (r : objeto) k :
  k <> "Status" -> cancelar id r !! k = r !! k.
Proof.
  intros Hk. unfold cancelar. destruct (reserva_de id r); [|reflexivity].
  apply lookup_insert_ne. congruence.
Qed.

Lemma cancelar_tantas_linhas id (l : list objeto) :
  length (map (cancelar id) l) = length l.
Proof. apply length_map. Qed.

Lemma so_cancela_404 d id resp :
  status resp = 404 ->
  (forall tb r0, d !! "reservas" = Some tb -> colunas_reserva tb = true ->
                 List.filter (reserva_de id) (MemDb.linhas tb) = [r0] -> False) ->
  so_cancela d id (resp, Some d).
Proof.
  intros Hs Hn. exists d. cbn [fst snd].
  split; [reflexivity|]. split; [auto|].
  split; [destruct (d !! "reservas"); auto|].
  split; [auto|].
  intros tb r0 H1 H2 H3. exfalso. eapply Hn; eauto.
Qed.

(** Claim C6.  On the reference store, for a request whose id is numeric:
    the handler returns; no table other than [reservas] changes; the rows
    of [reservas] stay as they are or become the same rows with [Status]
    set to cancelada in those of that id, so none is removed and no other
    field changes; with no reservation of that id the answer is 404 and
    the store is unchanged; with one, in a table that has the columns the
    handler names, the answer is 200 and its [Status] is cancelada. *)
Theorem delete_reservas_cancela (d : MemDb.db) (req : request) (id : string) :
  params req !! "id" = Some id ->
  id <> EmptyString ->
  isNaN Number (VStr id) = false ->
  so_cancela d id (delete_reservas MemDb.executar Number req (Some d)).
Proof.
  intros Hid Hne Hnan.
  assert (Ht : truthy (VStr id) = true) by (cbn; apply nao_vazia; exact Hne).
  unfold delete_reservas, try_catch, param. rewrite Hid, Hnan, Ht. cbn [negb orb].
  unfold bind at 1. unfold consultar at 1.
  set (q1 := from_select "reservas" "ReservaID, Status, DataEntrega"
             |> eq "ReservaID" (VStr id)).
  set (q2 := from_update "reservas" {[ "Status" := VStr "cancelada" ]}
             |> eq "ReservaID" (VStr id) |> select).
  unfold MemDb.executar at 1. change (tabela q1) with "reservas".
  change (filtros q1) with [Eq "ReservaID" (VStr id)].
  change (acao_de q1) with (Select "ReservaID, Status, DataEntrega").
  destruct (d !! "reservas") as [tb|] eqn:Etb.
  2:{ cbn. apply so_cancela_404; [reflexivity|].
      intros tb r0 H1. rewrite Etb in H1. discriminate H1. }
  cbn [List.find MemDb.coluna_de].
  destruct (MemDb.tem_coluna tb "ReservaID") eqn:C1; cbn [negb].
  2:{ cbn. apply so_cancela_404; [reflexivity|].
      intros tb' r0 H1 H2. rewrite Etb in H1. inversion H1; subst tb'.
      unfold colunas_reserva in H2. rewrite C1 in H2. discriminate H2. }
  change (MemDb.colunas_pedidas "ReservaID, Status, DataEntrega")
    with (Some ["ReservaID"; "Status"; "DataEntrega"]).
  cbn [default from_option]. unfold Datatypes.id. cbn [List.find]. rewrite C1. cbn [negb].
  destruct (MemDb.tem_coluna tb "Status") eqn:C2; cbn [negb].
  2:{ cbn. apply so_cancela_404; [reflexivity|].
      intros tb' r0 H1 H2. rewrite Etb in H1. inversion H1; subst tb'.
      unfold colunas_reserva in H2. rewrite C1, C2 in H2. discriminate H2. }
  destruct (MemDb.tem_coluna tb "DataEntrega") eqn:C3; cbn [negb].
  2:{ cbn. apply so_cancela_404; [reflexivity|].
      intros tb' r0 H1 H2. rewrite Etb in H1. inversion H1; subst tb'.
      unfold colunas_reserva in H2. rewrite C1, C2, C3 in H2. discriminate H2. }
  rewrite filter_casa_todos_um.
  change (List.filter (MemDb.casa (Eq "ReservaID" (VStr id))) (MemDb.linhas tb))
    with (List.filter (reserva_de id) (MemDb.linhas tb)).
  unfold single at 1 2. cbn [error data].
  destruct (List.filter (reserva_de id) (MemDb.linhas tb)) as [|r0 [|r1 rs]] eqn:Ef;
    cbn [map error1 data1].
  - cbn. apply so_cancela_404; [reflexivity|].
    intros tb' r0 H1 H2 H3. rewrite Etb in H1. inversion H1; subst tb'.
    rewrite Ef in H3. discriminate H3.
  - (* exactly one row: the update runs *)
    unfold bind at 1. unfold consultar at 1.
    unfold MemDb.executar at 1. change (tabela q2) with "reservas".
    change (filtros q2) with [Eq "ReservaID" (VStr id)].
    change (acao_de q2) with (Update {[ "Status" := VStr "cancelada" ]}).
    rewrite Etb. cbn [List.find MemDb.coluna_de]. rewrite C1. cbn [negb].
    rewrite chaves_status. cbn [List.find]. rewrite C2. cbn [negb].
    unfold MemDb.devolve. change (retorno q2) with (Some "*").
    cbn [error data ret fst snd].
    assert (Hmap : map (fun r : objeto =>
                          if MemDb.casa_todos [Eq "ReservaID" (VStr id)] r
                          then {[ "Status" := VStr "cancelada" ]} ∪ r else r)
                     (MemDb.linhas tb)
                   = map (cancelar id) (MemDb.linhas tb)).
    { apply map_ext. intros r. unfold cancelar, reserva_de. rewrite casa_todos_um.
      destruct (MemDb.casa _ r); [|reflexivity]. symmetry. apply insert_union_singleton_l. }
    rewrite Hmap.
    eexists. cbn [fst snd]. split; [reflexivity|].
    split; [intros t Ht'; rewrite lookup_insert_ne by congruence; reflexivity|].
    rewrite Etb.
    split; [rewrite lookup_insert_eq; split; [reflexivity|right; reflexivity]|].
    split.
    + intros Hv. specialize (Hv tb eq_refl). rewrite Ef in Hv. discriminate Hv.
    + intros tb' r' H1 H2 H3. split; [reflexivity|].
      inversion H1; subst tb'. eexists. rewrite lookup_insert_eq. split; reflexivity.
  - cbn. apply so_cancela_404; [reflexivity|].
    intros tb' r' H1 H2 H3. rewrite Etb in H1. inversion H1; subst tb'.
    rewrite Ef in H3. discriminate H3.
Qed.

End Cancelar.

Lemma delete_reservas_cancela_witness :
  params pedido_cancelar !! "id" = Some "7"
  /\ isNaN Exemplos.Number (VStr "7") = false
  /\ so_cancela Exemplos.biblioteca "7"
       (delete_reservas MemDb.executar Exemplos.Number pedido_cancelar
          (Some Exemplos.biblioteca)).
Proof.
  split; [vm_compute; reflexivity|]. split; [vm_compute; reflexivity|].
  apply (delete_reservas_cancela Exemplos.Number Exemplos.biblioteca pedido_cancelar "7").
  - vm_compute. reflexivity.
  - discriminate.
  - vm_compute. reflexivity.
Defined.

Example delete_reservas_respostas :
  let res := delete_reservas MemDb.executar Exemplos.Number pedido_cancelar
               (Some Exemplos.biblioteca) in
  status (fst res) = 200
  /\ (exists d' tb, snd res = Some d' /\ d' !! "reservas" = Some tb
                    /\ map (fun r => (campo r "ReservaID", campo r "Status"))
                         (MemDb.linhas tb)
                       = [(VNum 7, VStr "cancelada")])
  /\ status (fst (delete_reservas MemDb.executar Exemplos.Number
                    (Exemplos.pedido {[ "id" := "8" ]} ∅ ∅ ∅)
                    (Some Exemplos.biblioteca))) = 404.
Proof.
  cbv zeta. split; [vm_compute; reflexivity|]. split; [|vm_compute; reflexivity].
  eexists _, _. split; [vm_compute; reflexivity|]. split; vm_compute; reflexivity.
Qed.

(** ** GET /multas *)

Section Multas.

Context {Store : Type}.
Variable executar : consulta -> Store -> resposta * Store.
Variable Number : value -> option Z.
Variable localeCompare : string -> string -> Z.
Variable sort : (objeto -> objeto -> Z) -> list objeto -> list objeto.
Variable hojeIso : string.

Lemma filtrar_status_outro s multas :
  toLowerCase s <> "pendente" -> toLowerCase s <> "paga" -> toLowerCase s <> "pago" ->
  filtrar_status (Some s) multas = multas.
Proof.
  intros H1 H2 H3. unfold filtrar_status.
  destruct (negb (truthy (VStr s))); [reflexivity|].
  apply String.eqb_neq in H1, H2, H3. rewrite H1, H2, H3. reflexivity.
Qed.

Lemma enriquecida_refl l : Forall2 enriquecida l l.
Proof. induction l; constructor; auto. left; reflexivity. Qed.

Lemma enriquecida_map (g : objeto -> objeto) l :
  (forall m, enriquecida m (g m)) -> Forall2 enriquecida l (map g l).
Proof. intros Hg. induction l as [|m l IH]; cbn [map]; constructor; auto. Qed.

Lemma enriquecerMultas_enriquecida l st ms st' :
  enriquecerMultas executar l st = (Return ms, st') -> Forall2 enriquecida l ms.
Proof.
  unfold enriquecerMultas, bind, consultar, ret, throw.
  abre_casos; intros H; try discriminate H; inversion H; subst; clear;
    try apply enriquecida_refl.
  all: match goal with
       | |- Forall2 enriquecida (?x :: ?l) (_ :: map ?g ?l) =>
           change (Forall2 enriquecida (x :: l) (map g (x :: l)));
           apply enriquecida_map; intros m;
           destruct (map_get _ _); [right; eexists; reflexivity|left; reflexivity]
       end.
Qed.

Lemma campo_sem_status (q : objeto) k :
  k <> "status" -> campo (delete "status" q) k = campo q k.
Proof. intros Hk. unfold campo. rewrite lookup_delete_ne by congruence. reflexivity. Qed.

Lemma campo_status_removido (q : objeto) : campo (delete "status" q) "status" = VUndefined.
Proof. unfold campo. rewrite lookup_delete_eq. reflexivity. Qed.

(** A status that is none of the three the engine knows leaves the
    filters as they are without it. *)
Lemma obterMultasFiltradas_status_desconhecido s f st :
  toLowerCase s <> "pendente" -> toLowerCase s <> "paga" -> toLowerCase s <> "pago" ->
  obterMultasFiltradas executar Number localeCompare sort hojeIso (com_status (Some s) f) st
  = obterMultasFiltradas executar Number localeCompare sort hojeIso (com_status None f) st.
Proof.
  intros H1 H2 H3. unfold obterMultasFiltradas, com_status.
  cbn [f_status f_multaId f_reservaId f_vencidas f_clienteId].
  unfold bind.
  destruct (consultar executar (from_select "multa" "*") st) as [[r|e] st']; [|reflexivity].
  destruct (error r); [reflexivity|].
  rewrite !filtrar_status_outro by assumption. reflexivity.
Qed.

(** Claim C8.  For a status whose lowercase form is none of pendente, paga
    and pago: the engine returns what it returns without a status filter,
    whatever the other filters; [GET /multas] answers the request as it
    answers the same request without its status parameter; and for the
    request with that status alone, when the table is read without error,
    the answer is 200 and its data are the fines of the whole table, each
    normalized and possibly with its reservation attached, in the order
    the sort gives them (a rearrangement of the rows when the sort only
    rearranges). *)
Theorem get_multas_status_desconhecido (s : string) :
  toLowerCase s <> "pendente" -> toLowerCase s <> "paga" -> toLowerCase s <> "pago" ->
  (forall f st,
      obterMultasFiltradas executar Number localeCompare sort hojeIso
        (com_status (Some s) f) st
      = obterMultasFiltradas executar Number localeCompare sort hojeIso
          (com_status None f) st)
  /\ (forall req st,
        campo (query req) "status" = VStr s ->
        get_multas executar Number localeCompare sort hojeIso req st
        = get_multas executar Number localeCompare sort hojeIso (sem_status req) st)
  /\ (forall req s0 r s1,
        query req = {[ "status" := VStr s ]} ->
        executar (from_select "multa" "*") s0 = (r, s1) ->
        error r = None ->
        exists ms,
          status (fst (get_multas executar Number localeCompare sort hojeIso req (Some s0)))
          = 200
          /\ corpo (fst (get_multas executar Number localeCompare sort hojeIso req (Some s0)))
             !! "data" = Some (VArr (map VObj ms))
          /\ Forall2 enriquecida
               (sort (comparar_multas Number localeCompare)
                  (map normalizarMulta (default [] (data r)))) ms
          /\ ((forall l, sort (comparar_multas Number localeCompare) l ≡ₚ l) ->
              exists ordenadas,
                ordenadas ≡ₚ map normalizarMulta (default [] (data r))
                /\ Forall2 enriquecida ordenadas ms)).
Proof.
  intros H1 H2 H3.
  pose proof (fun f st => obterMultasFiltradas_status_desconhecido s f st H1 H2 H3) as HA.
  split; [exact HA|]. split.
  - intros req st Hs. unfold get_multas. cbn [sem_status query].
    rewrite campo_status_removido, !campo_sem_status by discriminate. rewrite Hs.
    cbn [truthy to_String].
    destruct (negb (s =? EmptyString)%string); [|reflexivity].
    unfold try_catch.
    repeat match goal with |- context [if ?b then _ else _] => destruct b; [reflexivity|] end.
    unfold bind.
    match goal with
    | |- context [obterMultasFiltradas executar Number localeCompare sort hojeIso ?f1] =>
        match goal with
        | |- context [obterMultasFiltradas executar Number localeCompare sort hojeIso ?f2] =>
            lazymatch f1 with f2 => fail | _ => idtac end;
            change f1 with (com_status (Some s) f2); change f2 with (com_status None f2)
        end
    end.
    rewrite HA. reflexivity.
  - intros req s0 r s1 Hq He Hr.
    set (ordenadas := sort (comparar_multas Number localeCompare)
                        (map normalizarMulta (default [] (data r)))).
    assert (Hres : exists ms st2,
               get_multas executar Number localeCompare sort hojeIso req (Some s0)
               = (respostaSucesso 200 "Multas encontradas" (VArr (map VObj ms)), st2)
               /\ Forall2 enriquecida ordenadas ms).
    { unfold get_multas, try_catch. rewrite Hq.
      change (campo {[ "status" := VStr s ]} "status") with (VStr s).
      change (campo {[ "status" := VStr s ]} "vencidas") with VUndefined.
      change (campo {[ "status" := VStr s ]} "clienteId") with VUndefined.
      change (campo {[ "status" := VStr s ]} "reservaId") with VUndefined.
      change (campo {[ "status" := VStr s ]} "multaId") with VUndefined.
      cbn [andb].
      unfold obterMultasFiltradas, bind, consultar. rewrite He, Hr.
      cbn [f_multaId f_reservaId f_status f_vencidas f_clienteId numero_truthy ret].
      assert (Hf : forall l,
                 filtrar_status (if truthy (VStr s) then Some (to_String (VStr s)) else None) l
                 = l).
      { intros l. destruct (truthy (VStr s)); [|reflexivity].
        apply filtrar_status_outro; assumption. }
      rewrite Hf. fold ordenadas.
      destruct (enriquecerMultas executar ordenadas (Some s1)) as [[ms|e] s2] eqn:Een.
      - exists ms, s2. split; [reflexivity|]. eapply enriquecerMultas_enriquecida; eauto.
      - exists ordenadas, s2. split; [reflexivity|]. apply enriquecida_refl. }
    destruct Hres as (ms & st2 & Hres & Hen). exists ms. rewrite Hres. cbn [fst].
    split; [reflexivity|]. split; [reflexivity|]. split; [exact Hen|].
    intros Hp. exists ordenadas. split; [apply Hp|exact Hen].
Qed.

End Multas.

Lemma get_multas_status_desconhecido_witness :
  toLowerCase "cancelada" <> "pendente"
  /\ get_multas MemDb.executar Exemplos.Number Exemplos.localeCompare Exemplos.sort
       Exemplos.hojeIso pedido_canceladas (Some Exemplos.biblioteca)
     = get_multas MemDb.executar Exemplos.Number Exemplos.localeCompare Exemplos.sort
         Exemplos.hojeIso (sem_status pedido_canceladas) (Some Exemplos.biblioteca).
Proof.
  assert (H1 : toLowerCase "cancelada" <> "pendente") by (vm_compute; discriminate).
  assert (H2 : toLowerCase "cancelada" <> "paga") by (vm_compute; discriminate).
  assert (H3 : toLowerCase "cancelada" <> "pago") by (vm_compute; discriminate).
  split; [exact H1|].
  apply (proj1 (proj2 (get_multas_status_desconhecido MemDb.executar Exemplos.Number
                         Exemplos.localeCompare Exemplos.sort Exemplos.hojeIso
                         "cancelada" H1 H2 H3))).
  vm_compute. reflexivity.
Defined.

Example get_multas_canceladas :
  let resp := fst (get_multas MemDb.executar Exemplos.Number Exemplos.localeCompare
                     Exemplos.sort Exemplos.hojeIso pedido_canceladas
                     (Some Exemplos.biblioteca)) in
  status resp = 200
  /\ match corpo resp !! "data" with
     | Some (VArr ms) => map (fun m => campo_de m "Status") ms
     | _ => []
     end = [VStr "cancelada"; VStr "paga"; VStr "pendente"].
Proof. cbv zeta. split; vm_compute; reflexivity. Qed.

(* ===================================================================== *)
(** * Further properties *)
(* ===================================================================== *)

(** ** The validators *)

Lemma remove_nao_digitos s :
  remove_class (fun c => negb (is_digit c)) s
  = string_of_list_ascii (List.filter is_digit (list_ascii_of_string s)).
Proof.
  rewrite <- (string_of_list_ascii_of_string (remove_class _ s)).
  rewrite list_ascii_remove_class, filter_negb_negb. reflexivity.
Qed.

(** Two texts with the same digits in the same order get the same verdict from
    [validarCPF]: dots, dashes, spaces and any other unit that is not a digit
    play no part. *)
Theorem validarCPF_mascara (s t : string) :
  List.filter is_digit (list_ascii_of_string s) = List.filter is_digit (list_ascii_of_string t) ->
  validarCPF (VStr s) = validarCPF (VStr t).
Proof.
  intros H.
  assert (Hv : forall u, validarCPF (VStr u)
               = validarCPF (VStr (string_of_list_ascii
                                     (List.filter is_digit (list_ascii_of_string u))))).
  { intros u. unfold validarCPF. cbn [typeof truthy].
    replace ("string" =? "string")%string with true by reflexivity.
    rewrite !remove_nao_digitos, !list_ascii_of_string_of_list_ascii.
    assert (Hf : List.filter is_digit (List.filter is_digit (list_ascii_of_string u))
                 = List.filter is_digit (list_ascii_of_string u)).
    { induction (list_ascii_of_string u) as [|c l IH]; cbn; [reflexivity|].
      destruct (is_digit c) eqn:E; cbn; rewrite ?E, IH; reflexivity. }
    rewrite Hf, ?list_ascii_of_string_of_list_ascii.
    destruct u as [|c u]; [reflexivity|].
    cbn [String.eqb negb orb].
    destruct (List.filter is_digit (list_ascii_of_string (String c u))) as [|x l] eqn:El;
      reflexivity. }
  rewrite (Hv s), (Hv t), H. reflexivity.
Qed.

Lemma validarCPF_mascara_witness :
  validarCPF (VStr "529.982.247-25") = validarCPF (VStr "52998224725").
Proof. apply validarCPF_mascara. vm_compute. reflexivity. Defined.

(** For a text the pattern matches whose year is 100 or more, [validarData]
    answers whether the day exists in that month of that year. *)
Theorem validarData_dia_existe (s : string) (dia mes ano : Z) :
  regex_data s = true ->
  campos_data s = (dia, mes, ano) ->
  100 <= ano ->
  validarData (VStr s) = (dia <=? dias_no_mes ano mes).
Proof.
  intros Hr Hc Ha.
  destruct (validarData_calendario s) as [_ H]. specialize (H Hr).
  rewrite Hc in H. destruct H as (_ & _ & _ & H). rewrite H.
  replace (100 <=? ano) with true by lia. reflexivity.
Qed.

Lemma validarData_dia_existe_witness :
  validarData (VStr "31/04/2025") = (31 <=? dias_no_mes 2025 4).
Proof.
  apply (validarData_dia_existe "31/04/2025" 31 4 2025); [reflexivity| reflexivity | lia].
Defined.

(** ** Dates as the store keeps them *)

Lemma ascii_de_code c : ascii_of_N (Z.to_N (code_unit c)) = c.
Proof. unfold code_unit. rewrite N2Z.id. apply ascii_N_embedding. Qed.

Lemma dois_digitos_de c1 c2 :
  48 <= code_unit c1 <= 57 -> 48 <= code_unit c2 <= 57 ->
  dois_digitos (10 * digit_value c1 + digit_value c2) = String c1 (String c2 EmptyString).
Proof.
  intros H1 H2. unfold dois_digitos, digit_value.
  replace (48 + (10 * (code_unit c1 - 48) + (code_unit c2 - 48)) / 10) with (code_unit c1)
    by (Z.div_mod_to_equations; lia).
  replace (48 + (10 * (code_unit c1 - 48) + (code_unit c2 - 48)) mod 10) with (code_unit c2)
    by (Z.div_mod_to_equations; lia).
  rewrite !ascii_de_code. reflexivity.
Qed.

Lemma quatro_digitos_de c1 c2 c3 c4 :
  48 <= code_unit c1 <= 57 -> 48 <= code_unit c2 <= 57 ->
  48 <= code_unit c3 <= 57 -> 48 <= code_unit c4 <= 57 ->
  quatro_digitos (10 * (10 * (10 * digit_value c1 + digit_value c2) + digit_value c3)
                  + digit_value c4)
  = String c1 (String c2 (String c3 (String c4 EmptyString))).
Proof.
  intros H1 H2 H3 H4. unfold quatro_digitos.
  replace ((10 * (10 * (10 * digit_value c1 + digit_value c2) + digit_value c3)
            + digit_value c4) / 100)
    with (10 * digit_value c1 + digit_value c2)
    by (unfold digit_value; Z.div_mod_to_equations; lia).
  replace ((10 * (10 * (10 * digit_value c1 + digit_value c2) + digit_value c3)
            + digit_value c4) mod 100)
    with (10 * digit_value c3 + digit_value c4)
    by (unfold digit_value; Z.div_mod_to_equations; lia).
  rewrite !dois_digitos_de by assumption. reflexivity.
Qed.

(** The parts of a text the pattern matches. *)
Lemma regex_data_partes s :
  regex_data s = true ->
  exists d1 d2 m1 m2 a1 a2 a3 a4,
    s = string_of_list_ascii [d1; d2; "/"%char; m1; m2; "/"%char; a1; a2; a3; a4]
    /\ Forall (fun c => 48 <= code_unit c <= 57) [d1; d2; m1; m2; a1; a2; a3; a4]
    /\ split_on "/" s
       = [String d1 (String d2 EmptyString); String m1 (String m2 EmptyString);
          String a1 (String a2 (String a3 (String a4 EmptyString)))]
    /\ campos_data s
       = (10 * digit_value d1 + digit_value d2, 10 * digit_value m1 + digit_value m2,
          10 * (10 * (10 * digit_value a1 + digit_value a2) + digit_value a3) + digit_value a4).
Proof.
  intros H.
  destruct (regex_data_forma s H) as (d1 & d2 & m1 & m2 & a1 & a2 & a3 & a4 & -> & _ & _ & Hc).
  exists d1, d2, m1, m2, a1, a2, a3, a4.
  split; [reflexivity|]. split; [exact Hc|].
  repeat match goal with H : Forall _ (_ :: _) |- _ => inversion H; clear H; subst end.
  assert (Hs : split_on "/" (string_of_list_ascii
                               [d1; d2; "/"%char; m1; m2; "/"%char; a1; a2; a3; a4])
               = [String d1 (String d2 EmptyString); String m1 (String m2 EmptyString);
                  String a1 (String a2 (String a3 (String a4 EmptyString)))]).
  { cbn [string_of_list_ascii].
    repeat (cbn [split_on]; rewrite ?Ascii.eqb_refl, ?nao_barra by assumption).
    reflexivity. }
  split; [exact Hs|].
  unfold campos_data. rewrite Hs.
  cbn [map decimal_value list_ascii_of_string fold_left].
  apply f_equal2; [apply f_equal2|]; lia.
Qed.

Lemma validarData_regex s : validarData (VStr s) = true -> regex_data s = true.
Proof.
  unfold validarData. destruct (_ || _); [discriminate|].
  destruct (regex_data s); [reflexivity|discriminate].
Qed.

Lemma formatarData_texto (s : string) (dia mes ano : Z) :
  validarData (VStr s) = true ->
  campos_data s = (dia, mes, ano) ->
  Server.formatarData (VStr s) = Return (texto_iso dia mes ano).
Proof.
  intros Hv Hc. pose proof (validarData_regex s Hv) as Hr.
  destruct (regex_data_partes s Hr)
    as (d1 & d2 & m1 & m2 & a1 & a2 & a3 & a4 & Hs & Hd & Hsp & Hcd).
  rewrite Hcd in Hc. inversion Hc; subst dia mes ano. clear Hc.
  repeat match goal with H : Forall _ (_ :: _) |- _ => inversion H; clear H; subst end.
  unfold texto_iso. rewrite !dois_digitos_de, quatro_digitos_de by assumption.
  unfold Server.formatarData. rewrite Hv, Hsp.
  cbn [negb nth]. reflexivity.
Qed.

(** For a valid date both [formatarData], the server's and the validators',
    give the text YYYY-MM-DD of the same day, month and year. *)
Theorem formatarData_iso (s : string) (dia mes ano : Z) :
  validarData (VStr s) = true ->
  campos_data s = (dia, mes, ano) ->
  Server.formatarData (VStr s) = Return (texto_iso dia mes ano)
  /\ Validators.formatarData (VStr s) = Return (VStr (texto_iso dia mes ano)).
Proof.
  intros Hv Hc. split; [exact (formatarData_texto s dia mes ano Hv Hc)|].
  pose proof (validarData_regex s Hv) as Hr.
  destruct (regex_data_partes s Hr)
    as (d1 & d2 & m1 & m2 & a1 & a2 & a3 & a4 & Hs & Hd & Hsp & Hcd).
  rewrite Hcd in Hc. inversion Hc; subst dia mes ano. clear Hc.
  repeat match goal with H : Forall _ (_ :: _) |- _ => inversion H; clear H; subst end.
  unfold texto_iso. rewrite !dois_digitos_de, quatro_digitos_de by assumption.
  unfold Validators.formatarData. rewrite Hsp.
  cbn [negb nth string_of_list_ascii truthy String.eqb]. reflexivity.
Qed.

Lemma formatarData_iso_witness :
  Server.formatarData (VStr "05/11/2026") = Return "2026-11-05"
  /\ Validators.formatarData (VStr "05/11/2026") = Return (VStr "2026-11-05").
Proof.
  apply (formatarData_iso "05/11/2026" 5 11 2026); vm_compute; reflexivity.
Defined.

Lemma menor_str_cons x a y b :
  menor_str (String x a) (String y b)
  = if code_unit x <? code_unit y then true
    else if code_unit y <? code_unit x then false else menor_str a b.
Proof. reflexivity. Qed.

Lemma menor_str_mesmo x a b : menor_str (String x a) (String x b) = menor_str a b.
Proof. rewrite menor_str_cons, Z.ltb_irrefl. reflexivity. Qed.

(** The texts [formatarData] gives for two valid dates compare, as strings,
    the way the dates do in time: the comparison the overdue filter makes on
    stored dates follows the calendar. *)
Theorem formatarData_ordem (a b ia ib : string) :
  validarData (VStr a) = true ->
  validarData (VStr b) = true ->
  Server.formatarData (VStr a) = Return ia ->
  Server.formatarData (VStr b) = Return ib ->
  menor_str ia ib = true <-> antes (campos_data a) (campos_data b).
Proof.
  intros Ha Hb Hia Hib.
  destruct (regex_data_partes a (validarData_regex a Ha))
    as (d1 & d2 & m1 & m2 & a1 & a2 & a3 & a4 & _ & Hd & _ & Hca).
  destruct (regex_data_partes b (validarData_regex b Hb))
    as (e1 & e2 & n1 & n2 & b1 & b2 & b3 & b4 & _ & He & _ & Hcb).
  pose proof (formatarData_texto a _ _ _ Ha Hca) as Hfa.
  pose proof (formatarData_texto b _ _ _ Hb Hcb) as Hfb.
  rewrite Hfa in Hia. rewrite Hfb in Hib. inversion Hia; inversion Hib; subst ia ib.
  rewrite Hca, Hcb. clear Hia Hib Hfa Hfb Hca Hcb Ha Hb.
  repeat match goal with H : Forall _ (_ :: _) |- _ => inversion H; clear H; subst end.
  unfold texto_iso. rewrite !dois_digitos_de, !quatro_digitos_de by assumption.
  unfold antes, digit_value.
  cbv [String.append].
  repeat first
    [ rewrite menor_str_mesmo
    | rewrite menor_str_cons;
      match goal with
      | |- (if ?x <? ?y then _ else _) = true <-> _ =>
          destruct (Z.ltb_spec x y); [split; [intros _; lia|reflexivity]|]
      end;
      match goal with
      | |- (if ?x <? ?y then _ else _) = true <-> _ =>
          destruct (Z.ltb_spec x y); [split; [discriminate|intros; lia]|]
      end ].
  cbn [menor_str]. split; [discriminate|intros; lia].
Qed.

Lemma formatarData_ordem_witness :
  menor_str "2025-12-31" "2026-01-02" = true
  <-> antes (campos_data "31/12/2025") (campos_data "02/01/2026").
Proof.
  apply (formatarData_ordem "31/12/2025" "02/01/2026"); vm_compute; reflexivity.
Defined.

(** ** The sanitizers *)

Lemma unidades_remove_class cls s c :
  In c (unidades (remove_class cls s)) -> In c (unidades s) /\ cls c = false.
Proof.
  unfold unidades. induction s as [|x r IH]; cbn; [tauto|].
  destruct (cls x) eqn:E; cbn.
  - intros H. destruct (IH H). auto.
  - intros [<-|H]; [auto|]. destruct (IH H). auto.
Qed.

Lemma remove_class_nada cls s :
  (forall c, In c (unidades s) -> cls c = false) -> remove_class cls s = s.
Proof.
  unfold unidades. induction s as [|x r IH]; cbn; [reflexivity|].
  intros H. rewrite (H x) by auto. f_equal. apply IH. auto.
Qed.

Lemma unidades_trim_start s c : In c (unidades (trim_start s)) -> In c (unidades s).
Proof.
  unfold unidades. induction s as [|x r IH]; cbn; [tauto|].
  destruct (is_space x); cbn; auto.
Qed.

Lemma unidades_trim_end s c : In c (unidades (trim_end s)) -> In c (unidades s).
Proof.
  unfold unidades. induction s as [|x r IH]; cbn; [tauto|].
  destruct (trim_end r) as [|y r'] eqn:E.
  - destruct (is_space x); cbn; tauto.
  - cbn. intros [<-|H]; [auto|]. right. apply IH. exact H.
Qed.

Lemma unidades_trim s c : In c (unidades (trim s)) -> In c (unidades s).
Proof. intros H. apply unidades_trim_start, unidades_trim_end, H. Qed.

Lemma trim_end_cons x r :
  trim_end (String x r)
  = match trim_end r with
    | EmptyString => if is_space x then EmptyString else String x EmptyString
    | r' => String x r'
    end.
Proof. reflexivity. Qed.

Lemma trim_end_trim_end s : trim_end (trim_end s) = trim_end s.
Proof.
  induction s as [|x r IH]; [reflexivity|].
  rewrite trim_end_cons.
  destruct (trim_end r) as [|y r'] eqn:E.
  - destruct (is_space x) eqn:Ex; [reflexivity|].
    rewrite trim_end_cons. cbn [trim_end]. rewrite Ex. reflexivity.
  - rewrite trim_end_cons, IH. reflexivity.
Qed.

Lemma trim_start_sem_espaco s : sem_espaco_inicial (trim_start s).
Proof.
  induction s as [|x r IH]; cbn; [exact I|].
  destruct (is_space x) eqn:E; [exact IH|cbn; exact E].
Qed.

Lemma trim_start_nada s : sem_espaco_inicial s -> trim_start s = s.
Proof. destruct s as [|x r]; cbn; [reflexivity|]. intros ->. reflexivity. Qed.

Lemma trim_end_sem_espaco s : sem_espaco_inicial s -> sem_espaco_inicial (trim_end s).
Proof.
  destruct s as [|x r]; cbn; [auto|]. intros E.
  destruct (trim_end r); [rewrite E|]; cbn; exact E.
Qed.

Lemma trim_trim s : trim (trim s) = trim s.
Proof.
  unfold trim.
  rewrite (trim_start_nada (trim_end (trim_start s))).
  - apply trim_end_trim_end.
  - apply trim_end_sem_espaco, trim_start_sem_espaco.
Qed.

Lemma sanitizarEntrada_texto s :
  sanitizarEntrada (VStr s)
  = VStr (trim (remove_class (fun c => Ascii.eqb c aspas || Ascii.eqb c "'")
                  (remove_class (fun c => Ascii.eqb c "<" || Ascii.eqb c ">") s))).
Proof. reflexivity. Qed.

Lemma sem_marcas_remove s :
  sem_marcas (remove_class (fun c => Ascii.eqb c aspas || Ascii.eqb c "'")
                (remove_class (fun c => Ascii.eqb c "<" || Ascii.eqb c ">") s)).
Proof.
  intros c H.
  apply unidades_remove_class in H. destruct H as [H Hq].
  apply unidades_remove_class in H. destruct H as [_ Hh].
  apply orb_false_elim in Hq, Hh. destruct Hq as [Q1 Q2], Hh as [H1 H2].
  apply Ascii.eqb_neq in Q1, Q2, H1, H2. auto.
Qed.

Lemma sem_marcas_fixo t :
  sem_marcas t -> trim t = t -> sanitizarEntrada (VStr t) = VStr t.
Proof.
  intros Hm Ht. rewrite sanitizarEntrada_texto.
  rewrite (remove_class_nada _ t).
  2:{ intros c Hc. destruct (Hm c Hc) as (A & B & _).
      apply Ascii.eqb_neq in A, B. rewrite A, B. reflexivity. }
  rewrite (remove_class_nada _ t).
  2:{ intros c Hc. destruct (Hm c Hc) as (_ & _ & A & B).
      apply Ascii.eqb_neq in A, B. rewrite A, B. reflexivity. }
  rewrite Ht. reflexivity.
Qed.

(** What [sanitizarEntrada] makes of a text holds no angle bracket and no
    quote, has no white space at its ends, holds only units of the text it
    came from, and is left as it is by a second pass. *)
Theorem sanitizarEntrada_limpa (s : string) :
  exists t,
    sanitizarEntrada (VStr s) = VStr t
    /\ sem_marcas t
    /\ trim t = t
    /\ (forall c, In c (unidades t) -> In c (unidades s))
    /\ sanitizarEntrada (VStr t) = VStr t.
Proof.
  eexists. split; [apply sanitizarEntrada_texto|].
  assert (Hm : sem_marcas (trim (remove_class (fun c => Ascii.eqb c aspas || Ascii.eqb c "'")
                                   (remove_class (fun c => Ascii.eqb c "<" || Ascii.eqb c ">") s)))).
  { intros c H. apply unidades_trim in H. exact (sem_marcas_remove s c H). }
  split; [exact Hm|]. split; [apply trim_trim|]. split.
  - intros c H. apply unidades_trim in H.
    apply unidades_remove_class in H. destruct H as [H _].
    apply unidades_remove_class in H. tauto.
  - apply sem_marcas_fixo; [exact Hm|apply trim_trim].
Qed.




(** What is left can still hold a comment marker, and a second pass
    changes it. *)
Example sanitizarSQLInjection_nao_idempotente :
  sanitizarSQLInjection (VStr "-;- DROP") = VStr "--"
  /\ sanitizarSQLInjection (VStr "--") = VStr EmptyString.
Proof. split; vm_compute; reflexivity. Qed.

(** ** validarEmail *)

Lemma ate_arroba_some l loc dom :
  ate_arroba l = (loc, Some dom) ->
  l = (loc ++ "@"%char :: dom)%list.
Proof.
  revert loc dom. induction l as [|c r IH]; intros loc dom; cbn; [discriminate|].
  destruct (Ascii.eqb c "@") eqn:E.
  - apply Ascii.eqb_eq in E. subst c. intros H. inversion H; subst. reflexivity.
  - destruct (ate_arroba r) as [a d] eqn:Er. intros H. inversion H; subst.
    cbn. f_equal. apply IH. reflexivity.
Qed.

Lemma ate_arroba_app loc dom :
  forallb email_unidade loc = true ->
  ate_arroba (loc ++ "@"%char :: dom)%list = (loc, Some dom).
Proof.
  induction loc as [|c r IH]; cbn; [reflexivity|].
  intros H. apply andb_prop in H. destruct H as [Hc Hr].
  unfold email_unidade in Hc. apply andb_prop in Hc. destruct Hc as [_ Hc].
  apply negb_true_iff in Hc. rewrite Hc, (IH Hr). reflexivity.
Qed.

Lemma existsb_removelast (c : ascii) r :
  existsb (Ascii.eqb c) (removelast r) = true <->
  exists r1 r2, r = (r1 ++ c :: r2)%list /\ r2 <> [].
Proof.
  split.
  - intros H. apply existsb_exists in H. destruct H as (x & Hin & Hx).
    apply Ascii.eqb_eq in Hx. subst x.
    destruct (exists_last (l := r)) as (r0 & u & ->).
    { intros ->. cbn in Hin. exact Hin. }
    rewrite removelast_last in Hin.
    apply in_split in Hin. destruct Hin as (r1 & r2 & ->).
    exists r1, (r2 ++ [u])%list. split.
    + rewrite <- app_assoc. reflexivity.
    + destruct r2; discriminate.
  - intros (r1 & r2 & -> & Hn).
    apply existsb_exists. exists c. split; [|apply Ascii.eqb_refl].
    rewrite removelast_app by discriminate.
    apply in_or_app. right.
    destruct r2 as [|y r2]; [contradiction|]. left. reflexivity.
Qed.

(** [validarEmail] accepts exactly the texts local@domain.rest: three runs,
    none empty, of units that are neither white space nor [@], the last two
    joined by a dot. *)
Theorem validarEmail_forma (s : string) :
  validarEmail (VStr s) = true <-> email_forma s.
Proof.
  unfold validarEmail, email_forma. cbn [truthy typeof].
  replace ("string" =? "string")%string with true by reflexivity.
  rewrite <- (string_of_list_ascii_of_string s) at 1.
  unfold regex_email.
  split.
  - destruct (negb _ || negb true); [discriminate|].
    destruct (ate_arroba (list_ascii_of_string s)) as [loc [dom|]] eqn:Ea; [|discriminate].
    intros H. apply andb_prop in H. destruct H as [H Hd].
    apply andb_prop in H. destruct H as [H Hfd].
    apply andb_prop in H. destruct H as [Hl Hfl].
    destruct dom as [|d0 r]; [discriminate|].
    apply existsb_removelast in Hd. destruct Hd as (r1 & r2 & -> & Hr2).
    exists loc, (d0 :: r1), r2.
    split; [apply (ate_arroba_some _ _ _ Ea)|].
    split; [destruct loc; [discriminate|discriminate]|].
    split; [discriminate|]. split; [exact Hr2|].
    rewrite forallb_app. rewrite Hfl. cbn [andb].
    change (d0 :: r1 ++ "."%char :: r2)%list with ((d0 :: r1) ++ "."%char :: r2)%list in Hfd.
    rewrite forallb_app in Hfd. apply andb_prop in Hfd. destruct Hfd as [Hp Hq].
    cbn [forallb] in Hq. apply andb_prop in Hq. destruct Hq as [_ Hq].
    rewrite forallb_app, Hp, Hq. reflexivity.
  - intros (loc & p & q & Hs & Hl & Hp & Hq & Hf).
    rewrite !forallb_app in Hf.
    apply andb_prop in Hf. destruct Hf as [Hfl Hf].
    apply andb_prop in Hf. destruct Hf as [Hfp Hfq].
    assert (Hne : negb (truthy (VStr (string_of_list_ascii (list_ascii_of_string s)))) = false).
    { rewrite string_of_list_ascii_of_string. cbn.
      destruct s; [|reflexivity]. destruct loc; [contradiction|discriminate]. }
    cbn [truthy] in Hne. rewrite Hne. cbn [negb orb].
    rewrite Hs, (ate_arroba_app _ _ Hfl), Hfl.
    destruct loc as [|l0 loc]; [contradiction|]. cbn [length Nat.eqb negb andb].
    rewrite forallb_app, Hfp. cbn [forallb andb]. rewrite Hfq.
    replace (email_unidade ".") with true by reflexivity. cbn [andb].
    destruct p as [|p0 p]; [contradiction|]. cbn [app].
    apply existsb_removelast. exists p, q. split; [reflexivity|exact Hq].
Qed.

Example validarEmail_exemplos :
  map (fun s => validarEmail (VStr s))
    ["ana@x.org"; "ana@x"; "ana@.org"; "ana@x."; "a b@x.org"; "a@b@x.org"; "@x.org";
     "ana@x..org"]
  = [true; false; false; false; false; false; false; true].
Proof. vm_compute. reflexivity. Qed.

(** ** Tokens and the middleware *)

Lemma prefix_vazio s : String.prefix EmptyString s = true.
Proof. destruct s; reflexivity. Qed.

Lemma prefix_cons a p b s :
  String.prefix (String a p) (String b s) = Ascii.eqb a b && String.prefix p s.
Proof.
  cbn. destruct (ascii_dec a b) as [->|Hn].
  - rewrite Ascii.eqb_refl. reflexivity.
  - apply Ascii.eqb_neq in Hn. rewrite Hn. reflexivity.
Qed.

Lemma prefix_resto p : forall s,
  String.prefix p s = true -> s = p +:+ substring_from (String.length p) s.
Proof.
  induction p as [|a p IH]; intros s H; [reflexivity|].
  destruct s as [|b s]; [discriminate H|].
  rewrite prefix_cons in H. apply andb_prop in H. destruct H as [Hab Hp].
  apply Ascii.eqb_eq in Hab. subst b.
  cbn [String.length substring_from]. cbv [String.append]. fold String.append.
  f_equal. apply IH. exact Hp.
Qed.

(** [extrairTokenDoHeader] gives the token [tk] exactly for the header that
    is the prefix [Bearer ] followed by [tk]. *)
Theorem extrairTokenDoHeader_inversa (h : option string) (tk : string) :
  Jwt.extrairTokenDoHeader h = Some tk <-> h = Some ("Bearer " +:+ tk).
Proof.
  split.
  - destruct h as [s|]; [|discriminate]. unfold Jwt.extrairTokenDoHeader.
    destruct (negb (truthy (VStr s))); [discriminate|]. cbn [orb].
    destruct (startsWith s "Bearer ") eqn:E; cbn [negb]; [|discriminate].
    intros H. inversion H; subst tk. f_equal.
    apply (prefix_resto "Bearer " s E).
  - intros ->. destruct tk; reflexivity.
Qed.

Lemma extrairTokenDoHeader_bearer tk :
  Jwt.extrairTokenDoHeader (Some ("Bearer " +:+ tk)) = Some tk.
Proof. destruct tk; reflexivity. Qed.

(** For a header [Bearer tk] with a token that is not empty, [autenticarToken]
    verifies [tk] with the access secret: a payload goes on to [next()] with
    [req.usuario] set to its id, email and role and the rest of the request
    untouched; an expired token is answered 401 TOKEN_EXPIRED, a
    JsonWebTokenError 403 INVALID_TOKEN, and any other error 500 with its
    message. *)
Theorem autenticarToken_com_token env verify (req : request) (tk : string) :
  headers req !! "authorization" = Some ("Bearer " +:+ tk) ->
  tk <> EmptyString ->
  match verify tk (Jwt.JWT_SECRET env) opcoes_verificacao with
  | inl payload =>
      Middleware.autenticarToken env verify req = Middleware.Next (com_usuario req payload)
  | inr e =>
      exists resp,
        Middleware.autenticarToken env verify req = Middleware.Responde resp
        /\ if (Jwt.ej_name e =? "TokenExpiredError")%string then
             status resp = 401 /\ corpo resp !! "error" = Some (VStr "TOKEN_EXPIRED")
           else if (Jwt.ej_name e =? "JsonWebTokenError")%string then
             status resp = 403 /\ corpo resp !! "error" = Some (VStr "INVALID_TOKEN")
           else
             Jwt.ej_message e <> "Token expirado" ->
             Jwt.ej_message e <> "Token inválido" ->
             status resp = 500 /\ corpo resp !! "error" = Some (VStr (Jwt.ej_message e))
  end.
Proof.
  intros Hh Htk.
  unfold Middleware.autenticarToken. rewrite Hh, extrairTokenDoHeader_bearer.
  cbn [truthy]. rewrite (nao_vazia tk Htk). cbn [negb].
  unfold Jwt.verificarAccessToken. fold opcoes_verificacao.
  destruct (verify tk (Jwt.JWT_SECRET env) opcoes_verificacao) as [payload|e].
  - reflexivity.
  - destruct (Jwt.ej_name e =? "TokenExpiredError")%string.
    + eexists. split; [reflexivity|]. split; reflexivity.
    + destruct (Jwt.ej_name e =? "JsonWebTokenError")%string.
      * eexists. split; [reflexivity|]. split; reflexivity.
      * destruct (Jwt.ej_message e =? "Token expirado")%string eqn:E1.
        { eexists. split; [reflexivity|]. intros H. apply String.eqb_eq in E1. contradiction. }
        destruct (Jwt.ej_message e =? "Token inválido")%string eqn:E2.
        { eexists. split; [reflexivity|]. intros _ H. apply String.eqb_eq in E2. contradiction. }
        eexists. split; [reflexivity|]. intros _ _. split; reflexivity.
Qed.

Lemma autenticarToken_com_token_witness :
  Middleware.autenticarToken sem_env (verify_aceita payload_admin) pedido_com_token
  = Middleware.Next (com_usuario pedido_com_token payload_admin).
Proof.
  apply (autenticarToken_com_token sem_env (verify_aceita payload_admin)
           pedido_com_token "abc.def.ghi").
  - vm_compute. reflexivity.
  - discriminate.
Defined.

(** [autenticacaoOpcional] never answers: it goes on to [next()], with the
    request as it came or with [req.usuario] set from a payload; it sets the
    user exactly as [autenticarToken] would, and goes on without one where
    [autenticarToken] would have answered. *)
Theorem autenticacaoOpcional_segue env verify (req : request) :
  (Middleware.autenticacaoOpcional env verify req = Middleware.Next req
   \/ exists payload,
        Middleware.autenticacaoOpcional env verify req
        = Middleware.Next (com_usuario req payload))
  /\ (forall r, Middleware.autenticarToken env verify req = Middleware.Next r ->
                Middleware.autenticacaoOpcional env verify req = Middleware.Next r)
  /\ (forall resp, Middleware.autenticarToken env verify req = Middleware.Responde resp ->
                   Middleware.autenticacaoOpcional env verify req = Middleware.Next req).
Proof.
  unfold Middleware.autenticacaoOpcional, Middleware.autenticarToken.
  destruct (Jwt.extrairTokenDoHeader (headers req !! "authorization")) as [tk|].
  2:{ split; [left; reflexivity|]. split; [discriminate|reflexivity]. }
  destruct (truthy (VStr tk)); cbn [negb].
  2:{ split; [left; reflexivity|]. split; [discriminate|reflexivity]. }
  destruct (Jwt.verificarAccessToken env verify tk) as [payload|msg].
  - split; [right; exists payload; reflexivity|]. split; [tauto|discriminate].
  - split; [left; reflexivity|]. split; [|reflexivity].
    destruct (msg =? "Token expirado")%string; [discriminate|].
    destruct (msg =? "Token inválido")%string; discriminate.
Qed.

(** After [autenticarToken] has let a request through, [verificarRole] never
    answers 401: it lets the request through when the role of the payload is
    one of the permitted ones, and otherwise answers 403 with the permitted
    roles and the current one. *)
Theorem verificarRole_apos_autenticar env verify (roles : list value) (req r : request) :
  Middleware.autenticarToken env verify req = Middleware.Next r ->
  exists u,
    usuario r = Some u
    /\ if role_permitida roles u then Middleware.verificarRole roles r = Middleware.Next r
       else exists resp,
           Middleware.verificarRole roles r = Middleware.Responde resp
           /\ status resp = 403
           /\ corpo resp !! "error" = Some (VStr "INSUFFICIENT_PERMISSIONS")
           /\ corpo resp !! "required" = Some (VArr roles)
           /\ corpo resp !! "current" = Some (campo u "role").
Proof.
  unfold Middleware.autenticarToken.
  destruct (Jwt.extrairTokenDoHeader (headers req !! "authorization")) as [tk|]; [|discriminate].
  destruct (negb (truthy (VStr tk))); [discriminate|].
  destruct (Jwt.verificarAccessToken env verify tk) as [payload|msg].
  2:{ destruct (msg =? "Token expirado")%string; [discriminate|].
      destruct (msg =? "Token inválido")%string; discriminate. }
  intros H. inversion H; subst r. clear H.
  eexists. split; [reflexivity|].
  unfold Middleware.verificarRole, role_permitida. cbn [usuario].
  destruct (existsb _ roles); cbn [negb]; [reflexivity|].
  eexists. split; [reflexivity|]. repeat split; reflexivity.
Qed.

Lemma verificarRole_apos_autenticar_witness :
  Middleware.verificarRole [VStr "admin"] (com_usuario pedido_com_token payload_admin)
  = Middleware.Next (com_usuario pedido_com_token payload_admin).
Proof.
  destruct (verificarRole_apos_autenticar sem_env (verify_aceita payload_admin)
              [VStr "admin"] pedido_com_token (com_usuario pedido_com_token payload_admin))
    as (u & Hu & H).
  - vm_compute. reflexivity.
  - inversion Hu; subst u. exact H.
Defined.

(** Without [req.usuario] the answer is 401 whatever the roles, and with
    no role permitted nobody passes. *)
Theorem verificarRole_recusa (roles : list value) (req : request) :
  (usuario req = None ->
   exists resp, Middleware.verificarRole roles req = Middleware.Responde resp
                /\ status resp = 401
                /\ corpo resp !! "error" = Some (VStr "NOT_AUTHENTICATED"))
  /\ (exists resp, Middleware.verificarRole [] req = Middleware.Responde resp
                   /\ (status resp = 401 \/ status resp = 403)).
Proof.
  unfold Middleware.verificarRole. split.
  - intros ->. eexists. repeat split; reflexivity.
  - destruct (usuario req); cbn [existsb negb]; eexists; (split; [reflexivity|]); auto.
Qed.

(** ** Pages *)

Section Paginacao.

Variable parseInt : value -> option Z.

Lemma parseInt_ou_faixa v padrao :
  padrao <> 0 -> parseInt_ou parseInt v padrao <> 0.
Proof.
  intros H. unfold parseInt_ou. destruct (parseInt v) as [n|]; [|exact H].
  destruct (n =? 0) eqn:E; [exact H|]. apply Z.eqb_neq. exact E.
Qed.

(** Whatever the query says, [obterParametrosPaginacao] gives a page of 1 or
    more, a limit from 1 to 100, and a window [from..to] of exactly [limit]
    rows that starts at [(page - 1) * limit]; a page of 1 or more is kept, and
    a limit outside 1..100 becomes 10. *)
Theorem obterParametrosPaginacao_janela (req : request) :
  (forall n, parseInt (campo (query req) "page") = Some n -> inteiro_seguro (100 * n)) ->
  let p := obterParametrosPaginacao parseInt req in
  1 <= page p
  /\ 1 <= limit p <= 100
  /\ from p = (page p - 1) * limit p
  /\ 0 <= from p
  /\ to p - from p + 1 = limit p
  /\ (forall n, parseInt (campo (query req) "page") = Some n -> 1 <= n -> page p = n)
  /\ (forall n, parseInt (campo (query req) "limit") = Some n ->
                limit p = if (1 <=? n) && (n <=? 100) then n else 10).
Proof.
  intros _. cbv zeta. unfold obterParametrosPaginacao. cbn [page limit from to].
  set (pg := parseInt_ou parseInt (campo (query req) "page") 1).
  set (lm := parseInt_ou parseInt (campo (query req) "limit") 10).
  assert (Hp : 1 <= (if pg <? 1 then 1 else pg)) by (destruct (Z.ltb_spec pg 1); lia).
  assert (Hl : 1 <= (if (lm <? 1) || (100 <? lm) then 10 else lm) <= 100).
  { destruct (Z.ltb_spec lm 1); cbn [orb]; [lia|]. destruct (Z.ltb_spec 100 lm); lia. }
  split; [exact Hp|]. split; [exact Hl|]. split; [reflexivity|].
  split; [nia|]. split; [lia|]. split.
  - intros n Hn H1. subst pg. unfold parseInt_ou. rewrite Hn.
    replace (n =? 0) with false by lia. replace (n <? 1) with false by lia. reflexivity.
  - intros n Hn. subst lm. unfold parseInt_ou. rewrite Hn.
    destruct (Z.eqb_spec n 0) as [->|Hn0]; [reflexivity|].
    destruct (Z.ltb_spec n 1), (Z.ltb_spec 100 n), (Z.leb_spec 1 n), (Z.leb_spec n 100);
      cbn [orb andb]; try reflexivity; lia.
Qed.

(** With the same limit, the window of page [n + 1] starts right after the
    window of page [n] ends. *)
Theorem obterParametrosPaginacao_seguinte (req req' : request) (n : Z) :
  parseInt (campo (query req) "page") = Some n ->
  parseInt (campo (query req') "page") = Some (n + 1) ->
  1 <= n -> inteiro_seguro (100 * (n + 1)) ->
  campo (query req') "limit" = campo (query req) "limit" ->
  from (obterParametrosPaginacao parseInt req')
  = to (obterParametrosPaginacao parseInt req) + 1.
Proof.
  intros Hn Hn' H1 _ Hl.
  unfold obterParametrosPaginacao. cbn [from to]. rewrite Hl.
  set (L := if _ || _ then 10 else _).
  unfold parseInt_ou. rewrite Hn, Hn'.
  replace (n =? 0) with false by lia. replace (n + 1 =? 0) with false by lia.
  replace (n <? 1) with false by lia. replace (n + 1 <? 1) with false by lia.
  ring.
Qed.

Lemma teto_div_faixa total lim :
  1 <= lim -> (teto_div total lim - 1) * lim < total <= teto_div total lim * lim.
Proof.
  intros H. unfold teto_div. Z.div_mod_to_equations. nia.
Qed.

(** For a count of rows and a limit of 1 to 100, [respostaPaginada] reports
    the smallest number of pages that holds every row, and [hasNextPage] is
    true exactly when rows remain after this page. *)
Theorem respostaPaginada_paginas (code : Z) (msg : string) (dados : value)
    (total pg lim : Z) :
  0 <= total < 2 ^ 46 -> 1 <= lim <= 100 ->
  exists pag totalPages,
    corpo (respostaPaginada code msg dados (Some total) pg lim) !! "pagination"
    = Some (VObj pag)
    /\ pag !! "totalPages" = Some (VNum totalPages)
    /\ 0 <= totalPages
    /\ (totalPages - 1) * lim < total <= totalPages * lim
    /\ pag !! "hasNextPage" = Some (VBool (pg * lim <? total))
    /\ pag !! "hasPrevPage" = Some (VBool (1 <? pg)).
Proof.
  intros Ht Hl. unfold respostaPaginada. cbn [default from_option].
  pose proof (teto_div_faixa total lim ltac:(lia)) as Hf.
  eexists _, (teto_div total lim). cbn [corpo json].
  split; [reflexivity|]. split; [reflexivity|].
  split; [nia|]. split; [exact Hf|]. split; [|reflexivity].
  match goal with |- _ = Some (VBool ?b) => replace b with (pg <? teto_div total lim) end.
  - reflexivity.
  - destruct (Z.ltb_spec pg (teto_div total lim)), (Z.ltb_spec (pg * lim) total);
      try reflexivity; nia.
Qed.

End Paginacao.

Lemma obterParametrosPaginacao_seguinte_witness :
  from (obterParametrosPaginacao Exemplos.parseInt (pedido_pagina "3" "25"))
  = to (obterParametrosPaginacao Exemplos.parseInt (pedido_pagina "2" "25")) + 1.
Proof.
  apply (obterParametrosPaginacao_seguinte Exemplos.parseInt
           (pedido_pagina "2" "25") (pedido_pagina "3" "25") 2).
  - vm_compute. reflexivity.
  - vm_compute. reflexivity.
  - lia.
  - unfold inteiro_seguro. lia.
  - vm_compute. reflexivity.
Defined.

Lemma obterParametrosPaginacao_janela_witness :
  let p := obterParametrosPaginacao Exemplos.parseInt (pedido_pagina "3" "250") in
  page p = 3 /\ limit p = 10 /\ from p = 20 /\ to p = 29.
Proof.
  pose proof (obterParametrosPaginacao_janela Exemplos.parseInt (pedido_pagina "3" "250")) as H.
  cbv zeta in H |- *.
  destruct H as (_ & _ & Hf & _ & Ht & Hp & Hl).
  - intros n Hn. vm_compute in Hn. inversion Hn; subst n. unfold inteiro_seguro. lia.
  - specialize (Hp 3 ltac:(vm_compute; reflexivity) ltac:(lia)).
    specialize (Hl 250 ltac:(vm_compute; reflexivity)).
    change ((1 <=? 250) && (250 <=? 100)) with false in Hl. cbv iota in Hl.
    rewrite Hp, Hl in Hf. rewrite Hl in Ht. lia.
Defined.

Lemma respostaPaginada_paginas_witness :
  exists pag totalPages,
    corpo (respostaPaginada 200 "ok" VNull (Some 41) 2 20) !! "pagination" = Some (VObj pag)
    /\ pag !! "totalPages" = Some (VNum totalPages)
    /\ 0 <= totalPages
    /\ (totalPages - 1) * 20 < 41 <= totalPages * 20
    /\ pag !! "hasNextPage" = Some (VBool (2 * 20 <? 41))
    /\ pag !! "hasPrevPage" = Some (VBool (1 <? 2)).
Proof. apply (respostaPaginada_paginas 200 "ok" VNull 41 2 20); lia. Defined.

Example obterParametrosPaginacao_exemplos :
  map (fun pl => let p := obterParametrosPaginacao Exemplos.parseInt
                            (pedido_pagina (fst pl) (snd pl)) in
                 (page p, limit p, from p, to p))
    [("2", "25"); ("0", "0"); ("-3", "101"); ("abc", "100")]
  = [(2, 25, 25, 49); (1, 10, 0, 9); (1, 10, 0, 9); (1, 100, 0, 99)].
Proof. vm_compute. reflexivity. Qed.

(** ** Fines *)

Lemma campo_insert_eq (m : objeto) k v : campo (<[ k := v ]> m) k = v.
Proof. unfold campo. rewrite lookup_insert_eq. reflexivity. Qed.

Lemma campo_insert_ne (m : objeto) k k' v : k <> k' -> campo (<[ k := v ]> m) k' = campo m k'.
Proof. intros H. unfold campo. rewrite lookup_insert_ne by exact H. reflexivity. Qed.

Lemma coalesce_mesmo a : coalesce a a = a.
Proof. unfold coalesce. destruct (nullish a); reflexivity. Qed.

Ltac campos_norm :=
  repeat first [ rewrite campo_insert_eq | rewrite campo_insert_ne by discriminate ].

Ltac abre_nullish :=
  unfold coalesce;
  repeat match goal with
    | |- context [nullish ?v] =>
        lazymatch v with
        | context [nullish _] => fail
        | _ => destruct (nullish v) eqn:?
        end
    end;
  try reflexivity; try congruence.

(** [normalizarMulta] changes nothing when applied again; a normalized fine
    has the seven canonical keys, and every other key of the row as it was. *)
Theorem normalizarMulta_idempotente (m : objeto) :
  normalizarMulta (normalizarMulta m) = normalizarMulta m
  /\ (forall k, In k chaves_normalizadas -> is_Some (normalizarMulta m !! k))
  /\ (forall k, ~ In k chaves_normalizadas -> normalizarMulta m !! k = m !! k).
Proof.
  split; [|split].
  - set (n := normalizarMulta m).
    assert (E1 : campo n "MultaID"
                 = coalesce (campo m "MultaID") (coalesce (campo m "multa_id")
                     (coalesce (campo m "id") (coalesce (campo m "ID") VNull)))).
    { subst n. unfold normalizarMulta. campos_norm. reflexivity. }
    assert (E2 : campo n "ReservaID"
                 = coalesce (campo m "PendenciaID") (coalesce (campo m "pendencia_id")
                     (coalesce (campo m "ReservaID") (coalesce (campo m "reserva_id")
                        (coalesce (campo m "reservaId") VNull))))).
    { subst n. unfold normalizarMulta. campos_norm. reflexivity. }
    assert (E3 : campo n "ClienteID"
                 = coalesce (campo m "ClienteID") (coalesce (campo m "cliente_id") VNull)).
    { subst n. unfold normalizarMulta. campos_norm. reflexivity. }
    assert (E4 : campo n "Valor" = coalesce (campo m "Valor") (coalesce (campo m "valor") VNull)).
    { subst n. unfold normalizarMulta. campos_norm. reflexivity. }
    assert (E5 : campo n "DataVencimento"
                 = coalesce (campo m "DataVencimento") (coalesce (campo m "data_vencimento")
                     (coalesce (campo m "DataEmissao") (coalesce (campo m "data_multa")
                        (coalesce (campo m "data_emissao") VNull))))).
    { subst n. unfold normalizarMulta. campos_norm. reflexivity. }
    assert (E6 : campo n "DataPagamento"
                 = coalesce (campo m "DataPagamento") (coalesce (campo m "data_pagamento") VNull)).
    { subst n. unfold normalizarMulta. campos_norm. reflexivity. }
    assert (E7 : campo n "Status" = coalesce (campo m "Status") (coalesce (campo m "status") VNull)).
    { subst n. unfold normalizarMulta. campos_norm. reflexivity. }
    assert (O : forall k, ~ In k chaves_normalizadas -> campo n k = campo m k).
    { intros k Hk. subst n. unfold normalizarMulta.
      rewrite !campo_insert_ne; [reflexivity|..]; intros <-; apply Hk; cbn; tauto. }
    assert (F1 : coalesce (campo n "MultaID") (coalesce (campo n "multa_id")
                   (coalesce (campo n "id") (coalesce (campo n "ID") VNull)))
                 = campo n "MultaID").
    { rewrite !(O "multa_id"), !(O "id"), !(O "ID") by (cbn; intuition discriminate).
      rewrite E1. abre_nullish. }
    assert (F2 : coalesce (campo n "PendenciaID") (coalesce (campo n "pendencia_id")
                   (coalesce (campo n "ReservaID") (coalesce (campo n "reserva_id")
                      (coalesce (campo n "reservaId") VNull))))
                 = campo n "ReservaID").
    { rewrite !(O "PendenciaID"), !(O "pendencia_id"), !(O "reserva_id"), !(O "reservaId")
        by (cbn; intuition discriminate).
      rewrite E2. abre_nullish. }
    assert (F3 : coalesce (campo n "ClienteID") (coalesce (campo n "cliente_id") VNull)
                 = campo n "ClienteID").
    { rewrite !(O "cliente_id") by (cbn; intuition discriminate). rewrite E3. abre_nullish. }
    assert (F4 : coalesce (campo n "Valor") (coalesce (campo n "valor") VNull)
                 = campo n "Valor").
    { rewrite !(O "valor") by (cbn; intuition discriminate). rewrite E4. abre_nullish. }
    assert (F5 : coalesce (campo n "DataVencimento") (coalesce (campo n "data_vencimento")
                   (coalesce (campo n "DataEmissao") (coalesce (campo n "data_multa")
                      (coalesce (campo n "data_emissao") VNull))))
                 = campo n "DataVencimento").
    { rewrite !(O "data_vencimento"), !(O "DataEmissao"), !(O "data_multa"), !(O "data_emissao")
        by (cbn; intuition discriminate).
      rewrite E5. abre_nullish. }
    assert (F6 : coalesce (campo n "DataPagamento") (coalesce (campo n "data_pagamento") VNull)
                 = campo n "DataPagamento").
    { rewrite !(O "data_pagamento") by (cbn; intuition discriminate). rewrite E6. abre_nullish. }
    assert (F7 : coalesce (campo n "Status") (coalesce (campo n "status") VNull)
                 = campo n "Status").
    { rewrite !(O "status") by (cbn; intuition discriminate). rewrite E7. abre_nullish. }
    assert (S : forall k, In k chaves_normalizadas -> n !! k = Some (campo n k)).
    { intros k Hk. subst n. unfold normalizarMulta. cbn in Hk.
      destruct Hk as [<-|[<-|[<-|[<-|[<-|[<-|[<-|[]]]]]]]]; campos_norm;
        repeat first [ rewrite lookup_insert_eq | rewrite lookup_insert_ne by discriminate ];
        reflexivity. }
    unfold normalizarMulta at 1. fold n. cbv zeta. rewrite F1, F2, F3, F4, F5, F6, F7.
    rewrite (insert_id n "MultaID") by (apply S; cbn; tauto).
    rewrite (insert_id n "ReservaID") by (apply S; cbn; tauto).
    rewrite (insert_id n "ClienteID") by (apply S; cbn; tauto).
    rewrite (insert_id n "Valor") by (apply S; cbn; tauto).
    rewrite (insert_id n "DataVencimento") by (apply S; cbn; tauto).
    rewrite (insert_id n "DataPagamento") by (apply S; cbn; tauto).
    rewrite (insert_id n "Status") by (apply S; cbn; tauto).
    reflexivity.
  - intros k Hk. unfold normalizarMulta. cbn in Hk.
    destruct Hk as [<-|[<-|[<-|[<-|[<-|[<-|[<-|[]]]]]]]];
      repeat first [ rewrite lookup_insert_eq | rewrite lookup_insert_ne by discriminate ];
      eexists; reflexivity.
  - intros k Hk. unfold normalizarMulta.
    rewrite !lookup_insert_ne; [reflexivity|..]; intros <-; apply Hk; cbn; tauto.
Qed.

Lemma filter_complemento {A} (f : A -> bool) (l : list A) :
  (List.filter f l ++ List.filter (fun x => negb (f x)) l)%list ≡ₚ l.
Proof.
  induction l as [|x l IH]; cbn; [reflexivity|].
  destruct (f x); cbn.
  - constructor. exact IH.
  - rewrite <- Permutation_middle. constructor. exact IH.
Qed.

(** The status filter splits the fines in two: pendente keeps the fines that
    are not paid, paga and pago keep the ones that are, whatever the case of
    the letters, and together they hold every fine once. *)
Theorem filtrar_status_particao (l : list objeto) :
  (filtrar_status (Some "pendente") l ++ filtrar_status (Some "paga") l)%list ≡ₚ l
  /\ filtrar_status (Some "paga") l = List.filter paga l
  /\ filtrar_status (Some "pendente") l = List.filter (fun m => negb (paga m)) l
  /\ (forall s, toLowerCase s = "pendente" ->
                filtrar_status (Some s) l = filtrar_status (Some "pendente") l)
  /\ (forall s, toLowerCase s = "paga" \/ toLowerCase s = "pago" ->
                filtrar_status (Some s) l = filtrar_status (Some "paga") l).
Proof.
  assert (Hpaga : filtrar_status (Some "paga") l = List.filter paga l) by reflexivity.
  assert (Hpend : filtrar_status (Some "pendente") l = List.filter (fun m => negb (paga m)) l).
  { unfold filtrar_status. cbn [truthy String.eqb negb]. 
    change (toLowerCase "pendente" =? "pendente")%string with true. cbv iota.
    apply List.filter_ext. intros m. unfold paga. cbv zeta.
    destruct (truthy (campo m "DataPagamento")), (status_de m =? "paga")%string,
      (status_de m =? "pago")%string; reflexivity. }
  split; [|split; [exact Hpaga|split; [exact Hpend|split]]].
  - rewrite Hpaga, Hpend.
    rewrite Permutation_app_comm. apply filter_complemento.
  - intros s Hs. unfold filtrar_status at 1. rewrite Hs.
    destruct s as [|c s]; [discriminate Hs|]. reflexivity.
  - intros s Hs. unfold filtrar_status at 1.
    destruct s as [|c s]; [destruct Hs as [Hs|Hs]; discriminate Hs|].
    cbn [truthy String.eqb negb].
    destruct Hs as [Hs|Hs]; rewrite Hs; reflexivity.
Qed.


Lemma filter_filter' {A} (p q : A -> bool) l :
  List.filter q (List.filter p l) = List.filter (fun x => p x && q x) l.
Proof.
  induction l as [|x l IH]; cbn; [reflexivity|].
  destruct (p x); cbn; [destruct (q x); rewrite IH; reflexivity|exact IH].
Qed.

Lemma filter_true {A} (l : list A) : List.filter (fun _ => true) l = l.
Proof. induction l; cbn; congruence. Qed.

Lemma Forall_filter' {A} (p : A -> bool) l : Forall (fun x => p x = true) (List.filter p l).
Proof.
  induction l as [|x l IH]; cbn; [constructor|].
  destruct (p x) eqn:E; [constructor; assumption|exact IH].
Qed.

Lemma In_filter' {A} (p : A -> bool) l x : In x (List.filter p l) -> In x l.
Proof. intros H. apply filter_In in H. tauto. Qed.

Section Filtra.

Context {Store : Type}.
Variable executar : consulta -> Store -> resposta * Store.
Variable Number : value -> option Z.
Variable localeCompare : string -> string -> Z.
Variable sort : (objeto -> objeto -> Z) -> list objeto -> list objeto.
Variable hojeIso : string.

Lemma filtrar_status_passa s l :
  filtrar_status s l
  = List.filter
      (fun m => match s with
                | Some s =>
                    if (toLowerCase s =? "pendente")%string then negb (paga m)
                    else if (toLowerCase s =? "paga")%string || (toLowerCase s =? "pago")%string
                         then paga m
                         else true
                | None => true
                end) l.
Proof.
  destruct s as [s|]; [|symmetry; apply filter_true].
  unfold filtrar_status.
  destruct (negb (truthy (VStr s))) eqn:Et.
  - destruct s as [|c s]; [|discriminate Et]. symmetry. apply filter_true.
  - destruct (toLowerCase s =? "pendente")%string.
    + apply List.filter_ext. intros m. unfold paga. cbv zeta.
      destruct (truthy (campo m "DataPagamento")), (status_de m =? "paga")%string,
        (status_de m =? "pago")%string; reflexivity.
    + destruct ((toLowerCase s =? "paga")%string || (toLowerCase s =? "pago")%string).
      * reflexivity.
      * symmetry. apply filter_true.
Qed.

(** The filters before the client's, one after the other, keep the fines
    that pass them all. *)
Lemma filtros_em_cadeia (f : filtros_multa) (l : list objeto) :
  (let l1 := match numero_truthy (f_multaId f) with
             | Some multaId => List.filter (fun m => mesmo_numero Number (campo m "MultaID") multaId) l
             | None => l
             end in
   let l2 := match numero_truthy (f_reservaId f) with
             | Some reservaId =>
                 List.filter (fun m => mesmo_numero Number (campo m "ReservaID") reservaId) l1
             | None => l1
             end in
   let l3 := filtrar_status (f_status f) l2 in
   match f_vencidas f with
   | Some true => List.filter (vencida hojeIso) l3
   | _ => l3
   end)
  = List.filter (passa Number hojeIso f) l.
Proof.
  cbv zeta. unfold passa. rewrite filtrar_status_passa.
  destruct (numero_truthy (f_multaId f)) as [i|],
           (numero_truthy (f_reservaId f)) as [j|],
           (f_vencidas f) as [[|]|];
    rewrite ?filter_filter'; apply List.filter_ext; intros m;
    rewrite <- ?andb_assoc; cbn [andb]; rewrite ?andb_true_r; reflexivity.
Qed.

(** What [obterMultasFiltradas] returns, when the table is read without
    error and the sort only rearranges: each fine returned is a normalized
    row of the table, possibly with its reservation attached, that passes
    the id, reservation, status and overdue filters asked for; and without a
    client filter every such row is returned, once. *)
Theorem obterMultasFiltradas_filtra (f : filtros_multa) (s s1 : Store) (r : resposta)
    (ms : list objeto) (st' : option Store) :
  executar (from_select "multa" "*") s = (r, s1) ->
  error r = None ->
  (forall l, sort (comparar_multas Number localeCompare) l ≡ₚ l) ->
  obterMultasFiltradas executar Number localeCompare sort hojeIso f (Some s)
  = (Return ms, st') ->
  exists base,
    Forall2 enriquecida base ms
    /\ Forall (fun m => passa Number hojeIso f m = true) base
    /\ (forall m, In m base -> In m (map normalizarMulta (default [] (data r))))
    /\ (numero_truthy (f_clienteId f) = None ->
        base ≡ₚ List.filter (passa Number hojeIso f)
                  (map normalizarMulta (default [] (data r)))).
Proof.
  intros He Hr Hsort.
  unfold obterMultasFiltradas. unfold bind at 1. unfold consultar at 1.
  rewrite He, Hr. cbv zeta.
  fold (vencida hojeIso).
  pose proof (filtros_em_cadeia f (map normalizarMulta (default [] (data r)))) as Hc.
  cbv zeta in Hc. rewrite Hc. clear Hc.
  set (L0 := map normalizarMulta (default [] (data r))).
  set (L4 := List.filter (passa Number hojeIso f) L0).
  assert (Hfim : forall L5 st ms st',
             (forall m, In m L5 -> In m L4) ->
             (fun st : option Store =>
                match enriquecerMultas executar (sort (comparar_multas Number localeCompare) L5) st with
                | (Return enriquecidas, st') => (Return enriquecidas, st')
                | (Throw _, st') =>
                    (Return (sort (comparar_multas Number localeCompare) L5), st')
                end) st = (Return ms, st') ->
             Forall2 enriquecida (sort (comparar_multas Number localeCompare) L5) ms
             /\ Forall (fun m => passa Number hojeIso f m = true)
                  (sort (comparar_multas Number localeCompare) L5)
             /\ (forall m, In m (sort (comparar_multas Number localeCompare) L5) -> In m L0)).
  { intros L5 st ms0 st0 Hsub H. cbv beta in H.
    assert (Hin : forall m, In m (sort (comparar_multas Number localeCompare) L5) -> In m L4).
    { intros m Hm. apply Hsub. eapply Permutation_in; [apply Hsort|exact Hm]. }
    split; [|split].
    - destruct (enriquecerMultas executar _ st) as [[en|e] st2] eqn:Een;
        inversion H; subst.
      + eapply enriquecerMultas_enriquecida. exact Een.
      + apply enriquecida_refl.
    - apply List.Forall_forall. intros m Hm. apply Hin in Hm.
      unfold L4 in Hm. apply filter_In in Hm. tauto.
    - intros m Hm. apply Hin in Hm. unfold L4 in Hm. apply filter_In in Hm. tauto. }
  destruct (numero_truthy (f_clienteId f)) as [c|] eqn:Ec.
  - destruct (existsb _ L4) eqn:Ed.
    + unfold bind, ret. intros H.
      apply Hfim in H; [|intros m Hm; apply filter_In in Hm; tauto].
      destruct H as (H1 & H2 & H3). eexists. split; [exact H1|].
      split; [exact H2|]. split; [exact H3|discriminate].
    + unfold bind.
      destruct (obterReservaIdsPorCliente executar c (Some s1)) as [[ids|e] st1] eqn:Eo;
        cbv beta iota; [|intros H; discriminate H].
      destruct ids as [|i ids].
      * unfold ret. intros H. inversion H; subst.
        exists []. split; [constructor|]. split; [constructor|].
        split; [intros m []|discriminate].
      * unfold bind, ret. intros H.
        apply Hfim in H; [|intros m Hm; apply filter_In in Hm; tauto].
        destruct H as (H1 & H2 & H3). eexists. split; [exact H1|].
        split; [exact H2|]. split; [exact H3|discriminate].
  - unfold bind, ret. intros H.
    apply Hfim in H; [|auto].
    destruct H as (H1 & H2 & H3). eexists. split; [exact H1|].
    split; [exact H2|]. split; [exact H3|]. intros _. apply Hsort.
Qed.

End Filtra.

Lemma inserir_permuta {A} (cmp : A -> A -> Z) x l : Exemplos.inserir cmp x l ≡ₚ x :: l.
Proof.
  induction l as [|y l IH]; cbn; [reflexivity|].
  destruct (0 <? cmp x y); [|reflexivity].
  rewrite IH. apply perm_swap.
Qed.

Lemma sort_permuta {A} (cmp : A -> A -> Z) l : Exemplos.sort cmp l ≡ₚ l.
Proof.
  induction l as [|x l IH]; cbn; [reflexivity|].
  rewrite inserir_permuta. constructor. exact IH.
Qed.

Lemma obterMultasFiltradas_filtra_witness :
  exists base,
    Forall2 enriquecida base
      (match fst (obterMultasFiltradas MemDb.executar Exemplos.Number Exemplos.localeCompare
                    Exemplos.sort Exemplos.hojeIso filtros_pendentes_vencidas
                    (Some uma_multa)) with
       | Return ms => ms
       | Throw _ => []
       end)
    /\ Forall (fun m => passa Exemplos.Number Exemplos.hojeIso filtros_pendentes_vencidas m = true)
         base.
Proof.
  destruct (obterMultasFiltradas_filtra MemDb.executar Exemplos.Number Exemplos.localeCompare
              Exemplos.sort Exemplos.hojeIso filtros_pendentes_vencidas
              uma_multa uma_multa
              (fst (MemDb.executar (from_select "multa" "*") uma_multa))
              (match fst (obterMultasFiltradas MemDb.executar Exemplos.Number
                            Exemplos.localeCompare Exemplos.sort Exemplos.hojeIso
                            filtros_pendentes_vencidas (Some uma_multa)) with
               | Return ms => ms
               | Throw _ => []
               end)
              (Some uma_multa))
    as (base & H1 & H2 & _).
  - vm_compute. reflexivity.
  - vm_compute. reflexivity.
  - apply sort_permuta.
  - vm_compute. reflexivity.
  - exists base. split; [exact H1|exact H2].
Defined.

Example obterMultasFiltradas_exemplos :
  map (fun f =>
         match fst (obterMultasFiltradas MemDb.executar Exemplos.Number Exemplos.localeCompare
                      Exemplos.sort Exemplos.hojeIso f (Some Exemplos.biblioteca)) with
         | Return ms => map (fun m => campo m "MultaID") ms
         | Throw _ => []
         end)
    [ filtros_pendentes_vencidas;
      com_status (Some "PAGA") (com_status None filtros_pendentes_vencidas);
      {| f_clienteId := None; f_reservaId := None; f_status := Some "paga";
         f_vencidas := None; f_multaId := None |} ]
  = [[VNum 3; VNum 1]; []; [VNum 2]].
Proof. vm_compute. reflexivity. Qed.

(** ** Reservations at the reference store *)

Lemma post_reservas_decide_witness :
  exists s',
    snd (reservar "Casmurro" 1) = Some s'
    /\ decide MemDb.executar Exemplos.Number (pedido_reserva "Casmurro" 1)
         "529.982.247-25" "Casmurro" "01/03/2026" "15/03/2026" "Retirada" 1
         Exemplos.biblioteca (fst (reservar "Casmurro" 1)) s'.
Proof.
  apply (post_reservas_decide MemDb.executar Exemplos.Number Exemplos.parseInt
           (pedido_reserva "Casmurro" 1) "529.982.247-25" "Casmurro" "01/03/2026"
           "15/03/2026" "Retirada" 1 Exemplos.biblioteca).
  constructor; try (vm_compute; reflexivity); try discriminate; try lia.
Defined.

Lemma delete_reservas_consultas_witness :
  let busca := from_select "reservas" "ReservaID, Status, DataEntrega"
               |> eq "ReservaID" (VStr "7") in
  let cancela := from_update "reservas" {[ "Status" := VStr "cancelada" ]}
                 |> eq "ReservaID" (VStr "7") |> select in
  let res := delete_reservas MemDb.executar Exemplos.Number pedido_cancelar
               (Some Exemplos.biblioteca) in
  (snd res = Some (snd (MemDb.executar busca Exemplos.biblioteca))
   /\ status (fst res) = 404
   /\ (error1 (single (fst (MemDb.executar busca Exemplos.biblioteca))) <> None
       \/ data1 (single (fst (MemDb.executar busca Exemplos.biblioteca))) = None))
  \/ (snd res
      = Some (snd (MemDb.executar cancela (snd (MemDb.executar busca Exemplos.biblioteca))))
      /\ (status (fst res) = 200 \/ status (fst res) = 500)
      /\ exists r, single (fst (MemDb.executar busca Exemplos.biblioteca))
                   = {| data1 := Some r; error1 := None |}).
Proof.
  apply (delete_reservas_consultas Exemplos.Number MemDb.executar pedido_cancelar "7"
           Exemplos.biblioteca).
  - vm_compute. reflexivity.
  - discriminate.
  - vm_compute. reflexivity.
Defined.

(** ** DELETE /cliente/:id *)

Lemma casa_todos_um' f r : MemDb.casa_todos [f] r = MemDb.casa f r.
Proof. unfold MemDb.casa_todos. cbn. apply andb_true_r. Qed.

Lemma so_apaga_404 d id resp :
  status resp = 404 ->
  (forall tb r0, d !! "cliente" = Some tb -> MemDb.tem_coluna tb "ClienteID" = true ->
                 List.filter (cliente_de id) (MemDb.linhas tb) = [r0] -> False) ->
  so_apaga d id (resp, Some d).
Proof.
  intros Hs Hn. exists d. cbn [fst snd].
  split; [reflexivity|]. split; [auto|].
  split; [destruct (d !! "cliente"); auto|].
  split; [|auto].
  intros tb r0 H1 H2 H3. exfalso. eapply Hn; eauto.
Qed.

Section Apagar.

Variable Number : value -> option Z.

(** On the reference store, [DELETE /cliente/:id] with a numeric id touches
    no other table and changes no row that stays; with one client of that id
    it answers 200 and the row is gone; with none, or more than one, it
    answers 404 and changes nothing. *)
Theorem delete_cliente_apaga (d : MemDb.db) (req : request) (id : string) :
  params req !! "id" = Some id ->
  id <> EmptyString ->
  isNaN Number (VStr id) = false ->
  so_apaga d id (delete_cliente MemDb.executar Number req (Some d)).
Proof.
  intros Hid Hne Hnan.
  assert (Ht : truthy (VStr id) = true) by (cbn; apply nao_vazia; exact Hne).
  unfold delete_cliente, try_catch, param. rewrite Hid, Hnan, Ht. cbn [negb orb].
  unfold bind at 1. unfold consultar at 1.
  set (q1 := from_select "cliente" "ClienteID" |> eq "ClienteID" (VStr id)).
  set (q2 := from_delete "cliente" |> eq "ClienteID" (VStr id) |> select).
  unfold MemDb.executar at 1. change (tabela q1) with "cliente".
  change (filtros q1) with [Eq "ClienteID" (VStr id)].
  change (acao_de q1) with (Select "ClienteID").
  destruct (d !! "cliente") as [tb|] eqn:Etb.
  2:{ cbn. apply so_apaga_404; [reflexivity|].
      intros tb r0 H1. rewrite Etb in H1. discriminate H1. }
  cbn [List.find MemDb.coluna_de].
  destruct (MemDb.tem_coluna tb "ClienteID") eqn:C1; cbn [negb].
  2:{ cbn. apply so_apaga_404; [reflexivity|].
      intros tb' r0 H1 H2. rewrite Etb in H1. inversion H1; subst tb'.
      rewrite C1 in H2. discriminate H2. }
  change (MemDb.colunas_pedidas "ClienteID") with (Some ["ClienteID"]).
  cbn [default from_option]. unfold Datatypes.id. cbn [List.find]. rewrite C1. cbn [negb].
  rewrite (List.filter_ext _ _ (casa_todos_um' (Eq "ClienteID" (VStr id)))).
  change (List.filter (MemDb.casa (Eq "ClienteID" (VStr id))) (MemDb.linhas tb))
    with (List.filter (cliente_de id) (MemDb.linhas tb)).
  unfold single at 1 2. cbn [error data].
  destruct (List.filter (cliente_de id) (MemDb.linhas tb)) as [|r0 [|r1 rs]] eqn:Ef;
    cbn [map error1 data1].
  - cbn. apply so_apaga_404; [reflexivity|].
    intros tb' r0 H1 H2 H3. rewrite Etb in H1. inversion H1; subst tb'.
    rewrite Ef in H3. discriminate H3.
  - unfold bind at 1. unfold consultar at 1.
    unfold MemDb.executar at 1. change (tabela q2) with "cliente".
    change (filtros q2) with [Eq "ClienteID" (VStr id)].
    change (acao_de q2) with Delete.
    rewrite Etb. cbn [List.find MemDb.coluna_de]. rewrite C1. cbn [negb].
    unfold MemDb.devolve. change (retorno q2) with (Some "*").
    cbn [error data ret fst snd].
    rewrite (List.filter_ext _ (fun r => negb (cliente_de id r))
               (fun r => f_equal negb (casa_todos_um' (Eq "ClienteID" (VStr id)) r))).
    eexists. cbn [fst snd]. split; [reflexivity|].
    split; [intros t Ht'; rewrite lookup_insert_ne by congruence; reflexivity|].
    rewrite Etb.
    split; [rewrite lookup_insert_eq; split; [reflexivity|right; reflexivity]|].
    split.
    + intros tb' r' H1 H2 H3. split; [reflexivity|].
      inversion H1; subst tb'. eexists. rewrite lookup_insert_eq. split; reflexivity.
    + intros Hv. specialize (Hv tb eq_refl). rewrite Ef in Hv. contradiction Hv. reflexivity.
  - cbn. apply so_apaga_404; [reflexivity|].
    intros tb' r' H1 H2 H3. rewrite Etb in H1. inversion H1; subst tb'.
    rewrite Ef in H3. discriminate H3.
Qed.

End Apagar.

Lemma delete_cliente_apaga_witness :
  so_apaga Exemplos.biblioteca "1"
    (delete_cliente MemDb.executar Exemplos.Number pedido_apagar (Some Exemplos.biblioteca)).
Proof.
  apply (delete_cliente_apaga Exemplos.Number Exemplos.biblioteca pedido_apagar "1").
  - vm_compute. reflexivity.
  - discriminate.
  - vm_compute. reflexivity.
Defined.

(** The reservation of a deleted client stays, naming a client that is
    no longer there. *)
Example delete_cliente_deixa_reservas :
  let res := delete_cliente MemDb.executar Exemplos.Number pedido_apagar
               (Some Exemplos.biblioteca) in
  let linhas_de (t : string) : list objeto :=
    match snd res with
    | Some d' => match d' !! t with Some tb => MemDb.linhas tb | None => [] end
    | None => []
    end in
  status (fst res) = 200
  /\ linhas_de "cliente" = []
  /\ map (fun r => campo r "ClienteID") (linhas_de "reservas") = [VNum 1].
Proof. cbv zeta. repeat split; vm_compute; reflexivity. Qed.

(** ** PATCH /reservas/:id *)

Section Patch.

Context {Store : Type}.
Variable executar : consulta -> Store -> resposta * Store.
Variable Number : value -> option Z.

Lemma status_validos_em s :
  existsb (String.eqb s) status_validos = true ->
  In (VStr s) [VStr "ativa"; VStr "finalizada"; VStr "cancelada"].
Proof.
  unfold status_validos. cbn [existsb]. intros H.
  repeat (apply orb_prop in H; destruct H as [H|H]);
    try discriminate H; apply String.eqb_eq in H; subst; cbn; auto.
Qed.

Lemma atualizacao_so_status s :
  In (VStr s) [VStr "ativa"; VStr "finalizada"; VStr "cancelada"] ->
  atualizacao_de_status (<[ "Status" := VStr s ]> ∅).
Proof.
  intros H. split; [apply insert_non_empty|]. split.
  - intros k [v Hk]. destruct (base.decide (k = "Status")) as [->|Hn]; [auto|].
    rewrite lookup_insert_ne in Hk by congruence. rewrite lookup_empty in Hk. discriminate.
  - rewrite lookup_insert_eq. split; [exact H|].
    rewrite lookup_insert_ne by discriminate. rewrite lookup_empty. exact I.
Qed.

Lemma atualizacao_com_data (u : objeto) d :
  (u = ∅ \/ atualizacao_de_status u) ->
  atualizacao_de_status (<[ "DataEntrega" := VStr d ]> u).
Proof.
  intros H. split; [apply insert_non_empty|]. split.
  - intros k [v Hk]. destruct (base.decide (k = "DataEntrega")) as [->|Hn]; [auto|].
    rewrite lookup_insert_ne in Hk by congruence.
    destruct H as [->|(_ & H & _)]; [rewrite lookup_empty in Hk; discriminate|].
    apply H. eauto.
  - rewrite lookup_insert_ne by discriminate. rewrite lookup_insert_eq.
    split; [|exact I].
    destruct H as [->|(_ & _ & H & _)]; [rewrite lookup_empty; exact I|exact H].
Qed.

(** [PATCH /reservas/:id] with a numeric id either leaves the store alone and
    answers 400 or 500, or sends one update of [reservas] under that id whose
    payload has a status out of ativa, finalizada and cancelada (the
    lower-case form of the one asked for), a delivery date, or both, and
    nothing else. *)
Theorem patch_reservas_atualiza (req : request) (id : string) (s : Store) :
  params req !! "id" = Some id ->
  id <> EmptyString ->
  isNaN Number (VStr id) = false ->
  let res := patch_reservas executar Number req (Some s) in
  (snd res = Some s /\ (status (fst res) = 400 \/ status (fst res) = 500))
  \/ exists u,
       atualizacao_de_status u
       /\ (forall st, campo (body req) "status" = VStr st -> st <> EmptyString ->
                      u !! "Status" = Some (VStr (toLowerCase st)))
       /\ snd res
          = Some (snd (executar (from_update "reservas" u
                                 |> eq "ReservaID" (VStr id) |> select) s))
       /\ (status (fst res) = 200 \/ status (fst res) = 404 \/ status (fst res) = 500).
Proof.
  intros Hid Hne Hnan. cbv zeta.
  assert (Ht : truthy (VStr id) = true) by (cbn; apply nao_vazia; exact Hne).
  unfold patch_reservas, try_catch, param. rewrite Hid, Hnan, Ht. cbn [negb orb].
  (* the update, once the payload is known *)
  assert (Hfim : forall u,
             atualizacao_de_status u ->
             (forall st, campo (body req) "status" = VStr st -> st <> EmptyString ->
                         u !! "Status" = Some (VStr (toLowerCase st))) ->
             forall m : @M Store response,
               m = (r <- consultar executar
                           (from_update "reservas" u |> eq "ReservaID" (VStr id) |> select) ;;
                    match error r with
                    | Some e => ret (respostaErro 500 "Erro ao atualizar status" (VStr (message e)))
                    | None =>
                        match data r with
                        | Some (d0 :: _) =>
                            ret (respostaSucesso 200 "Status da reserva atualizado" (VObj d0))
                        | _ => ret (respostaErro 404 "Reserva não encontrada" VNull)
                        end
                    end) ->
               let res := match m (Some s) with
                          | (Return r, st') => (r, st')
                          | (Throw e, st') =>
                              (respostaErro 500 "Erro ao atualizar status" (VStr e), st')
                          end in
               exists u,
                 atualizacao_de_status u
                 /\ (forall st, campo (body req) "status" = VStr st -> st <> EmptyString ->
                                u !! "Status" = Some (VStr (toLowerCase st)))
                 /\ snd res
                    = Some (snd (executar (from_update "reservas" u
                                           |> eq "ReservaID" (VStr id) |> select) s))
                 /\ (status (fst res) = 200 \/ status (fst res) = 404
                     \/ status (fst res) = 500)).
  { intros u Hu Hst m -> . cbv zeta. exists u. split; [exact Hu|]. split; [exact Hst|].
    unfold bind, consultar, ret.
    destruct (executar _ s) as [r s1]. cbn [snd].
    destruct (error r); [cbn; auto|].
    destruct (data r) as [[|d0 ds]|]; cbn; auto. }
  destruct (truthy (campo (body req) "status")) eqn:Ets.
  - destruct (campo (body req) "status") as [| |b|n|st|l|o] eqn:Es;
      try (left; split; [reflexivity|right; reflexivity]).
    destruct (existsb (String.eqb (toLowerCase st)) status_validos) eqn:Ev; cbn [negb].
    2:{ left. split; [reflexivity|left; reflexivity]. }
    pose proof (atualizacao_so_status _ (status_validos_em _ Ev)) as Hu.
    assert (Hst : forall st0, VStr st = VStr st0 -> st0 <> EmptyString ->
                  (<[ "Status" := VStr (toLowerCase st) ]> (∅ : objeto)) !! "Status"
                  = Some (VStr (toLowerCase st0))).
    { intros st0 H0 _. inversion H0; subst. apply lookup_insert_eq. }
    destruct (truthy (campo (body req) "DataEntrega")) eqn:Etd.
    + destruct (Validators.validarData (campo (body req) "DataEntrega")) eqn:Evd; cbn [negb].
      2:{ left. split; [reflexivity|left; reflexivity]. }
      unfold bind at 1, lift.
      destruct (formatarData (campo (body req) "DataEntrega")) as [d|e] eqn:Ef.
      2:{ left. split; [reflexivity|right; reflexivity]. }
      rewrite bool_decide_eq_false_2 by apply insert_non_empty.
      right. eapply (Hfim (<[ "DataEntrega" := VStr d ]> _)); [| |reflexivity].
      * apply atualizacao_com_data. right. exact Hu.
      * intros st0 H0 Hn0. rewrite lookup_insert_ne by discriminate. apply Hst; assumption.
    + rewrite bool_decide_eq_false_2 by apply insert_non_empty.
      right. eapply (Hfim _ Hu Hst). reflexivity.
  - destruct (truthy (campo (body req) "DataEntrega")) eqn:Etd.
    + destruct (Validators.validarData (campo (body req) "DataEntrega")) eqn:Evd; cbn [negb].
      2:{ left. split; [reflexivity|left; reflexivity]. }
      unfold bind at 1, lift.
      destruct (formatarData (campo (body req) "DataEntrega")) as [d|e] eqn:Ef.
      2:{ left. split; [reflexivity|right; reflexivity]. }
      rewrite bool_decide_eq_false_2 by apply insert_non_empty.
      right. eapply (Hfim (<[ "DataEntrega" := VStr d ]> _)); [| |reflexivity].
      * apply atualizacao_com_data. left. reflexivity.
      * intros st0 H0 Hn0. rewrite H0 in Ets. cbn in Ets.
        rewrite (nao_vazia st0 Hn0) in Ets. discriminate Ets.
    + rewrite bool_decide_eq_true_2 by reflexivity.
      left. split; [reflexivity|left; reflexivity].
Qed.

End Patch.

Lemma patch_reservas_atualiza_witness :
  let res := patch_reservas MemDb.executar Exemplos.Number pedido_finalizar
               (Some Exemplos.biblioteca) in
  (snd res = Some Exemplos.biblioteca /\ (status (fst res) = 400 \/ status (fst res) = 500))
  \/ exists u,
       atualizacao_de_status u
       /\ (forall st, campo (body pedido_finalizar) "status" = VStr st -> st <> EmptyString ->
                      u !! "Status" = Some (VStr (toLowerCase st)))
       /\ snd res
          = Some (snd (MemDb.executar (from_update "reservas" u
                                       |> eq "ReservaID" (VStr "7") |> select)
                         Exemplos.biblioteca))
       /\ (status (fst res) = 200 \/ status (fst res) = 404 \/ status (fst res) = 500).
Proof.
  apply (patch_reservas_atualiza MemDb.executar Exemplos.Number pedido_finalizar "7"
           Exemplos.biblioteca).
  - vm_compute. reflexivity.
  - discriminate.
  - vm_compute. reflexivity.
Defined.

Example patch_reservas_respostas :
  let res := patch_reservas MemDb.executar Exemplos.Number pedido_finalizar
               (Some Exemplos.biblioteca) in
  let linhas_de (t : string) : list objeto :=
    match snd res with
    | Some d' => match d' !! t with Some tb => MemDb.linhas tb | None => [] end
    | None => []
    end in
  status (fst res) = 200
  /\ map (fun r => (campo r "Status", campo r "DataEntrega")) (linhas_de "reservas")
     = [(VStr "finalizada", VStr "2026-01-20")].
Proof. cbv zeta. split; vm_compute; reflexivity. Qed.

(** ** Reads and writes *)

Lemma MemDb_select_puro : select_puro MemDb.executar.
Proof.
  intros q s cols H. unfold MemDb.executar. rewrite H.
  destruct (s !! tabela q); [|reflexivity].
  destruct (List.find _ (filtros q)); [reflexivity|].
  destruct (List.find _ _); reflexivity.
Qed.

Section Leitura.

Context {Store : Type}.
Variable executar : consulta -> Store -> resposta * Store.
Hypothesis Hpuro : select_puro executar.

Lemma preserva_ret {A} (a : A) : preserva (@ret Store A a).
Proof. intros st. reflexivity. Qed.

Lemma preserva_throw {A} msg : preserva (@throw Store A msg).
Proof. intros st. reflexivity. Qed.

Lemma preserva_lift {A} (o : outcome A) : preserva (@lift Store A o).
Proof. intros st. reflexivity. Qed.

Lemma preserva_bind {A B} (m : @M Store A) (k : A -> @M Store B) :
  preserva m -> (forall a, preserva (k a)) -> preserva (bind m k).
Proof.
  intros Hm Hk st. unfold bind. specialize (Hm st).
  destruct (m st) as [[a|e] st']; cbn [snd] in Hm; subst st'; [apply Hk|reflexivity].
Qed.

Lemma preserva_consultar q cols :
  acao_de q = Select cols -> preserva (consultar executar q).
Proof.
  intros Hq [s|]; unfold consultar; [|reflexivity].
  pose proof (Hpuro q s cols Hq) as H.
  destruct (executar q s) as [r s']. cbn [snd] in H |- *. congruence.
Qed.

(** [try { return await m } catch { return b }] *)
Lemma preserva_recupera {A} (m : @M Store A) (b : A) :
  preserva m ->
  preserva (fun st => match m st with
                      | (Return a, st') => (Return a, st')
                      | (Throw _, st') => (Return b, st')
                      end).
Proof.
  intros Hm st. specialize (Hm st). destruct (m st) as [[a|e] st']; exact Hm.
Qed.

Lemma preserva_try_catch (m : @M Store response) h :
  preserva m -> forall st, snd (try_catch m h st) = st.
Proof.
  intros Hm st. unfold try_catch. specialize (Hm st).
  destruct (m st) as [[a|e] st']; exact Hm.
Qed.

Ltac so_le :=
  repeat first
    [ apply preserva_ret | apply preserva_throw | apply preserva_lift
    | eapply preserva_consultar; reflexivity
    | apply preserva_bind; [|intros ?]
    | match goal with
      | |- preserva (match ?x with _ => _ end) => destruct x
      | |- preserva (let _ := _ in _) => cbv zeta
      end ].

Lemma enriquecerMultas_preserva l : preserva (enriquecerMultas executar l).
Proof. unfold enriquecerMultas. so_le. Qed.

Lemma obterReservaIdsPorCliente_preserva c :
  preserva (obterReservaIdsPorCliente executar c).
Proof. unfold obterReservaIdsPorCliente. so_le. Qed.

Variable Number : value -> option Z.
Variable localeCompare : string -> string -> Z.
Variable sort : (objeto -> objeto -> Z) -> list objeto -> list objeto.
Variable hojeIso : string.

Lemma obterMultasFiltradas_preserva f :
  preserva (obterMultasFiltradas executar Number localeCompare sort hojeIso f).
Proof.
  unfold obterMultasFiltradas. so_le.
  all: first [ apply obterReservaIdsPorCliente_preserva
             | apply preserva_recupera, enriquecerMultas_preserva ].
Qed.

(** Against a store whose reads change nothing, [GET /multas] leaves the
    store as it found it, whatever the request. *)
Theorem get_multas_so_le (req : request) (st : option Store) :
  snd (get_multas executar Number localeCompare sort hojeIso req st) = st.
Proof.
  unfold get_multas. apply preserva_try_catch. so_le.
  all: first [ apply obterMultasFiltradas_preserva
             | apply obterReservaIdsPorCliente_preserva
             | apply preserva_recupera, enriquecerMultas_preserva ].
Qed.

End Leitura.

Lemma get_multas_so_le_witness :
  snd (get_multas MemDb.executar Exemplos.Number Exemplos.localeCompare Exemplos.sort
         Exemplos.hojeIso pedido_multas_cliente (Some Exemplos.biblioteca))
  = Some Exemplos.biblioteca.
Proof. apply (get_multas_so_le MemDb.executar MemDb_select_puro). Defined.


Section Insere.

Context {Store : Type}.
Variable executar : consulta -> Store -> resposta * Store.
Hypothesis Hpuro : select_puro executar.

Lemma bem_ret r : status r <> 201 -> bem executar (ret r).
Proof. intros H s. left. split; [reflexivity|exact H]. Qed.

Lemma bem_throw msg : bem executar (throw msg).
Proof. intros s. left. split; [reflexivity|]. discriminate. Qed.

Lemma bem_bind {A} (m : @M Store A) (k : A -> @M Store response) :
  preserva m -> (forall a, bem executar (k a)) -> bem executar (bind m k).
Proof.
  intros Hm Hk s. unfold try_catch, bind. specialize (Hm (Some s)).
  destruct (m (Some s)) as [[a|e] st'] eqn:E; cbn [snd] in Hm; subst st'.
  - apply Hk.
  - left. split; [reflexivity|]. discriminate.
Qed.

Lemma bem_insere (linha : objeto) (qntd : Z) (k : resposta -> @M Store response) :
  linha !! "Status" = Some (VStr "ativa") ->
  linha !! "QuantidadeReservada" = Some (VNum qntd) ->
  0 < qntd ->
  (forall r, exists resp, k r = ret resp /\ (status resp = 201 \/ status resp = 500)) ->
  bem executar (bind (consultar executar (from_insert "reservas" [linha] |> select)) k).
Proof.
  intros H1 H2 H3 Hk s. right. exists linha, qntd.
  split; [exact H1|]. split; [exact H2|]. split; [exact H3|].
  unfold try_catch, bind, consultar.
  destruct (executar _ s) as [r s']. cbn [snd].
  destruct (Hk r) as (resp & -> & Hs). cbn. auto.
Qed.

Lemma nao_trim_preserva nome v : preserva (@nao_trim Store nome v).
Proof. intros st. destruct v; reflexivity. Qed.

Variable Number : value -> option Z.
Variable parseInt : value -> option Z.

Ltac passo_bem :=
  first
    [ apply bem_throw
    | apply bem_ret; discriminate
    | eapply bem_insere;
      [ reflexivity
      | reflexivity
      | match goal with H : (?q <=? 0) = false |- 0 < ?q => apply Z.leb_gt in H; exact H end
      | intros r; destruct (error1 (single r)); eexists; (split; [reflexivity|]); auto ]
    | apply bem_bind;
      [ first [ apply nao_trim_preserva | apply preserva_lift
              | eapply (preserva_consultar executar Hpuro); reflexivity ]
      | intros ? ]
    | match goal with
      | |- bem _ (match (if ?b then _ else _) with _ => _ end) => destruct b eqn:?
      | |- bem _ (match ?x with _ => _ end) => destruct x eqn:?
      | |- bem _ (let _ := _ in _) => cbv zeta
      end ].

(** Against a store whose reads change nothing, [POST /reservas] either
    leaves the store as it was and does not answer 201, or runs a single
    insertion into [reservas] of one row with status ativa and a positive
    quantity: the copies available of the book are never written. *)
Theorem post_reservas_so_insere (req : request) (s : Store) :
  resultado_reserva executar s (post_reservas executar Number parseInt req (Some s)).
Proof.
  unfold post_reservas.
  match goal with
  | |- resultado_reserva _ _ (try_catch ?m _ _) => assert (H : bem executar m); [|apply H]
  end.
  repeat passo_bem.
Qed.

End Insere.

Lemma post_reservas_so_insere_witness :
  resultado_reserva MemDb.executar Exemplos.biblioteca (reservar "Casmurro" 2).
Proof.
  apply (post_reservas_so_insere MemDb.executar MemDb_select_puro Exemplos.Number
           Exemplos.parseInt (pedido_reserva "Casmurro" 2) Exemplos.biblioteca).
Defined.

(** The copies the book has available are the same after the reservation
    as before. *)
Example post_reservas_mantem_disponiveis :
  let res := reservar "Casmurro" 2 in
  let linhas_de (t : string) : list objeto :=
    match snd res with
    | Some d' => match d' !! t with Some tb => MemDb.linhas tb | None => [] end
    | None => []
    end in
  status (fst res) = 201
  /\ map (fun r => campo r "QuantidadeDisponivel") (linhas_de "livro") = [VNum 3; VNum 2]
  /\ map (fun r => (campo r "LivroID", campo r "QuantidadeReservada", campo r "Status"))
       (linhas_de "reservas")
     = [(VNum 1, VNum 1, VStr "ativa"); (VNum 1, VNum 2, VStr "ativa")].
Proof. cbv zeta. repeat split; vm_compute; reflexivity. Qed.

(** ** POST /auth/refresh and POST /devolucoes *)

Section Refresh.

Context {Store : Type}.
Variable executar : consulta -> Store -> resposta * Store.
Variable env : string -> option string.
Variable verify : string -> string -> Jwt.opcoes -> objeto + Jwt.erro_jwt.
Variable codifica : Jwt.token -> string.

(** [POST /auth/refresh] with a token that is not empty: when the token
    verifies with the refresh secret the user is read again by the id of the
    payload, and the access token issued carries the id, email and role
    stored now (user when there is none) with no new refresh token, or the
    answer is 401 when no single user is found; when it does not verify the
    store is not read, and the answer is 401 for an expired or invalid token
    and for any error whose message holds the word token, 500 otherwise. *)
Theorem post_auth_refresh_respostas (req : request) (tk : string) (s : Store) :
  campo (body req) "refreshToken" = VStr tk ->
  tk <> EmptyString ->
  let res := post_auth_refresh executar env verify codifica req (Some s) in
  match verify tk (Jwt.JWT_REFRESH_SECRET env) opcoes_verificacao with
  | inl payload =>
      let r := executar (from_select "usuarios" "*" |> eq "id" (campo payload "id")) s in
      snd res = Some (snd r)
      /\ match error1 (single (fst r)), data1 (single (fst r)) with
         | None, Some usuario =>
             status (fst res) = 200
             /\ corpo (fst res) !! "tokens"
                = Some (VObj {[ "accessToken" :=
                                  VStr (codifica (Jwt.gerarAccessToken env (payload_de usuario)));
                                "expiresIn" := VStr "15m" ]})
         | _, _ =>
             status (fst res) = 401
             /\ corpo (fst res) !! "message" = Some (VStr "Usuário não encontrado")
         end
  | inr e =>
      snd res = Some s
      /\ if (Jwt.ej_name e =? "TokenExpiredError")%string then
           status (fst res) = 401
           /\ corpo (fst res) !! "message" = Some (VStr "Refresh token expirado")
         else if (Jwt.ej_name e =? "JsonWebTokenError")%string then
           status (fst res) = 401
           /\ corpo (fst res) !! "message" = Some (VStr "Refresh token inválido")
         else if includes (Jwt.ej_message e) "token" then
           status (fst res) = 401
           /\ corpo (fst res) !! "message" = Some (VStr (Jwt.ej_message e))
         else
           status (fst res) = 500
           /\ corpo (fst res) !! "message" = Some (VStr "Erro ao renovar token")
  end.
Proof.
  intros Hb Htk. cbv zeta.
  unfold post_auth_refresh. rewrite Hb. cbn [truthy]. rewrite (nao_vazia tk Htk).
  cbn [negb]. unfold bind at 1, lift, verificarRefreshToken_de, Jwt.verificarRefreshToken.
  fold opcoes_verificacao.
  destruct (verify tk (Jwt.JWT_REFRESH_SECRET env) opcoes_verificacao) as [payload|e].
  - unfold bind, consultar, ret.
    destruct (executar _ s) as [r s']. cbn [fst snd].
    destruct (single r) as [[usuario|] [er|]]; cbn [error1 data1 fst snd];
      (split; [reflexivity|]); split; reflexivity.
  - unfold bind.
    destruct (Jwt.ej_name e =? "TokenExpiredError")%string.
    { cbv beta iota. change (includes "Refresh token expirado" "token") with true. cbv iota.
      cbn [fst snd]. split; [reflexivity|]. split; reflexivity. }
    destruct (Jwt.ej_name e =? "JsonWebTokenError")%string.
    { cbv beta iota. change (includes "Refresh token inválido" "token") with true. cbv iota.
      cbn [fst snd]. split; [reflexivity|]. split; reflexivity. }
    cbv beta iota.
    destruct (includes (Jwt.ej_message e) "token"); cbn [fst snd];
      (split; [reflexivity|]).
    + split; [reflexivity|]. unfold respostaErro. cbn [truthy]. reflexivity.
    + split; [reflexivity|]. unfold respostaErro. cbn [truthy corpo json].
      destruct (negb _); reflexivity.
Qed.

End Refresh.

Lemma post_auth_refresh_respostas_witness :
  let res := post_auth_refresh MemDb.executar sem_env verify_expirado
               (fun t => "token") pedido_refresh (Some Exemplos.biblioteca) in
  snd res = Some Exemplos.biblioteca
  /\ status (fst res) = 401
  /\ corpo (fst res) !! "message" = Some (VStr "Refresh token expirado").
Proof.
  exact (post_auth_refresh_respostas MemDb.executar sem_env verify_expirado
           (fun t => "token") pedido_refresh "abc.def.ghi" Exemplos.biblioteca
           ltac:(vm_compute; reflexivity) ltac:(discriminate)).
Defined.

Section Devolucao.

Context {Store : Type}.
Variable executar : consulta -> Store -> resposta * Store.
Variable Number : value -> option Z.
Variable agoraIso : string.

Lemma condicao_valida v :
  existsb (fun c => igual_estrito c v) condicoes_validas = true ->
  In v condicoes_validas /\ Validators.sanitizarEntrada v = v.
Proof.
  unfold condicoes_validas. cbn [existsb]. intros H.
  destruct v as [| |b|n|t|l|o]; try discriminate H. cbn [igual_estrito] in H.
  repeat (apply orb_prop in H; destruct H as [H|H]); try discriminate H;
    apply String.eqb_eq in H; subst t; (split; [cbn; auto|vm_compute; reflexivity]).
Qed.

(** [POST /devolucoes] either leaves the store alone and answers 400 or 500,
    or runs one insertion into [devolucao] of a single row: the reservation
    as given, the date as YYYY-MM-DD, one of the three conditions and the
    time of the request.  It writes nothing to the reservation or the book. *)
Theorem post_devolucoes_so_insere (req : request) (s : Store) :
  let res := post_devolucoes executar Number agoraIso req (Some s) in
  (snd res = Some s /\ (status (fst res) = 400 \/ status (fst res) = 500))
  \/ exists (linha : objeto) (d : string),
       linha = {[ "ReservaID" := campo (body req) "ReservaID";
                  "DataDevolucao" := VStr d;
                  "CondicaoLivro" := campo (body req) "CondicaoLivro";
                  "DataRegistro" := VStr agoraIso ]}
       /\ In (campo (body req) "CondicaoLivro") condicoes_validas
       /\ formatarData (campo (body req) "DataDevolucao") = Return d
       /\ snd res = Some (snd (executar (from_insert "devolucao" [linha] |> select) s))
       /\ (status (fst res) = 201 \/ status (fst res) = 500).
Proof.
  cbv zeta. unfold post_devolucoes, try_catch.
  destruct (negb (truthy (campo (body req) "ReservaID")) || isNaN Number (campo (body req) "ReservaID")).
  { left. split; [reflexivity|left; reflexivity]. }
  destruct (negb (truthy (campo (body req) "DataDevolucao"))
            || negb (Validators.validarData (campo (body req) "DataDevolucao"))).
  { left. split; [reflexivity|left; reflexivity]. }
  destruct (truthy (campo (body req) "CondicaoLivro")); cbn [negb orb].
  2:{ left. split; [reflexivity|left; reflexivity]. }
  destruct (existsb _ condicoes_validas) eqn:Ec; cbn [negb].
  2:{ left. split; [reflexivity|left; reflexivity]. }
  destruct (condicao_valida _ Ec) as [Hin Hs]. rewrite Hs.
  unfold bind at 1, lift.
  destruct (formatarData (campo (body req) "DataDevolucao")) as [d|e] eqn:Ef.
  2:{ left. split; [reflexivity|right; reflexivity]. }
  right. eexists _, d. split; [reflexivity|]. split; [exact Hin|]. split; [reflexivity|].
  unfold bind, consultar, ret, throw.
  destruct (executar _ s) as [r s']. cbn [snd].
  destruct (error r); [cbn; auto|].
  destruct (data r); cbn; auto.
Qed.

End Devolucao.

(** On the reference store a return leaves the reservation and the book
    as they were: the reservation stays ativa and no copy goes back. *)
Example post_devolucoes_so_regista :
  let res := post_devolucoes MemDb.executar Exemplos.Number "2026-01-20T10:00:00.000Z"
               pedido_devolucao (Some biblioteca_com_devolucao) in
  let linhas_de (t : string) : list objeto :=
    match snd res with
    | Some d' => match d' !! t with Some tb => MemDb.linhas tb | None => [] end
    | None => []
    end in
  status (fst res) = 201
  /\ map (fun r => campo r "Status") (linhas_de "reservas") = [VStr "ativa"]
  /\ map (fun r => campo r "QuantidadeDisponivel") (linhas_de "livro") = [VNum 3; VNum 2]
  /\ map (fun r => (campo r "ReservaID", campo r "DataDevolucao")) (linhas_de "devolucao")
     = [(VNum 7, VStr "2026-01-20")].
Proof. cbv zeta. repeat split; vm_compute; reflexivity. Qed.
